(** * Open-Papertrade: the trade / order ledger core, embedded in Rocq

    A shallow embedding of the parts of the Django backend that decide the
    ledger behaviour, followed by the properties of the specification
    proved (or refuted) on it.

    - [Str]          : the few [str] methods the code relies on.
    - [MarketHours]  : [users/market_hours.py].
    - [Models]       : the rows of [users/models.py].
    - [Xp]           : [users/xp_service.py].
    - [Achievements] : [users/achievement_service.py].
    - [Currency]     : [convert] of [stocks/services/currency_service.py].
    - [Views]        : the views of [users/views.py] for market trades,
                       limit orders and transfers.
    - [RankInfo]     : the rank summaries of [users/xp_service.py].
    - [Special]      : [award_special_achievement].
    - [Rates]        : [get_rate] of the currency service.
    - [RateSource]   : where the currency service takes its rates from, and
                       its cache.
    - [Preferences]  : the views that set the market and the currency.
    - [Reset]        : the view that resets an account.
    - [Watch]        : the views of the watchlist and the list of orders.
    - [Friends]      : the views of friend requests.

    Conventions.  A [Decimal] (and the few [float]s derived from one) is a
    rational number of [Q], and the arithmetic of the views is exact there.
    Request values are read at the scale of the column that stores them (8
    decimals for shares, 6 for prices); the rounding of cash and of the
    average cost to the scale of their [DecimalField] columns is not
    modelled.  Numeric results are stated with [==] on [Q] where a value is
    compared with a literal.  [str.upper] is modelled on ASCII.  A
    dictionary is a [gmap]; a table of rows with a unique key is a [gmap]
    from that key; a table read in insertion order is a [list].  A view
    returns its response together with the state the request leaves
    behind: a rejection returned from inside [transaction.atomic] commits
    what was saved before it, an uncaught exception gives back the state
    the request started from. *)

From Stdlib Require Import ZArith QArith Lqa Lia Ascii String List Bool.
From stdpp Require Import base option gmap strings list.

Local Open Scope string_scope.
Local Open Scope Z_scope.

(* ===================================================================== *)
(** * Strings                                                             *)
(* ===================================================================== *)

Module Str.

(** [str.upper] on the ASCII range: the letters a..z are mapped to A..Z and
    every other character code is left as it is. *)
Definition upper_ascii (c : ascii) : ascii :=
  let n := nat_of_ascii c in
  if ((97 <=? n)%nat && (n <=? 122)%nat)%bool then ascii_of_nat (n - 32) else c.

Fixpoint upper (s : string) : string :=
  match s with
  | EmptyString => EmptyString
  | String c s' => String (upper_ascii c) (upper s')
  end.

(** [s.startswith(p)] *)
Fixpoint startswith (p s : string) : bool :=
  match p, s with
  | EmptyString, _ => true
  | String _ _, EmptyString => false
  | String a p', String b s' => if Ascii.eqb a b then startswith p' s' else false
  end.

(** [sub in s]: [sub] occurs at some position of [s]. *)
Fixpoint contains (sub s : string) : bool :=
  if startswith sub s then true
  else match s with
       | EmptyString => false
       | String _ s' => contains sub s'
       end.

(** [s.endswith(suf)]: some tail of [s] is [suf]. *)
Fixpoint endswith (suf s : string) : bool :=
  if String.eqb s suf then true
  else match s with
       | EmptyString => false
       | String _ s' => endswith suf s'
       end.

End Str.

(* ===================================================================== *)
(** * users/market_hours.py                                               *)
(* ===================================================================== *)

Module MarketHours.

(** [datetime.time]; two times compare field by field. *)
Record time := mk_time { hour : Z; minute : Z; second : Z; microsecond : Z }.

Definition time_ltb (a b : time) : bool :=
  if hour a <? hour b then true else if hour b <? hour a then false else
  if minute a <? minute b then true else if minute b <? minute a then false else
  if second a <? second b then true else if second b <? second a then false else
  microsecond a <? microsecond b.

Definition time_geb (a b : time) : bool := negb (time_ltb a b).

Record schedule := mk_schedule {
  name : string;
  timezone : string;
  open : time;
  close : time;
  display_hours : string
}.

Definition US_SCHEDULE : schedule :=
  mk_schedule "US (NYSE)" "America/New_York"
              (mk_time 9 30 0 0) (mk_time 16 0 0 0) "9:30 AM - 4:00 PM ET".

Definition IN_SCHEDULE : schedule :=
  mk_schedule "India (NSE)" "Asia/Kolkata"
              (mk_time 9 15 0 0) (mk_time 15 30 0 0) "9:15 AM - 3:30 PM IST".

Definition MARKET_SCHEDULES : gmap string schedule :=
  <["US" := US_SCHEDULE]> (<["IN" := IN_SCHEDULE]> ∅).

(** A [datetime]: the instant it denotes, in microseconds since the epoch,
    and its [tzinfo].  For a naive value (no [tzinfo]) [timestamp] is its
    wall clock read as UTC, which is how the module reads it. *)
Record datetime := mk_datetime { timestamp : Z; tzinfo : option string }.

(** The answer of [service.get_market_status(market)]: the call raises, or
    returns [None], or returns the provider's dictionary. *)
Record market_status := mk_status {
  isOpen : bool;
  holiday : option string;
  session : string
}.

Inductive oracle_reply :=
| OracleRaises
| OracleReturns (status : option market_status).

(** The dictionary every branch returns; [r_holiday] is the key that only
    the closed provider answer carries. *)
Record gate_result := mk_result {
  is_open : bool;
  reason : string;
  market_name : string;
  r_display_hours : string;
  r_holiday : option (option string);
  source : string
}.

Section Gate.

(** The time-zone database behind [ZoneInfo]: the UTC offset, in
    microseconds, of a zone at an instant. *)
Variable utcoffset : string -> Z -> Z.

Definition DAY : Z := 86400000000.

(** [now.astimezone(tz)], as the local microsecond count. *)
Definition astimezone (tz : string) (now : datetime) : Z :=
  timestamp now + utcoffset tz (timestamp now).

(** [now.replace(tzinfo=ZoneInfo('UTC'))] *)
Definition replace_utc (now : datetime) : datetime :=
  mk_datetime (timestamp now) (Some "UTC").

(** [weekday()]: Monday is 0 and Sunday is 6; the epoch was a Thursday. *)
Definition weekday (local : Z) : Z := (local / DAY + 3) mod 7.

(** [.time()] *)
Definition time_of (local : Z) : time :=
  let us := local mod DAY in
  mk_time (us / 3600000000) ((us / 60000000) mod 60)
          ((us / 1000000) mod 60) (us mod 1000000).

Definition get_schedule (market : string) : schedule :=
  default US_SCHEDULE (MARKET_SCHEDULES !! market).

(** [_is_market_open_schedule(market, now)]; [clock] is what
    [datetime.now(tz)] reads when [now] is [None]. *)
Definition _is_market_open_schedule
    (clock : Z) (market : string) (now : option datetime) : gate_result :=
  let sched := get_schedule market in
  let tz := timezone sched in
  let local :=
    match now with
    | None => astimezone tz (mk_datetime clock (Some tz))
    | Some n =>
        match tzinfo n with
        | None => astimezone tz (replace_utc n)
        | Some _ => astimezone tz n
        end
    end in
  let market_name := name sched in
  let display_hours := display_hours sched in
  if 5 <=? weekday local then
    mk_result false
      (market_name ++ " is closed on weekends. Trading hours: "
                   ++ display_hours ++ ", Mon-Fri.")
      market_name display_hours None "schedule"
  else
    let current_time := time_of local in
    if (time_ltb current_time (open sched)
        || time_geb current_time (close sched))%bool then
      mk_result false
        (market_name ++ " is closed. Trading hours: "
                     ++ display_hours ++ ", Mon-Fri.")
        market_name display_hours None "schedule"
    else
      mk_result true (market_name ++ " is open")
        market_name display_hours None "schedule".

(** Truth value of [holiday] in [if holiday:]. *)
Definition truthy (h : option string) : bool :=
  match h with
  | Some (String _ _) => true
  | _ => false
  end.

Definition holiday_text (h : option string) : string := default "" h.

(** [is_market_open(market, symbol, now)] *)
Definition is_market_open
    (oracle : oracle_reply) (clock : Z)
    (market symbol : string) (now : option datetime) : gate_result :=
  if Str.contains "-USD" (Str.upper symbol) then
    mk_result true "Crypto markets are always open" "Crypto" "24/7" None "local"
  else
    let sched := get_schedule market in
    let market_name := name sched in
    let display_hours := display_hours sched in
    match now with
    | Some _ => _is_market_open_schedule clock market now
    | None =>
        match oracle with
        | OracleReturns (Some status) =>
            if isOpen status then
              mk_result true (market_name ++ " is open")
                market_name display_hours None "finnhub"
            else
              let reason :=
                if truthy (holiday status) then
                  market_name ++ " is closed for " ++ holiday_text (holiday status)
                    ++ ". Trading hours: " ++ display_hours ++ ", Mon-Fri."
                else
                  market_name ++ " is closed. Trading hours: "
                    ++ display_hours ++ ", Mon-Fri." in
              mk_result false reason market_name display_hours
                (Some (holiday status)) "finnhub"
        | OracleReturns None | OracleRaises =>
            _is_market_open_schedule clock market None
        end
    end.

End Gate.

(** [is_symbol_valid_for_market(symbol, market)] *)
Definition is_symbol_valid_for_market (symbol market : string) : bool * string :=
  let upper := Str.upper symbol in
  if Str.contains "-USD" upper then (true, "")
  else
    let is_indian_symbol :=
      (Str.endswith ".NS" upper || Str.endswith ".BO" upper)%bool in
    if (String.eqb market "IN" && negb is_indian_symbol)%bool then
      (false, symbol ++ " is not available in the India (NSE/BSE) market")
    else if (String.eqb market "US" && is_indian_symbol)%bool then
      (false, symbol ++ " is not available in the US market")
    else (true, "").

(** A zone table with fixed offsets, enough to run the gate: New York at
    UTC-5 and Kolkata at UTC+5:30. *)
Definition fixed_offsets (tz : string) (_ : Z) : Z :=
  if String.eqb tz "America/New_York" then -18000000000
  else if String.eqb tz "Asia/Kolkata" then 19800000000
  else 0.

End MarketHours.


(* ===================================================================== *)
(** * users/models.py: the rows of the ledger                             *)
(* ===================================================================== *)

Module Models.

(** [Decimal] comparisons as booleans. *)
Definition Qlt_bool (x y : Q) : bool := negb (Qle_bool y x).

Inductive side := BUY | SELL.

#[global] Instance side_eq_dec : EqDecision side.
Proof. solve_decision. Defined.

Inductive order_status := PENDING | FILLED | CANCELLED | EXPIRED.

#[global] Instance order_status_eq_dec : EqDecision order_status.
Proof. solve_decision. Defined.

Definition is_pending (s : order_status) : bool :=
  match s with PENDING => true | _ => false end.

(** [Holding], unique on (user, symbol): kept as the user's map from the
    symbol to the rest of the row. *)
Record Holding := mk_holding {
  h_name : string;
  h_shares : Q;
  h_avg_cost : Q;
  h_currency : string
}.

Record Trade := mk_trade {
  t_symbol : string;
  t_name : string;
  t_trade_type : side;
  t_shares : Q;
  t_price : Q;
  t_total : Q;
  t_currency : string;
  t_executed_at : Z
}.

Record LimitOrder := mk_order {
  o_symbol : string;
  o_name : string;
  o_trade_type : side;
  o_shares : Q;
  o_limit_price : Q;
  o_currency : string;
  o_status : order_status;
  o_created_at : Z;
  o_filled_at : option Z
}.

Record Achievement := mk_achievement {
  a_id : string;
  a_name : string;
  a_requirement_type : string;
  a_requirement_value : Z
}.

Record UserSettings := mk_settings {
  s_market : string;
  s_currency : string
}.

(** A [UserProfile] together with the rows that point to it.  An order is
    named by its position in [limit_orders]; [achievements] is the
    [UserAchievement] table of the user, from the achievement id to
    [unlocked_at] (unique on (user, achievement)). *)
Record Account := mk_account {
  username : string;
  buying_power : Q;
  initial_balance : Q;
  xp : Z;
  level : Z;
  rank : string;
  settings : option UserSettings;
  holdings : gmap string Holding;
  trades : list Trade;
  limit_orders : list LimitOrder;
  watchlist : list string;
  achievements : gmap string Z
}.

Definition set_buying_power (u : Account) (v : Q) : Account :=
  mk_account (username u) v (initial_balance u) (xp u) (level u) (rank u)
    (settings u) (holdings u) (trades u) (limit_orders u) (watchlist u)
    (achievements u).

Definition set_rank (u : Account) (x l : Z) (r : string) : Account :=
  mk_account (username u) (buying_power u) (initial_balance u) x l r
    (settings u) (holdings u) (trades u) (limit_orders u) (watchlist u)
    (achievements u).

Definition set_holdings (u : Account) (h : gmap string Holding) : Account :=
  mk_account (username u) (buying_power u) (initial_balance u) (xp u)
    (level u) (rank u) (settings u) h (trades u) (limit_orders u)
    (watchlist u) (achievements u).

Definition set_trades (u : Account) (t : list Trade) : Account :=
  mk_account (username u) (buying_power u) (initial_balance u) (xp u)
    (level u) (rank u) (settings u) (holdings u) t (limit_orders u)
    (watchlist u) (achievements u).

Definition set_limit_orders (u : Account) (o : list LimitOrder) : Account :=
  mk_account (username u) (buying_power u) (initial_balance u) (xp u)
    (level u) (rank u) (settings u) (holdings u) (trades u) o
    (watchlist u) (achievements u).

Definition set_achievements (u : Account) (a : gmap string Z) : Account :=
  mk_account (username u) (buying_power u) (initial_balance u) (xp u)
    (level u) (rank u) (settings u) (holdings u) (trades u)
    (limit_orders u) (watchlist u) a.

Definition set_status (o : LimitOrder) (s : order_status) : LimitOrder :=
  mk_order (o_symbol o) (o_name o) (o_trade_type o) (o_shares o)
    (o_limit_price o) (o_currency o) s (o_created_at o) (o_filled_at o).

Definition set_filled (o : LimitOrder) (now : Z) : LimitOrder :=
  mk_order (o_symbol o) (o_name o) (o_trade_type o) (o_shares o)
    (o_limit_price o) (o_currency o) FILLED (o_created_at o) (Some now).

(** A freshly registered account. *)
Definition new_account (uname : string) (balance : Q)
    (st : option UserSettings) : Account :=
  mk_account uname balance balance 0 1 "Retail Trader" st ∅ [] [] [] ∅.

End Models.

Import Models.

(* ===================================================================== *)
(** * users/xp_service.py                                                 *)
(* ===================================================================== *)

Module Xp.

Definition RANK_LADDER : list (Z * string * Z) :=
  [ (1, "Retail Trader", 0);
    (2, "Day Trader", 500);
    (3, "Swing Trader", 1500);
    (4, "Floor Trader", 4000);
    (5, "Fund Manager", 8000);
    (6, "Market Maker", 15000);
    (7, "Wall Street Legend", 30000) ].

Definition XP_TRADE_EXECUTED : Z := 25.
Definition XP_FIRST_TRADE_BONUS : Z := 75.
Definition XP_PROFITABLE_SELL : Z := 50.
Definition XP_ACHIEVEMENT_UNLOCKED : Z := 100.
Definition XP_5_HOLDINGS : Z := 150.
Definition XP_10_HOLDINGS : Z := 250.

Definition get_rank_for_xp (xp : Z) : Z * string :=
  fold_left
    (fun result row =>
       let '(level, title, required) := row in
       if required <=? xp then (level, title) else result)
    RANK_LADDER (1, "Retail Trader").

(** [award_xp(user, amount)] *)
Definition award_xp (user : Account) (amount : Z) : Account :=
  let xp' := xp user + amount in
  let '(new_level, new_rank) := get_rank_for_xp xp' in
  set_rank user xp' new_level new_rank.

(** [award_trade_xp(user, trade_type, sell_price, avg_buy_price)]: the XP
    gained and the user after the award. *)
Definition award_trade_xp (user : Account) (trade_type : side)
    (sell_price avg_buy_price : option Q) : Z * Account :=
  let xp_gained := 0 in
  let xp_gained := xp_gained + XP_TRADE_EXECUTED in
  let trade_count := length (trades user) in
  let xp_gained :=
    if (trade_count =? 1)%nat then xp_gained + XP_FIRST_TRADE_BONUS
    else xp_gained in
  let xp_gained :=
    match trade_type, sell_price, avg_buy_price with
    | SELL, Some sp, Some ab =>
        if Qlt_bool ab sp then xp_gained + XP_PROFITABLE_SELL else xp_gained
    | _, _, _ => xp_gained
    end in
  let holdings_count := size (holdings user) in
  let xp_gained :=
    if (holdings_count =? 5)%nat then xp_gained + XP_5_HOLDINGS
    else if (holdings_count =? 10)%nat then xp_gained + XP_10_HOLDINGS
    else xp_gained in
  if 0 <? xp_gained then (xp_gained, award_xp user xp_gained)
  else (xp_gained, user).

(** [award_achievement_xp(user, new_achievements)] *)
Definition award_achievement_xp (user : Account)
    (new_achievements : list Achievement) : Z * Account :=
  match new_achievements with
  | [] => (0, user)
  | _ =>
      let xp_gained := Z.of_nat (length new_achievements) * XP_ACHIEVEMENT_UNLOCKED in
      (xp_gained, award_xp user xp_gained)
  end.

End Xp.

(* ===================================================================== *)
(** * users/achievement_service.py                                        *)
(* ===================================================================== *)

Module Achievements.

Definition sum_Q (l : list Q) : Q := fold_left Qplus l 0%Q.

(** [_calculate_realized_profit(user)] *)
Definition _calculate_realized_profit (user : Account) : Q :=
  let sell_trades := filter (fun t => t_trade_type t = SELL) (trades user) in
  match sell_trades with
  | [] => 0%Q
  | _ =>
      fold_left
        (fun total_profit sell =>
           let buy_trades :=
             filter (fun t => t_trade_type t = BUY
                              ∧ t_symbol t = t_symbol sell
                              ∧ t_executed_at t <= t_executed_at sell)
                    (trades user) in
           match buy_trades with
           | [] => total_profit
           | _ =>
               let total_buy_cost :=
                 sum_Q (map (fun t => t_price t * t_shares t)%Q buy_trades) in
               let total_buy_shares := sum_Q (map t_shares buy_trades) in
               if Qeq_bool total_buy_shares 0 then total_profit
               else
                 let avg_buy_price := (total_buy_cost / total_buy_shares)%Q in
                 let profit := ((t_price sell - avg_buy_price) * t_shares sell)%Q in
                 (total_profit + profit)%Q
           end)
        sell_trades 0%Q
  end.

Section Catalog.

(** The [Achievement] table (its primary key is [a_id]). *)
Variable catalog : list Achievement.

(** [check_achievements(user)]: the newly unlocked achievements and the
    user with their [UserAchievement] rows; [now] is [timezone.now()]. *)
Definition check_achievements (now : Z) (user : Account)
    : list Achievement * Account :=
  let unlocked_ids : gset string := dom (achievements user) in
  let candidates :=
    filter (fun a => a_requirement_type a ≠ "special")
           (filter (fun a => a_id a ∉ unlocked_ids) catalog) in
  match candidates with
  | [] => ([], user)
  | _ =>
      let counts : gmap string Q := ∅ in
      let needed_types : gset string :=
        list_to_set (map a_requirement_type candidates) in
      let counts :=
        if decide ("trades_count" ∈ needed_types)
        then <["trades_count" := inject_Z (Z.of_nat (length (trades user)))]> counts
        else counts in
      let counts :=
        if decide ("holdings_count" ∈ needed_types)
        then <["holdings_count" := inject_Z (Z.of_nat (size (holdings user)))]> counts
        else counts in
      let counts :=
        if decide ("watchlist_count" ∈ needed_types)
        then <["watchlist_count" := inject_Z (Z.of_nat (length (watchlist user)))]> counts
        else counts in
      let counts :=
        if decide ("profit_amount" ∈ needed_types)
        then <["profit_amount" := _calculate_realized_profit user]> counts
        else counts in
      let newly_earned :=
        filter (fun a =>
                  let current_value :=
                    default 0%Q (counts !! a_requirement_type a) in
                  Qle_bool (inject_Z (a_requirement_value a)) current_value = true)
               candidates in
      match newly_earned with
      | [] => ([], user)
      | _ =>
          (* bulk_create(..., ignore_conflicts=True) *)
          let rows :=
            fold_left
              (fun table ach =>
                 match table !! a_id ach with
                 | Some _ => table
                 | None => <[a_id ach := now]> table
                 end)
              newly_earned (achievements user) in
          (newly_earned, set_achievements user rows)
      end
  end.

End Catalog.

End Achievements.

(* ===================================================================== *)
(** * stocks/services/currency_service.py                                 *)
(* ===================================================================== *)

Module Currency.

(** What [CurrencyExchangeService.get_rates()] does at one call: it raises
    (the cache backend fails), or returns a table of rates against USD
    (live, cached, set by the admin, or the hard-coded one). *)
Inductive rates_reply :=
| RatesRaise
| RatesReturn (rates : gmap string Q).

(** [convert(amount, from_currency, to_currency)]; [None] is an exception
    ([get_rates] raised, or the division by a zero rate did). *)
Definition convert (oracle : rates_reply) (amount : Q)
    (from_currency to_currency : string) : option Q :=
  if String.eqb from_currency to_currency then Some amount
  else
    match oracle with
    | RatesRaise => None
    | RatesReturn rates =>
        let from_rate := default 1%Q (rates !! from_currency) in
        let to_rate := default 1%Q (rates !! to_currency) in
        if Qeq_bool from_rate 0 then None
        else
          let usd_amount := (amount / from_rate)%Q in
          Some (usd_amount * to_rate)%Q
    end.

End Currency.

(* ===================================================================== *)
(** * users/views.py: trades, limit orders, transfers                     *)
(* ===================================================================== *)

Module Views.

Import Achievements.

(** The rejections of the views, named after the error kinds of the
    specification; each carries what the response body says. *)
Inductive error :=
| InvalidParameters (msg : string)
    (* 400: 'Invalid trade parameters', 'Invalid order parameters',
       'Invalid current price', 'Amount must be positive' *)
| MarketClosed (reason : string)          (* 400, marketClosed *)
| InvalidMarketForSymbol (msg : string)   (* 400 *)
| InsufficientFunds                       (* 400 'Insufficient buying power' *)
| NoHoldingForSymbol (symbol : string)    (* 400 'No holdings for <symbol>' *)
| InsufficientShares                      (* 400 'Insufficient shares' *)
| OrderNotPendingOrNotFound               (* 404 'Order not found or not pending' *)
| PriceConditionNotMet (s : side)         (* 400 'Price condition not met for <side>' *)
| RecipientRequired                       (* 400 'Recipient username is required' *)
| SelfTransfer                            (* 400 'Cannot transfer funds to yourself' *)
| UserNotFound                            (* 404 'User not found' *)
| NotFriends                              (* 403 *)
| CurrencyConversionFailed                (* 500 'Currency conversion failed' *)
| NotAuthenticated                        (* 401 *)
| ServerError.                            (* 500: an uncaught exception *)

Inductive response (A : Type) :=
| Ok (body : A)
| Rejected (e : error).

Arguments Ok {A} body.
Arguments Rejected {A} e.

(** The request body of [ExecuteTradeView.post]; [rq_symbol] and [rq_type]
    are [""] when the key is absent. *)
Record trade_request := mk_trade_request {
  rq_symbol : string;
  rq_name : option string;
  rq_type : string;
  rq_shares : Q;
  rq_price : Q;
  rq_currency : option string
}.

(** The request body of [LimitOrdersView.post]. *)
Record order_request := mk_order_request {
  oq_symbol : string;
  oq_name : option string;
  oq_type : string;
  oq_shares : Q;
  oq_limit_price : Q;
  oq_currency : option string
}.

(** What a request reads from outside the database: the clock
    ([timezone.now()], microseconds since the epoch) and the answer of the
    market-status provider. *)
Record env := mk_env {
  env_now : Z;
  env_market_status : MarketHours.oracle_reply
}.

Record trade_body := mk_trade_body {
  b_trade : Trade;
  b_order : option LimitOrder;
  b_buying_power : Q;
  b_xp : Z;
  b_level : Z;
  b_rank : string;
  b_new_achievements : list Achievement
}.

(** [trade_type not in ['BUY', 'SELL']] *)
Definition parse_side (s : string) : option side :=
  if String.eqb s "BUY" then Some BUY
  else if String.eqb s "SELL" then Some SELL
  else None.

(** The holding update of a BUY ([ExecuteTradeView.post] lines 364-382,
    [FillLimitOrderView.post] lines 735-752): [get_or_create], then the
    weighted average or the first lot.  [None]: the division raised. *)
Definition buy_holding (hs : gmap string Holding)
    (symbol name currency : string) (shares price total : Q)
    : option (gmap string Holding) :=
  match hs !! symbol with
  | Some holding =>
      let current_value := (h_shares holding * h_avg_cost holding)%Q in
      let new_value := (current_value + total)%Q in
      let new_shares := (h_shares holding + shares)%Q in
      if Qeq_bool new_shares 0 then None
      else
        Some (<[symbol := mk_holding (h_name holding) new_shares
                            (new_value / new_shares)%Q (h_currency holding)]> hs)
  | None =>
      Some (<[symbol := mk_holding name shares price currency]> hs)
  end.

(** The holding update of a SELL (lines 404-409 and 784-789). *)
Definition sell_holding (hs : gmap string Holding) (symbol : string)
    (holding : Holding) (shares : Q) : gmap string Holding :=
  let remaining := (h_shares holding - shares)%Q in
  if Qeq_bool remaining 0 then delete symbol hs
  else <[symbol := mk_holding (h_name holding) remaining
                      (h_avg_cost holding) (h_currency holding)]> hs.

(** The average buy price the views compute for the XP award (lines
    428-435 and 813-819). *)
Definition avg_buy_price_of (user : Account) (symbol : string) : option Q :=
  let buy_trades :=
    filter (fun t => t_symbol t = symbol ∧ t_trade_type t = BUY) (trades user) in
  match buy_trades with
  | [] => None
  | _ =>
      let total_cost := sum_Q (map (fun t => t_price t * t_shares t)%Q buy_trades) in
      let total_shares := sum_Q (map t_shares buy_trades) in
      Some (if Qlt_bool 0 total_shares then (total_cost / total_shares)%Q else 0%Q)
  end.

Section Views.

Variable utcoffset : string -> Z -> Z.
Variable catalog : list Achievement.

(** The tail shared by a market trade and a fill (lines 423-440 and
    808-823): achievements, then XP. *)
Definition reward (now : Z) (user : Account) (symbol : string)
    (trade_type : side) (price : Q) : list Achievement * Account :=
  let '(new_achievements, user) := check_achievements catalog now user in
  let sell_price := match trade_type with SELL => Some price | BUY => None end in
  let avg_buy_price :=
    match trade_type with
    | SELL => avg_buy_price_of user symbol
    | BUY => None
    end in
  let '(_, user) := Xp.award_trade_xp user trade_type sell_price avg_buy_price in
  let '(_, user) := Xp.award_achievement_xp user new_achievements in
  (new_achievements, user).

Definition user_market (user : Account) : string :=
  match settings user with
  | Some s => s_market s
  | None => "US"
  end.

(** [ExecuteTradeView.post] *)
Definition ExecuteTradeView_post (e : env) (rq : trade_request) (user : Account)
    : response trade_body * Account :=
  let symbol := Str.upper (rq_symbol rq) in
  let name := default symbol (rq_name rq) in
  let shares := rq_shares rq in
  let price := rq_price rq in
  let currency := default "USD" (rq_currency rq) in
  match parse_side (Str.upper (rq_type rq)) with
  | None => (Rejected (InvalidParameters "Invalid trade parameters"), user)
  | Some trade_type =>
    if (String.eqb symbol "" || Qle_bool shares 0 || Qle_bool price 0)%bool then
      (Rejected (InvalidParameters "Invalid trade parameters"), user)
    else
    let market_status :=
      MarketHours.is_market_open utcoffset (env_market_status e) (env_now e)
        (user_market user) symbol None in
    if negb (MarketHours.is_open market_status) then
      (Rejected (MarketClosed (MarketHours.reason market_status)), user)
    else
    let '(valid, market_error) :=
      match trade_type with
      | BUY => MarketHours.is_symbol_valid_for_market symbol (user_market user)
      | SELL => (true, "")
      end in
    if negb valid then (Rejected (InvalidMarketForSymbol market_error), user)
    else
    let total := (shares * price)%Q in
    let ledger : response Account :=
      match trade_type with
      | BUY =>
          if Qlt_bool (buying_power user) total then Rejected InsufficientFunds
          else
            let user' := set_buying_power user (buying_power user - total)%Q in
            match buy_holding (holdings user') symbol name currency shares price total with
            | None => Rejected ServerError
            | Some hs => Ok (set_holdings user' hs)
            end
      | SELL =>
          match holdings user !! symbol with
          | None => Rejected (NoHoldingForSymbol symbol)
          | Some holding =>
              if Qlt_bool (h_shares holding) shares then Rejected InsufficientShares
              else
                let user' := set_buying_power user (buying_power user + total)%Q in
                Ok (set_holdings user' (sell_holding (holdings user') symbol holding shares))
          end
      end in
    match ledger with
    | Rejected err => (Rejected err, user)
    | Ok user' =>
        let trade :=
          mk_trade symbol name trade_type shares price total currency (env_now e) in
        let user' := set_trades user' (trades user' ++ [trade]) in
        let '(new_achievements, user') :=
          reward (env_now e) user' symbol trade_type price in
        (Ok (mk_trade_body trade None (buying_power user') (xp user')
               (level user') (rank user') new_achievements),
         user')
    end
  end.

(** [LimitOrdersView.post] *)
Definition LimitOrdersView_post (now : Z) (rq : order_request) (user : Account)
    : response (LimitOrder * Q) * Account :=
  let symbol := Str.upper (oq_symbol rq) in
  let name := default symbol (oq_name rq) in
  let shares := oq_shares rq in
  let limit_price := oq_limit_price rq in
  let currency := default "USD" (oq_currency rq) in
  match parse_side (Str.upper (oq_type rq)) with
  | None => (Rejected (InvalidParameters "Invalid order parameters"), user)
  | Some trade_type =>
    if (String.eqb symbol "" || Qle_bool shares 0 || Qle_bool limit_price 0)%bool then
      (Rejected (InvalidParameters "Invalid order parameters"), user)
    else
    let total := (shares * limit_price)%Q in
    let checked : response Account :=
      match trade_type with
      | BUY =>
          if Qlt_bool (buying_power user) total then Rejected InsufficientFunds
          else Ok (set_buying_power user (buying_power user - total)%Q)
      | SELL =>
          match holdings user !! symbol with
          | None => Rejected (NoHoldingForSymbol symbol)
          | Some holding =>
              if Qlt_bool (h_shares holding) shares then Rejected InsufficientShares
              else Ok user
          end
      end in
    match checked with
    | Rejected err => (Rejected err, user)
    | Ok user' =>
        let order :=
          mk_order symbol name trade_type shares limit_price currency
                   PENDING now None in
        (Ok (order, buying_power user'),
         set_limit_orders user' (limit_orders user' ++ [order]))
    end
  end.

(** [LimitOrder.objects.get(id=order_id, user=user, status='PENDING')] *)
Definition get_pending (user : Account) (order_id : nat) : option LimitOrder :=
  match limit_orders user !! order_id with
  | Some order => if is_pending (o_status order) then Some order else None
  | None => None
  end.

(** [order.status = ...; order.save()] *)
Definition save_order (user : Account) (order_id : nat) (order : LimitOrder)
    : Account :=
  set_limit_orders user (<[order_id := order]> (limit_orders user)).

(** [CancelLimitOrderView.delete] *)
Definition CancelLimitOrderView_delete (order_id : nat) (user : Account)
    : response Q * Account :=
  match get_pending user order_id with
  | None => (Rejected OrderNotPendingOrNotFound, user)
  | Some order =>
      let user' :=
        match o_trade_type order with
        | BUY =>
            set_buying_power user
              (buying_power user + o_shares order * o_limit_price order)%Q
        | SELL => user
        end in
      let user' := save_order user' order_id (set_status order CANCELLED) in
      (Ok (buying_power user'), user')
  end.

(** [FillLimitOrderView.post] *)
Definition FillLimitOrderView_post (e : env) (order_id : nat) (current_price : Q)
    (user : Account) : response trade_body * Account :=
  if Qle_bool current_price 0 then
    (Rejected (InvalidParameters "Invalid current price"), user)
  else
  match get_pending user order_id with
  | None => (Rejected OrderNotPendingOrNotFound, user)
  | Some order =>
    if (bool_decide (o_trade_type order = BUY)
        && Qlt_bool (o_limit_price order) current_price)%bool then
      (Rejected (PriceConditionNotMet BUY), user)
    else if (bool_decide (o_trade_type order = SELL)
             && Qlt_bool current_price (o_limit_price order))%bool then
      (Rejected (PriceConditionNotMet SELL), user)
    else
    let total := (o_shares order * current_price)%Q in
    (* the outcome of the ledger branch: the user to go on with, or the
       response to return and the state that response leaves *)
    let ledger : Account + (error * Account) :=
      match o_trade_type order with
      | BUY =>
          match buy_holding (holdings user) (o_symbol order) (o_name order)
                  (o_currency order) (o_shares order) current_price total with
          | None => inr (ServerError, user)
          | Some hs =>
              let user' := set_holdings user hs in
              let reserved := (o_shares order * o_limit_price order)%Q in
              let actual := (o_shares order * current_price)%Q in
              if Qlt_bool actual reserved then
                inl (set_buying_power user'
                       (buying_power user' + (reserved - actual))%Q)
              else inl user'
          end
      | SELL =>
          match holdings user !! o_symbol order with
          | None =>
              inr (NoHoldingForSymbol (o_symbol order),
                   save_order user order_id (set_status order CANCELLED))
          | Some holding =>
              if Qlt_bool (h_shares holding) (o_shares order) then
                inr (InsufficientShares,
                     save_order user order_id (set_status order CANCELLED))
              else
                let user' := set_buying_power user (buying_power user + total)%Q in
                inl (set_holdings user'
                       (sell_holding (holdings user') (o_symbol order) holding
                          (o_shares order)))
          end
      end in
    match ledger with
    | inr (err, user') => (Rejected err, user')
    | inl user' =>
        let trade :=
          mk_trade (o_symbol order) (o_name order) (o_trade_type order)
            (o_shares order) current_price total (o_currency order) (env_now e) in
        let user' := set_trades user' (trades user' ++ [trade]) in
        let order' := set_filled order (env_now e) in
        let user' := save_order user' order_id order' in
        let '(new_achievements, user') :=
          reward (env_now e) user' (o_symbol order) (o_trade_type order)
            current_price in
        (Ok (mk_trade_body trade (Some order') (buying_power user') (xp user')
               (level user') (rank user') new_achievements),
         user')
    end
  end.

End Views.

(** ** Transfers between friends *)

Record Friendship := mk_friendship {
  f_from_user : string;
  f_to_user : string;
  f_status : string
}.

Record Transfer := mk_transfer {
  tr_from_user : string;
  tr_to_user : string;
  tr_amount : Q;                    (* USD equivalent *)
  tr_display_amount : Q;            (* in the sender's currency *)
  tr_currency : string;
  tr_recipient_currency : string;
  tr_recipient_display_amount : Q;
  tr_created_at : Z
}.

(** The tables a transfer touches; the users are keyed by their (unique)
    username. *)
Record World := mk_world {
  users : gmap string Account;
  friendships : list Friendship;
  transfers : list Transfer
}.

(** [user.settings.currency or 'USD'], ['USD'] without settings. *)
Definition user_currency (user : Account) : string :=
  match settings user with
  | Some s => if String.eqb (s_currency s) "" then "USD" else s_currency s
  | None => "USD"
  end.

Definition is_friend (w : World) (a b : string) : bool :=
  existsb
    (fun f =>
       (bool_decide ((f_from_user f = a ∧ f_to_user f = b)
                     ∨ (f_from_user f = b ∧ f_to_user f = a))
        && String.eqb (f_status f) "accepted")%bool)
    (friendships w).

(** [TransferFundsView.post] for the authenticated user [me];
    [to_username] is the request's value after [strip()], [rates1] and
    [rates2] are what the rate service answers at the first and at the
    second conversion. *)
Definition TransferFundsView_post (now : Z) (rates1 rates2 : Currency.rates_reply)
    (me to_username : string) (amount : Q) (w : World)
    : response Transfer * World :=
  match users w !! me with
  | None => (Rejected NotAuthenticated, w)
  | Some user =>
    if Qle_bool amount 0 then
      (Rejected (InvalidParameters "Amount must be positive"), w)
    else if String.eqb to_username "" then (Rejected RecipientRequired, w)
    else if String.eqb (username user) to_username then (Rejected SelfTransfer, w)
    else
    match users w !! to_username with
    | None => (Rejected UserNotFound, w)
    | Some recipient =>
      if negb (is_friend w (username user) (username recipient)) then
        (Rejected NotFriends, w)
      else
      let sender_currency := user_currency user in
      let recipient_currency := user_currency recipient in
      if Qlt_bool (buying_power user) amount then (Rejected InsufficientFunds, w)
      else
      match Currency.convert rates1 amount sender_currency recipient_currency with
      | None => (Rejected CurrencyConversionFailed, w)
      | Some recipient_amount =>
          let user' := set_buying_power user (buying_power user - amount)%Q in
          let recipient' :=
            set_buying_power recipient (buying_power recipient + recipient_amount)%Q in
          let usd_amount :=
            match Currency.convert rates2 amount sender_currency "USD" with
            | Some usd => usd
            | None => amount
            end in
          let transfer :=
            mk_transfer (username user) (username recipient) usd_amount amount
              sender_currency recipient_currency recipient_amount now in
          (Ok transfer,
           mk_world (<[to_username := recipient']> (<[me := user']> (users w)))
                    (friendships w) (transfers w ++ [transfer]))
      end
    end
  end.

(** ** Sequences of ledger operations on one account *)

Inductive operation :=
| MarketTrade (e : env) (rq : trade_request)
| SubmitOrder (now : Z) (rq : order_request)
| CancelOrder (order_id : nat)
| FillOrder (e : env) (order_id : nat) (current_price : Q).

Section Run.

Variable utcoffset : string -> Z -> Z.
Variable catalog : list Achievement.

(** The account a request leaves behind. *)
Definition run (user : Account) (op : operation) : Account :=
  match op with
  | MarketTrade e rq => snd (ExecuteTradeView_post utcoffset catalog e rq user)
  | SubmitOrder now rq => snd (LimitOrdersView_post now rq user)
  | CancelOrder order_id => snd (CancelLimitOrderView_delete order_id user)
  | FillOrder e order_id current_price =>
      snd (FillLimitOrderView_post catalog e order_id current_price user)
  end.

Definition run_all (user : Account) (ops : list operation) : Account :=
  fold_left run ops user.

End Run.

End Views.

(* ===================================================================== *)
(** * users/xp_service.py: the next rank                                  *)
(* ===================================================================== *)

Module RankInfo.

Record next_rank := mk_next_rank {
  nr_level : Z;
  nr_rank : string;
  nr_xpRequired : Z;
  nr_xpRemaining : Z
}.

(** The loop of [get_next_rank_info]: the first rung above [xp]. *)
Fixpoint first_above (ladder : list (Z * string * Z)) (xp : Z) : option next_rank :=
  match ladder with
  | [] => None
  | (level, title, required) :: rest =>
      if xp <? required then
        Some (mk_next_rank level title required (required - xp))
      else first_above rest xp
  end.

(** [get_next_rank_info(xp)]; [None] at the top of the ladder. *)
Definition get_next_rank_info (xp : Z) : option next_rank :=
  first_above Xp.RANK_LADDER xp.

Record rank_info := mk_rank_info {
  ri_level : Z;
  ri_rank : string;
  ri_xp : Z;
  ri_nextRank : option next_rank
}.

(** [get_rank_info(user)] *)
Definition get_rank_info (user : Account) : rank_info :=
  mk_rank_info (level user) (rank user) (xp user) (get_next_rank_info (xp user)).

End RankInfo.

(* ===================================================================== *)
(** * users/achievement_service.py: special achievements                  *)
(* ===================================================================== *)

Module Special.

(** [award_special_achievement(user, achievement_id)]: the achievement
    when it is newly awarded, [None] when it is unknown or already
    unlocked; [catalog] is the [Achievement] table, [now] is
    [timezone.now()]. *)
Definition award_special_achievement (catalog : list Achievement) (now : Z)
    (user : Account) (achievement_id : string) : option Achievement * Account :=
  match find (fun a => String.eqb (a_id a) achievement_id) catalog with
  | None => (None, user)
  | Some achievement =>
      (* get_or_create(user, achievement, defaults unlocked_at) *)
      match achievements user !! a_id achievement with
      | Some _ => (None, user)
      | None =>
          (Some achievement,
           set_achievements user
             (<[a_id achievement := now]> (achievements user)))
      end
  end.

End Special.

(* ===================================================================== *)
(** * stocks/services/currency_service.py: rates                          *)
(* ===================================================================== *)

Module Rates.

Import Currency.


End Rates.

(* ===================================================================== *)
(** * stocks/services/currency_service.py: where the rates come from      *)
(* ===================================================================== *)

Module RateSource.

Definition HARDCODED_FALLBACK_RATES : gmap string Q :=
  list_to_map
    [ ("USD", 1%Q); ("EUR", (84 # 100)%Q); ("GBP", (73 # 100)%Q);
      ("INR", (9055 # 100)%Q); ("JPY", (15270 # 100)%Q); ("CAD", (136 # 100)%Q);
      ("AUD", (141 # 100)%Q); ("CHF", (77 # 100)%Q); ("CNY", (691 # 100)%Q);
      ("SGD", (126 # 100)%Q) ].

Definition SUPPORTED_CURRENCIES : gset string := dom HARDCODED_FALLBACK_RATES.

(** What is outside the service at one fetch: the two API keys of the
    settings ([""] when unset), the ['rates'] object of each provider's
    answer ([None]: the request failed or the answer has no ['rates']), and
    [SiteSettings.exchange_rates] ([None]: loading raised, or the field is
    not a dictionary). *)
Record sources := mk_sources {
  OPEN_EXCHANGE_API_KEY : string;
  open_exchange_answer : option (gmap string Q);
  EXCHANGERATE_API_KEY : string;
  exchangerate_api_answer : option (gmap string Q);
  site_exchange_rates : option (gmap string Q)
}.

(** [if rates:] for a dictionary or [None]. *)
Definition truthy (rates : option (gmap string Q)) : bool :=
  match rates with
  | Some m => negb (size m =? 0)%nat
  | None => false
  end.

(** [_fetch_from_open_exchange(api_key)] *)
Definition _fetch_from_open_exchange (s : sources) : option (gmap string Q) :=
  open_exchange_answer s.

(** [_fetch_from_exchangerate_api(api_key)] *)
Definition _fetch_from_exchangerate_api (s : sources) : option (gmap string Q) :=
  match exchangerate_api_answer s with
  | Some data_rates =>
      let rates :=
        filter (fun kv : string * Q => kv.1 ∈ SUPPORTED_CURRENCIES) data_rates in
      if truthy (Some rates) then Some rates else None
  | None => None
  end.

(** [_get_admin_rates()] *)
Definition _get_admin_rates (s : sources) : option (gmap string Q) :=
  match site_exchange_rates s with
  | Some exchange_rates =>
      if (0 <? size exchange_rates)%nat
      then Some (<["USD" := 1%Q]> exchange_rates)
      else None
  | None => None
  end.

(** [_fetch_rates()]: the table and the name of its source. *)
Definition _fetch_rates (s : sources) : gmap string Q * string :=
  let first :=
    if negb (String.eqb (OPEN_EXCHANGE_API_KEY s) "") then
      let rates := _fetch_from_open_exchange s in
      if truthy rates then rates else None
    else None in
  match first with
  | Some rates => (rates, "open_exchange_api")
  | None =>
    let second :=
      if negb (String.eqb (EXCHANGERATE_API_KEY s) "") then
        let rates := _fetch_from_exchangerate_api s in
        if truthy rates then rates else None
      else None in
    match second with
    | Some rates => (rates, "exchangerate_api")
    | None =>
      let admin_rates := _get_admin_rates s in
      match (if truthy admin_rates then admin_rates else None) with
      | Some rates => (rates, "admin")
      | None => (HARDCODED_FALLBACK_RATES, "hardcoded")
      end
    end
  end.

(** The two cache entries of the service; an entry is [None] when it was
    never set, was deleted or has expired. *)
Record cache := mk_cache {
  exchange_rates : option (gmap string Q);
  exchange_rates_source : option string
}.

(** [get_rates()]: the table and the cache it leaves. *)
Definition get_rates (c : cache) (s : sources) : gmap string Q * cache :=
  match (if truthy (exchange_rates c) then exchange_rates c else None) with
  | Some cached => (cached, c)
  | None =>
      let '(rates, source) := _fetch_rates s in
      (rates, mk_cache (Some rates) (Some source))
  end.

(** [clear_cache()] *)
Definition clear_cache (c : cache) : cache := mk_cache None None.

End RateSource.

(* ===================================================================== *)
(** * users/views.py: market and currency of an account                   *)
(* ===================================================================== *)

Module Preferences.

Import Views.

(** [settings.save()] *)
Definition set_settings (u : Account) (s : UserSettings) : Account :=
  mk_account (username u) (buying_power u) (initial_balance u) (xp u)
    (level u) (rank u) (Some s) (holdings u) (trades u) (limit_orders u)
    (watchlist u) (achievements u).

(** The settings row the two views work on: the user's, or the one
    [UserSettings.objects.create(user=user)] makes, with the defaults of
    the model. *)
Definition settings_row (user : Account) : UserSettings :=
  match settings user with
  | None => mk_settings "US" "USD"
  | Some s => s
  end.

(** The keys of [UpdateMarketView.MARKETS]. *)
Definition MARKETS : list string := ["US"; "IN"].


(** [UpdateMarketView.post]; [market] is the request's value, [None] when
    the key is absent.  The body is the market stored. *)
Definition UpdateMarketView_post (market : option string) (user : Account)
    : response string * Account :=
  let market := Str.upper (default "US" market) in
  if negb (bool_decide (market ∈ MARKETS)) then
    (Rejected (InvalidParameters "Invalid market. Valid options: US, IN"), user)
  else
    let settings := settings_row user in
    let settings := mk_settings market (s_currency settings) in
    (Ok (s_market settings), set_settings user settings).


End Preferences.

(* ===================================================================== *)
(** * users/views.py: resetting an account                                *)
(* ===================================================================== *)

Module Reset.

Definition RESET_COOLDOWN_DAYS : Z := 30.

(** The two answers of [ResetAccountView.post]: 200 with the buying power,
    429 with the days that remain. *)
Inductive reset_response :=
| ResetDone (buyingPower : Q)
| TooManyRequests (days_remaining : Z).

(** [(a - b).days] for two datetimes in microseconds. *)
Definition days_between (a b : Z) : Z := (a - b) / MarketHours.DAY.

(** [ResetAccountView.post].  [last_reset_at] is the column of the user's
    row, returned with the account; [now1] and [now2] are the two readings
    of [timezone.now()].  The price alerts, which the view deletes too, are
    not part of [Account]. *)
Definition ResetAccountView_post (now1 now2 : Z) (last_reset_at : option Z)
    (user : Account) : reset_response * (Account * option Z) :=
  let cooldown :=
    match last_reset_at with
    | Some last =>
        let days_since_reset := days_between now1 last in
        if days_since_reset <? RESET_COOLDOWN_DAYS
        then Some (RESET_COOLDOWN_DAYS - days_since_reset)
        else None
    | None => None
    end in
  match cooldown with
  | Some days_remaining => (TooManyRequests days_remaining, (user, last_reset_at))
  | None =>
      let user :=
        mk_account (username user) (initial_balance user) (initial_balance user)
          0 1 "Retail Trader" (settings user) ∅ [] [] [] ∅ in
      (ResetDone (buying_power user), (user, Some now2))
  end.

End Reset.

(* ===================================================================== *)
(** * users/views.py: the watchlist and the list of orders                *)
(* ===================================================================== *)

Module Watch.

Import Achievements.

Inductive watchlist_error :=
| SymbolRequired          (* 400 'Symbol required' *)
| AlreadyInWatchlist      (* 400 'Already in watchlist' *)
| NotInWatchlist.         (* 404 'Not in watchlist' *)

Definition set_watchlist (u : Account) (w : list string) : Account :=
  mk_account (username u) (buying_power u) (initial_balance u) (xp u)
    (level u) (rank u) (settings u) (holdings u) (trades u) (limit_orders u)
    w (achievements u).

(** [WatchlistView.post]; a row of the watchlist is kept as its symbol
    (unique per user), [symbol] is [""] when the key is absent. *)
Definition WatchlistView_post (catalog : list Achievement) (now : Z)
    (symbol : string) (user : Account)
    : (watchlist_error + string * list Achievement) * Account :=
  let symbol := Str.upper symbol in
  if String.eqb symbol "" then (inl SymbolRequired, user)
  else
    (* get_or_create(user=user, symbol=symbol) *)
    if bool_decide (symbol ∈ watchlist user) then (inl AlreadyInWatchlist, user)
    else
      let user := set_watchlist user (watchlist user ++ [symbol]) in
      let '(new_achievements, user) := check_achievements catalog now user in
      (inr (symbol, new_achievements), user).

(** [WatchlistView.delete] *)
Definition WatchlistView_delete (symbol : string) (user : Account)
    : (watchlist_error + unit) * Account :=
  let symbol := Str.upper symbol in
  let deleted := length (filter (fun s => s = symbol) (watchlist user)) in
  if (deleted =? 0)%nat then (inl NotInWatchlist, user)
  else
    (inr tt, set_watchlist user (filter (fun s => s ≠ symbol) (watchlist user))).

(** The value of the [status] column. *)
Definition status_name (s : order_status) : string :=
  match s with
  | PENDING => "PENDING"
  | FILLED => "FILLED"
  | CANCELLED => "CANCELLED"
  | EXPIRED => "EXPIRED"
  end.

(** [LimitOrdersView.get]: the orders the query selects, each with its
    number; [status] is [None] when the parameter is absent.  The response
    lists them newest first; they are given here in the order of their
    numbers. *)
Definition LimitOrdersView_get (status : option string) (user : Account)
    : list (nat * LimitOrder) :=
  let status_filter := default "PENDING" status in
  filter (fun row => status_name (o_status row.2) = status_filter)
         (imap pair (limit_orders user)).

End Watch.

(* ===================================================================== *)
(** * users/views.py: friend requests                                     *)
(* ===================================================================== *)

Module Friends.

Import Views.

Inductive friend_error :=
| FriendNotAuthenticated  (* 401 *)
| CannotFriendYourself    (* 400 'Cannot send friend request to yourself' *)
| FriendNotFound          (* 404 'User not found' *)
| AlreadyFriends          (* 400 'Already friends' *)
| RequestAlreadySent      (* 400 'Friend request already sent' *)
| FriendConflict          (* 500: the insert violates unique (from_user, to_user) *)
| InvalidAction           (* 400 'Action must be accept or reject' *)
| RequestNotFound         (* 404 'Friend request not found' *)
| FriendshipNotFound.     (* 404 'Friendship not found' *)

(** [Q(from_user=a, to_user=b) | Q(from_user=b, to_user=a)] *)
Definition between (a b : string) (f : Friendship) : Prop :=
  (f_from_user f = a ∧ f_to_user f = b) ∨ (f_from_user f = b ∧ f_to_user f = a).

#[global] Instance between_dec a b f : Decision (between a b f).
Proof. unfold between. apply _. Defined.

Definition set_friendships (w : World) (fs : list Friendship) : World :=
  mk_world (users w) fs (transfers w).

Definition set_f_status (f : Friendship) (s : string) : Friendship :=
  mk_friendship (f_from_user f) (f_to_user f) s.

(** [Friendship.objects.create(from_user=..., to_user=...)].  The table is
    read in the order of its primary key, a random UUID: the new row lands
    at a position [pos] of that order which the view does not choose.
    [None]: the insert raises, a row with this pair exists. *)
Definition create (pos : nat) (from_user to_user : string) (fs : list Friendship)
    : option (nat * list Friendship) :=
  if existsb (fun f => bool_decide (f_from_user f = from_user ∧ f_to_user f = to_user))
             fs
  then None
  else
    let id := Nat.min pos (length fs) in
    Some (id, (take id fs ++ mk_friendship from_user to_user "pending" :: drop id fs)%list).

(** [SendFriendRequestView.post] for the authenticated user [me]; a row is
    named by its position in the table, the body is the status and the
    row. *)
Definition SendFriendRequestView_post (pos : nat) (me username_ : string) (w : World)
    : (friend_error + string * nat) * World :=
  match users w !! me with
  | None => (inl FriendNotAuthenticated, w)
  | Some user =>
    if String.eqb (username user) username_ then (inl CannotFriendYourself, w)
    else
    match users w !! username_ with
    | None => (inl FriendNotFound, w)
    | Some target =>
      let created :=
        match create pos (username user) (username target) (friendships w) with
        | None => (inl FriendConflict, w)
        | Some (id, fs) => (inr ("pending", id), set_friendships w fs)
        end in
      (* .filter(...).first() *)
      match list_find (between (username user) (username target)) (friendships w) with
      | Some (id, existing) =>
          if String.eqb (f_status existing) "accepted" then (inl AlreadyFriends, w)
          else if (String.eqb (f_from_user existing) (username user)
                   && String.eqb (f_status existing) "pending")%bool
          then (inl RequestAlreadySent, w)
          else if (String.eqb (f_from_user existing) (username target)
                   && String.eqb (f_status existing) "pending")%bool
          then
            (inr ("accepted", id),
             set_friendships w
               (<[id := set_f_status existing "accepted"]> (friendships w)))
          else created
      | None => created
      end
    end
  end.

(** [RespondFriendRequestView.post]; [action] is [None] when the key is
    absent. *)
Definition RespondFriendRequestView_post (me : string) (friendship_id : nat)
    (action : option string) (w : World) : (friend_error + string) * World :=
  match users w !! me with
  | None => (inl FriendNotAuthenticated, w)
  | Some user =>
    if negb (bool_decide (action = Some "accept" ∨ action = Some "reject")) then
      (inl InvalidAction, w)
    else
    (* get(id=friendship_id, to_user=user, status='pending') *)
    match friendships w !! friendship_id with
    | Some friendship =>
        if (String.eqb (f_to_user friendship) (username user)
            && String.eqb (f_status friendship) "pending")%bool
        then
          if bool_decide (action = Some "accept") then
            (inr "accepted",
             set_friendships w
               (<[friendship_id := set_f_status friendship "accepted"]>
                  (friendships w)))
          else
            (inr "rejected",
             set_friendships w (delete friendship_id (friendships w)))
        else (inl RequestNotFound, w)
    | None => (inl RequestNotFound, w)
    end
  end.

(** [RemoveFriendView.delete] *)
Definition RemoveFriendView_delete (me : string) (friendship_id : nat) (w : World)
    : (friend_error + unit) * World :=
  match users w !! me with
  | None => (inl FriendNotAuthenticated, w)
  | Some user =>
    match friendships w !! friendship_id with
    | Some friendship =>
        if (String.eqb (f_from_user friendship) (username user)
            || String.eqb (f_to_user friendship) (username user))%bool
        then (inr tt, set_friendships w (delete friendship_id (friendships w)))
        else (inl FriendshipNotFound, w)
    | None => (inl FriendshipNotFound, w)
    end
  end.

End Friends.

(* ===================================================================== *)
(** * The vocabulary of the properties                                   *)
(* ===================================================================== *)

Import Achievements Views.

(** ** XP of a trade *)

(** The part of the award that does not look at the holdings. *)
Definition xp_before_milestones (user : Account) (trade_type : side)
    (sell_price avg_buy_price : option Q) : Z :=
  Xp.XP_TRADE_EXECUTED
  + (if (length (trades user) =? 1)%nat then Xp.XP_FIRST_TRADE_BONUS else 0)
  + match trade_type, sell_price, avg_buy_price with
    | SELL, Some sp, Some ab => if Qlt_bool ab sp then Xp.XP_PROFITABLE_SELL else 0
    | _, _, _ => 0
    end.

Definition milestone_bonus (holdings_count : nat) : Z :=
  if (holdings_count =? 5)%nat then Xp.XP_5_HOLDINGS
  else if (holdings_count =? 10)%nat then Xp.XP_10_HOLDINGS
  else 0.

(** ** The achievement check, piece by piece *)

Section Pieces.

Variable catalog : list Achievement.

(** The pieces of [check_achievements], named. *)
Definition candidates_of (user : Account) : list Achievement :=
  filter (fun a => a_requirement_type a ≠ "special")
         (filter (fun a => a_id a ∉ dom (achievements user)) catalog).

Definition counts_of (user : Account) (needed_types : gset string)
    : gmap string Q :=
  let counts : gmap string Q := ∅ in
  let counts :=
    if decide ("trades_count" ∈ needed_types)
    then <["trades_count" := inject_Z (Z.of_nat (length (trades user)))]> counts
    else counts in
  let counts :=
    if decide ("holdings_count" ∈ needed_types)
    then <["holdings_count" := inject_Z (Z.of_nat (size (holdings user)))]> counts
    else counts in
  let counts :=
    if decide ("watchlist_count" ∈ needed_types)
    then <["watchlist_count" := inject_Z (Z.of_nat (length (watchlist user)))]> counts
    else counts in
  if decide ("profit_amount" ∈ needed_types)
  then <["profit_amount" := _calculate_realized_profit user]> counts
  else counts.

Definition earned (counts : gmap string Q) (a : Achievement) : Prop :=
  Qle_bool (inject_Z (a_requirement_value a))
           (default 0%Q (counts !! a_requirement_type a)) = true.

#[global] Instance earned_dec counts a : Decision (earned counts a).
Proof. unfold earned. apply _. Defined.

Definition needed_of (l : list Achievement) : gset string :=
  list_to_set (map a_requirement_type l).

Definition newly_earned_of (user : Account) : list Achievement :=
  filter (earned (counts_of user (needed_of (candidates_of user))))
         (candidates_of user).

Definition unlock (now : Z) (table : gmap string Z) (ach : Achievement)
    : gmap string Z :=
  match table !! a_id ach with
  | Some _ => table
  | None => <[a_id ach := now]> table
  end.

(** What a requirement type counts, when the type is one of the four the
    service knows. *)
Definition known_count (user : Account) (ty : string) : option Q :=
  if decide (ty = "profit_amount") then Some (_calculate_realized_profit user)
  else if decide (ty = "watchlist_count")
       then Some (inject_Z (Z.of_nat (length (watchlist user))))
  else if decide (ty = "holdings_count")
       then Some (inject_Z (Z.of_nat (size (holdings user))))
  else if decide (ty = "trades_count")
       then Some (inject_Z (Z.of_nat (length (trades user))))
  else None.

End Pieces.

(** ** Ledger states *)

(** Two accounts with the same cash, holdings, trade log and orders. *)
Definition same_ledger (u v : Account) : Prop :=
  buying_power u = buying_power v
  /\ holdings u = holdings v
  /\ trades u = trades v
  /\ limit_orders u = limit_orders v.

(** What may happen to an order between two states: nothing, or the step
    from PENDING to CANCELLED or FILLED; what was ordered never changes. *)
Definition order_moves (o o' : LimitOrder) : Prop :=
  (o_status o' = o_status o
   \/ (o_status o = PENDING
       /\ (o_status o' = CANCELLED \/ o_status o' = FILLED)))
  /\ o_trade_type o' = o_trade_type o
  /\ o_symbol o' = o_symbol o
  /\ o_shares o' = o_shares o
  /\ o_limit_price o' = o_limit_price o.


(** The invariant of the ledger: cash is not negative, every holding has a
    positive number of shares, every order is for a positive number of
    shares at a positive price. *)
Definition positive_holding (_ : string) (h : Holding) : Prop :=
  (0 < h_shares h)%Q.




(** ** Example accounts *)

(** A Monday, 15:00 UTC, with the provider answering that the market is
    open. *)
Definition env_open : env :=
  mk_env 1704726000000000
    (MarketHours.OracleReturns (Some (MarketHours.mk_status true None "market"))).

Definition alice : Account := new_account "alice" 100000 None.

(** Alice buys 5 MSFT at 280 and places a SELL limit order for them at 300
    (it is order 0). *)
Definition alice_selling_msft : Account :=
  run_all MarketHours.fixed_offsets [] alice
    [ MarketTrade env_open (mk_trade_request "MSFT" None "BUY" 5 280 None);
      SubmitOrder 1704726000000000
        (mk_order_request "MSFT" None "SELL" 5 300 None) ].


(** A catalogue in the shape of the seeded one. *)
Definition seed_catalog : list Achievement :=
  [ mk_achievement "first_trade" "First Trade" "trades_count" 1;
    mk_achievement "trader_10" "Active Trader" "trades_count" 10;
    mk_achievement "profit_1000" "First Milestone" "profit_amount" 1000;
    mk_achievement "diversified_5" "Diversified" "holdings_count" 5;
    mk_achievement "early_adopter" "Early Adopter" "special" 0 ].

(** Alice and Carol keep their accounts in EUR, Bob in USD; Alice is a
    friend of both. *)
Definition bank : World :=
  mk_world
    (<["alice" := new_account "alice" 1000 (Some (mk_settings "US" "EUR"))]>
       (<["bob" := new_account "bob" 500 (Some (mk_settings "US" "USD"))]>
          (<["carol" := new_account "carol" 200 (Some (mk_settings "IN" "EUR"))]>
             ∅)))
    [mk_friendship "bob" "alice" "accepted";
     mk_friendship "alice" "carol" "accepted"]
    [].


(** ** Times of day *)

(** The microseconds from midnight to [h]:[m]. *)
Definition at_time (h m : Z) : Z := (h * 60 + m) * 60000000.

(** The trading window of a market, as the gate reads it: India for "IN",
    New York for everything else. *)
Definition trading_window (market : string) : Z * Z :=
  if String.eqb market "IN" then (at_time 9 15, at_time 15 30)
  else (at_time 9 30, at_time 16 0).

(** A symbol carries one of the Indian suffixes. *)
Definition indian_symbol (symbol : string) : bool :=
  (Str.endswith ".NS" (Str.upper symbol) || Str.endswith ".BO" (Str.upper symbol))%bool.

Definition crypto_symbol (symbol : string) : bool :=
  Str.contains "-USD" (Str.upper symbol).

(** ** Ranks *)

(** The level and rank an account shows are those of its XP. *)
Definition rank_cached (user : Account) : Prop :=
  (level user, rank user) = Xp.get_rank_for_xp (xp user).

(** ** What the ledger views leave alone *)

(** Two accounts with the same identity, settings, watchlist, XP, rank and
    unlocked achievements. *)
Definition same_profile (u v : Account) : Prop :=
  username u = username v
  /\ initial_balance u = initial_balance v
  /\ settings u = settings v
  /\ watchlist u = watchlist v
  /\ xp u = xp v
  /\ level u = level v
  /\ rank u = rank v
  /\ achievements u = achievements v.

(** Every unlocked achievement of [u] is unlocked in [v], at the same
    time. *)
Definition keeps_unlocks (u v : Account) : Prop :=
  forall id at_, achievements u !! id = Some at_ -> achievements v !! id = Some at_.

(** ** Realized profit *)



(** ** Rates *)



(** ** Book value *)


(** A Saturday, 12:00 UTC, with the provider answering that the market is
    closed. *)
Definition env_closed : env :=
  mk_env 1704542400000000
    (MarketHours.OracleReturns (Some (MarketHours.mk_status false None "market"))).

(** Alice with her market set to India. *)
Definition alice_in_india : Account :=
  new_account "alice" 100000 (Some (mk_settings "IN" "INR")).

(** ** The sources of the rates *)

(** [rates] where [if rates:] holds. *)
Definition usable (rates : option (gmap string Q)) : option (gmap string Q) :=
  if RateSource.truthy rates then rates else None.

(** What each step of the cascade of [_fetch_rates] contributes. *)
Definition open_exchange_table (s : RateSource.sources) : option (gmap string Q) :=
  if negb (String.eqb (RateSource.OPEN_EXCHANGE_API_KEY s) "")
  then usable (RateSource._fetch_from_open_exchange s)
  else None.

Definition exchangerate_api_table (s : RateSource.sources)
    : option (gmap string Q) :=
  if negb (String.eqb (RateSource.EXCHANGERATE_API_KEY s) "")
  then usable (RateSource._fetch_from_exchangerate_api s)
  else None.

Definition admin_table (s : RateSource.sources) : option (gmap string Q) :=
  usable (RateSource._get_admin_rates s).



(** ** Friends *)

(** No row of the friendship table links the two users. *)
Definition strangers (w : World) (a b : string) : Prop :=
  Forall (fun f => ¬ Friends.between a b f) (friendships w).

(** The account stored under [name] carries that name. *)
Definition account_of (w : World) (name : string) : Prop :=
  exists user, users w !! name = Some user /\ username user = name.

(** The table with a new row at position [id]. *)
Definition with_row (w : World) (id : nat) (row : Friendship) : World :=
  Friends.set_friendships w
    (take id (friendships w) ++ row :: drop id (friendships w))%list.

(* ===================================================================== *)
(** * Properties                                                          *)
(* ===================================================================== *)

(** ** Strings *)

Lemma startswith_app p s : Str.startswith p s = true <-> exists t, s = p ++ t.
Proof.
  revert s. induction p as [|a p IH]; intros s; simpl.
  - split; [intros _; exists s; reflexivity | reflexivity].
  - destruct s as [|b s].
    + split; [discriminate | intros [t Ht]; discriminate].
    + destruct (Ascii.eqb_spec a b) as [->|Hne].
      * rewrite IH. split; intros [t Ht]; exists t.
        -- now rewrite Ht.
        -- now injection Ht.
      * split; [discriminate | intros [t Ht]; injection Ht; congruence].
Qed.

(** [contains] is substring containment: the needle may sit anywhere. *)
Lemma contains_spec sub s :
  Str.contains sub s = true <-> exists pre post, s = pre ++ sub ++ post.
Proof.
  induction s as [|c s IH]; simpl.
  - destruct (Str.startswith sub "") eqn:E.
    + apply startswith_app in E as [t Ht].
      split; [intros _; exists "", t; exact Ht | reflexivity].
    + split; [discriminate|]. intros (pre & post & H).
      destruct pre; simpl in H.
      * assert (Str.startswith sub "" = true) by (apply startswith_app; eauto).
        congruence.
      * discriminate.
  - destruct (Str.startswith sub (String c s)) eqn:E.
    + apply startswith_app in E as [t Ht].
      split; [intros _; exists "", t; exact Ht | reflexivity].
    + rewrite IH. split.
      * intros (pre & post & ->). exists (String c pre), post. reflexivity.
      * intros (pre & post & H). destruct pre as [|d pre]; simpl in H.
        -- assert (Str.startswith sub (String c s) = true)
             by (apply startswith_app; eauto).
           congruence.
        -- injection H as _ ->. eauto.
Qed.

(** ** The market gate *)

Section GateFacts.

Variable utcoffset : string -> Z -> Z.

Lemma schedule_ignores_clock clock clock' market now :
  MarketHours._is_market_open_schedule utcoffset clock market (Some now)
  = MarketHours._is_market_open_schedule utcoffset clock' market (Some now).
Proof. reflexivity. Qed.

Lemma explicit_now_uses_schedule oracle clock market symbol now :
  Str.contains "-USD" (Str.upper symbol) = false ->
  MarketHours.is_market_open utcoffset oracle clock market symbol (Some now)
  = MarketHours._is_market_open_schedule utcoffset clock market (Some now).
Proof.
  intros Hc. unfold MarketHours.is_market_open. now rewrite Hc.
Qed.

Lemma weekend_is_closed clock market now :
  5 <= MarketHours.weekday
         (MarketHours.astimezone utcoffset
            (MarketHours.timezone (MarketHours.get_schedule market)) now) ->
  let r := MarketHours._is_market_open_schedule utcoffset clock market (Some now) in
  MarketHours.is_open r = false /\ MarketHours.source r = "schedule".
Proof.
  intros Hw. cbv zeta. unfold MarketHours._is_market_open_schedule.
  assert (MarketHours.astimezone utcoffset
            (MarketHours.timezone (MarketHours.get_schedule market))
            (MarketHours.replace_utc now)
          = MarketHours.astimezone utcoffset
              (MarketHours.timezone (MarketHours.get_schedule market)) now)
    as Hnaive by reflexivity.
  destruct (MarketHours.tzinfo now); [|rewrite Hnaive];
    (apply Z.leb_le in Hw; rewrite Hw; now split).
Qed.

End GateFacts.

(** C7.  Called with an explicit [now], the gate never looks at the status
    provider (nor at the clock): its answer is the same whatever the
    provider would say.  For a symbol that is not crypto that answer is
    the schedule's; in particular, for the market US and a [now] that is a
    Saturday or a Sunday in New York, it is closed, with source
    "schedule". *)
Theorem C7_explicit_now_schedule_only
    (utcoffset : string -> Z -> Z)
    (oracle : MarketHours.oracle_reply) (clock : Z)
    (market symbol : string) (now : MarketHours.datetime) :
  (forall oracle' clock',
      MarketHours.is_market_open utcoffset oracle clock market symbol (Some now)
      = MarketHours.is_market_open utcoffset oracle' clock' market symbol (Some now))
  /\ (Str.contains "-USD" (Str.upper symbol) = false ->
      MarketHours.is_market_open utcoffset oracle clock market symbol (Some now)
      = MarketHours._is_market_open_schedule utcoffset clock market (Some now)
      /\ (5 <= MarketHours.weekday
                 (MarketHours.astimezone utcoffset "America/New_York" now) ->
          let r := MarketHours.is_market_open utcoffset oracle clock "US" symbol
                     (Some now) in
          MarketHours.is_open r = false /\ MarketHours.source r = "schedule")).
Proof.
  split.
  - intros oracle' clock'. unfold MarketHours.is_market_open.
    destruct (Str.contains "-USD" (Str.upper symbol)); reflexivity.
  - intros Hc. split.
    + now apply explicit_now_uses_schedule.
    + intros Hw. cbv zeta.
      rewrite explicit_now_uses_schedule by exact Hc.
      now apply weekend_is_closed.
Qed.

(** Saturday 6 January 2024, 15:00 UTC (10:00 in New York), symbol AAPL,
    while the provider says the market is open. *)
Lemma C7_witness :
  let now := MarketHours.mk_datetime 1704553200000000 None in
  let oracle := MarketHours.OracleReturns
                  (Some (MarketHours.mk_status true None "market")) in
  let r := MarketHours.is_market_open MarketHours.fixed_offsets oracle 0 "US"
             "AAPL" (Some now) in
  Str.contains "-USD" (Str.upper "AAPL") = false
  /\ MarketHours.weekday
       (MarketHours.astimezone MarketHours.fixed_offsets "America/New_York" now) = 5
  /\ MarketHours.is_open r = false /\ MarketHours.source r = "schedule".
Proof.
  cbv zeta. split; [reflexivity|]. split; [reflexivity|].
  destruct (C7_explicit_now_schedule_only MarketHours.fixed_offsets
              (MarketHours.OracleReturns
                 (Some (MarketHours.mk_status true None "market")))
              0 "US" "AAPL" (MarketHours.mk_datetime 1704553200000000 None))
    as [_ H].
  destruct (H eq_refl) as [_ Hweekend].
  apply Hweekend. vm_compute. discriminate.
Defined.

(** C10.  Crypto is detected by containment: as soon as "-USD" occurs
    anywhere in the upper-cased symbol, the gate answers open with source
    "local" for every market, provider answer, clock and [now], and the
    symbol is valid for every market, with an empty message. *)
Theorem C10_crypto_by_containment
    (utcoffset : string -> Z -> Z)
    (oracle : MarketHours.oracle_reply) (clock : Z)
    (market symbol pre post : string) (now : option MarketHours.datetime) :
  Str.upper symbol = pre ++ "-USD" ++ post ->
  let r := MarketHours.is_market_open utcoffset oracle clock market symbol now in
  MarketHours.is_open r = true
  /\ MarketHours.source r = "local"
  /\ MarketHours.is_symbol_valid_for_market symbol market = (true, "").
Proof.
  intros Hsym. cbv zeta.
  assert (Str.contains "-USD" (Str.upper symbol) = true) as Hc
    by (apply contains_spec; eauto).
  unfold MarketHours.is_market_open, MarketHours.is_symbol_valid_for_market.
  rewrite Hc. repeat split.
Qed.

(** The symbol x-usdt: "-USD" is inside it, not at its end. *)
Lemma C10_witness :
  Str.endswith "-USD" (Str.upper "x-usdt") = false
  /\ (let r := MarketHours.is_market_open MarketHours.fixed_offsets
                 MarketHours.OracleRaises 0 "IN" "x-usdt" None in
      MarketHours.is_open r = true
      /\ MarketHours.source r = "local"
      /\ MarketHours.is_symbol_valid_for_market "x-usdt" "IN" = (true, "")).
Proof.
  split; [reflexivity|].
  apply (C10_crypto_by_containment MarketHours.fixed_offsets
           MarketHours.OracleRaises 0 "IN" "x-usdt" "X" "T" None).
  reflexivity.
Defined.

(** ** XP of a trade *)

Lemma award_trade_xp_gained user trade_type sell_price avg_buy_price :
  fst (Xp.award_trade_xp user trade_type sell_price avg_buy_price)
  = xp_before_milestones user trade_type sell_price avg_buy_price
    + milestone_bonus (size (holdings user)).
Proof.
  unfold Xp.award_trade_xp, xp_before_milestones, milestone_bonus.
  cbv zeta.
  match goal with |- fst (if ?c then _ else _) = _ => destruct c end; simpl fst;
    destruct (length (trades user) =? 1)%nat;
    destruct trade_type, sell_price as [sp|], avg_buy_price as [ab|];
    try destruct (Qlt_bool ab sp);
    destruct (size (holdings user) =? 5)%nat;
    destruct (size (holdings user) =? 10)%nat; reflexivity.
Qed.


(** ** Achievements *)

Section AchievementFacts.

Variable catalog : list Achievement.

Lemma check_achievements_eq now user :
  check_achievements catalog now user
  = match candidates_of catalog user with
    | [] => ([], user)
    | _ =>
        match newly_earned_of catalog user with
        | [] => ([], user)
        | _ => (newly_earned_of catalog user,
                set_achievements user
                  (fold_left (unlock now) (newly_earned_of catalog user)
                     (achievements user)))
        end
    end.
Proof. reflexivity. Qed.

Lemma counts_of_lookup user needed ty :
  ty ∈ needed -> counts_of user needed !! ty = known_count user ty.
Proof.
  intros Hin. unfold counts_of, known_count. cbv zeta.
  repeat case_decide; subst;
    repeat (rewrite lookup_insert; case_decide; try congruence);
    try rewrite lookup_empty; try reflexivity; try contradiction.
Qed.

Lemma unlock_all_dom now l table :
  dom (fold_left (unlock now) l table)
  = dom table ∪ list_to_set (map a_id l).
Proof.
  revert table. induction l as [|a l IH]; intros table; simpl.
  - now rewrite (right_id_L ∅ (∪)).
  - rewrite IH. unfold unlock.
    destruct (table !! a_id a) eqn:E.
    + assert ({[a_id a]} ∪ dom table = dom table) as Hin.
      { apply subseteq_union_1_L, singleton_subseteq_l, elem_of_dom. eauto. }
      now rewrite (assoc_L (∪) (dom table) {[a_id a]}),
        (comm_L (∪) (dom table) {[a_id a]}), Hin.
    + rewrite dom_insert_L.
      now rewrite (assoc_L (∪) (dom table) {[a_id a]}),
        (comm_L (∪) (dom table) {[a_id a]}).
Qed.

Lemma filter_none {A} (P : A -> Prop) `{forall x, Decision (P x)} (l : list A) :
  (forall x, x ∈ l -> ~ P x) -> filter P l = [].
Proof.
  induction l as [|x l IH]; intros Hall; [reflexivity|].
  rewrite filter_cons. destruct (decide (P x)) as [Hp|_].
  - exfalso. apply (Hall x); [left | exact Hp].
  - apply IH. intros y Hy. apply Hall. now right.
Qed.

Lemma elem_of_candidates user a :
  a ∈ candidates_of catalog user
  <-> ((a_requirement_type a ≠ "special")
       /\ (a_id a ∉ dom (achievements user)) /\ (a ∈ catalog)).
Proof.
  unfold candidates_of. rewrite !list_elem_of_filter. tauto.
Qed.

Lemma needed_of_elem l a : a ∈ l -> a_requirement_type a ∈ needed_of l.
Proof.
  intros Ha. unfold needed_of. apply elem_of_list_to_set, list_elem_of_In, in_map.
  now apply list_elem_of_In.
Qed.

(** After the unlocks of a first pass, none of the achievements still a
    candidate is earned. *)
Lemma second_pass_earns_nothing now user :
  let user' :=
    set_achievements user
      (fold_left (unlock now) (newly_earned_of catalog user) (achievements user)) in
  newly_earned_of catalog user' = [].
Proof.
  cbv zeta.
  set (user' := set_achievements user _).
  unfold newly_earned_of at 1. apply filter_none. intros a Ha He.
  apply elem_of_candidates in Ha as Ha'. destruct Ha' as (Hsp & Hid & Hcat).
  change (achievements user')
    with (fold_left (unlock now) (newly_earned_of catalog user) (achievements user)) in Hid.
  rewrite unlock_all_dom in Hid.
  assert (a ∈ candidates_of catalog user) as Hcand.
  { apply elem_of_candidates. repeat split; [exact Hsp | set_solver | exact Hcat]. }
  apply Hid. apply elem_of_union_r, elem_of_list_to_set, list_elem_of_In, in_map.
  apply list_elem_of_In. unfold newly_earned_of. apply list_elem_of_filter.
  split; [|exact Hcand].
  unfold earned in *.
  rewrite counts_of_lookup by now apply needed_of_elem.
  rewrite counts_of_lookup in He by now apply needed_of_elem.
  exact He.
Qed.

End AchievementFacts.

(** C9.  Whatever the catalogue and the account, a second achievement
    check right after a first one (nothing else written in between)
    returns the empty list and leaves the account, its [UserAchievement]
    rows included, as the first check left it. *)
Theorem C9_check_achievements_idempotent
    (catalog : list Achievement) (now now' : Z) (user : Account) :
  let first := check_achievements catalog now user in
  check_achievements catalog now' (snd first) = ([], snd first).
Proof.
  cbv zeta. rewrite (check_achievements_eq catalog now user).
  destruct (candidates_of catalog user) eqn:Ecand.
  - simpl snd. rewrite check_achievements_eq, Ecand. reflexivity.
  - destruct (newly_earned_of catalog user) eqn:Enew.
    + simpl snd. rewrite check_achievements_eq, Ecand, Enew. reflexivity.
    + rewrite <- Enew. cbn [snd]. rewrite check_achievements_eq.
      rewrite (second_pass_earns_nothing catalog now user).
      now destruct (candidates_of catalog (set_achievements _ _)).
Qed.

(** ** Decimal comparisons *)

Lemma Qlt_bool_true x y : Qlt_bool x y = true <-> (x < y)%Q.
Proof.
  unfold Qlt_bool. rewrite negb_true_iff.
  split.
  - intros H. apply Qnot_le_lt. intros Hle.
    apply Qle_bool_iff in Hle. congruence.
  - intros H. destruct (Qle_bool y x) eqn:E; [|reflexivity].
    apply Qle_bool_iff in E. exfalso. exact (Qlt_not_le _ _ H E).
Qed.

Lemma Qlt_bool_false x y : Qlt_bool x y = false <-> (y <= x)%Q.
Proof.
  unfold Qlt_bool. rewrite negb_false_iff. apply Qle_bool_iff.
Qed.

Lemma Qle_bool_false x y : Qle_bool x y = false <-> (y < x)%Q.
Proof.
  rewrite <- Qlt_bool_true. unfold Qlt_bool.
  now rewrite negb_true_iff.
Qed.

(** ** The gamification tail leaves the ledger alone *)

Lemma same_ledger_refl u : same_ledger u u.
Proof. repeat split. Qed.

Lemma same_ledger_trans u v w :
  same_ledger u v -> same_ledger v w -> same_ledger u w.
Proof.
  intros (?&?&?&?) (?&?&?&?). repeat split; congruence.
Qed.

Lemma award_xp_ledger user amount : same_ledger (Xp.award_xp user amount) user.
Proof.
  unfold Xp.award_xp. destruct (Xp.get_rank_for_xp _). repeat split.
Qed.

Lemma award_trade_xp_ledger user trade_type sell_price avg_buy_price :
  same_ledger (snd (Xp.award_trade_xp user trade_type sell_price avg_buy_price))
              user.
Proof.
  unfold Xp.award_trade_xp. cbv zeta.
  match goal with |- same_ledger (snd (if ?c then _ else _)) _ => destruct c end;
    [apply award_xp_ledger | apply same_ledger_refl].
Qed.

Lemma award_achievement_xp_ledger user new_achievements :
  same_ledger (snd (Xp.award_achievement_xp user new_achievements)) user.
Proof.
  destruct new_achievements; [apply same_ledger_refl | apply award_xp_ledger].
Qed.

Lemma check_achievements_ledger catalog now user :
  same_ledger (snd (check_achievements catalog now user)) user.
Proof.
  rewrite check_achievements_eq.
  destruct (candidates_of catalog user); [apply same_ledger_refl|].
  destruct (newly_earned_of catalog user); repeat split.
Qed.

Lemma reward_ledger catalog now user symbol trade_type price :
  same_ledger (snd (reward catalog now user symbol trade_type price)) user.
Proof.
  unfold reward.
  pose proof (check_achievements_ledger catalog now user) as H1.
  destruct (check_achievements catalog now user) as [new_achievements u1].
  simpl in H1.
  match goal with
  | |- context [Xp.award_trade_xp u1 ?t ?s ?a] =>
      pose proof (award_trade_xp_ledger u1 t s a) as H2;
      destruct (Xp.award_trade_xp u1 t s a) as [g2 u2]
  end.
  simpl in H2.
  pose proof (award_achievement_xp_ledger u2 new_achievements) as H3.
  destruct (Xp.award_achievement_xp u2 new_achievements) as [g3 u3].
  simpl in *. eauto using same_ledger_trans.
Qed.

(** Splits the result of [reward] in a goal, keeping what it leaves
    unchanged. *)
Ltac reward_step :=
  match goal with
  | |- context [reward ?c ?n ?u ?s ?t ?p] =>
      let H := fresh "Hreward" in
      pose proof (reward_ledger c n u s t p) as H;
      destruct (reward c n u s t p) as [? ?];
      cbn [snd] in H;
      destruct H as (Hr_cash & Hr_holdings & Hr_trades & Hr_orders)
  end.

(** ** Limit orders: lookups *)

Lemma get_pending_Some user order_id order :
  get_pending user order_id = Some order
  <-> (limit_orders user !! order_id = Some order /\ o_status order = PENDING).
Proof.
  unfold get_pending. destruct (limit_orders user !! order_id) as [o|].
  - destruct (o_status o) eqn:E; simpl; split;
      try (intros [= <-]; now split);
      intros [[= <-] Hs]; congruence.
  - split; [discriminate | intros [? _]; discriminate].
Qed.


(** ** C4: a fill whose price violates the limit *)

(** C4, as the claim states it, fails: a pending SELL order at 300 and a
    fill request with currentPrice 0 (what the view reads when the key is
    absent).  The price violates the limit condition, and the view answers
    'Invalid current price', not 'Price condition not met'. *)
Lemma C4_counterexample :
  limit_orders alice_selling_msft !! 0%nat
  = Some (mk_order "MSFT" "MSFT" SELL 5 300 "USD" PENDING 1704726000000000 None)
  /\ (0 < 300)%Q
  /\ fst (FillLimitOrderView_post [] env_open 0 0 alice_selling_msft)
     = Rejected (InvalidParameters "Invalid current price")
  /\ fst (FillLimitOrderView_post [] env_open 0 0 alice_selling_msft)
     <> Rejected (PriceConditionNotMet SELL).
Proof.
  repeat split; discriminate.
Qed.

(** C4, amended.  For a pending order and a currentPrice that violates its
    limit condition, the fill is rejected and the account is left exactly
    as it was (the order still pending; cash, holdings and trade log
    untouched).  The rejection is PriceConditionNotMet when currentPrice is
    positive, and InvalidParameters when it is not. *)
Theorem C4_violating_price_changes_nothing
    (catalog : list Achievement) (e : env) (order_id : nat)
    (current_price : Q) (user : Account) (order : LimitOrder) :
  limit_orders user !! order_id = Some order ->
  o_status order = PENDING ->
  (o_trade_type order = BUY /\ (o_limit_price order < current_price)%Q)
  \/ (o_trade_type order = SELL /\ (current_price < o_limit_price order)%Q) ->
  let out := FillLimitOrderView_post catalog e order_id current_price user in
  snd out = user
  /\ ((0 < current_price)%Q ->
      fst out = Rejected (PriceConditionNotMet (o_trade_type order)))
  /\ ((current_price <= 0)%Q ->
      fst out = Rejected (InvalidParameters "Invalid current price")).
Proof.
  intros Hl Hs Hviol. cbv zeta.
  assert (get_pending user order_id = Some order) as Hp
    by now apply get_pending_Some.
  unfold FillLimitOrderView_post.
  destruct (Qle_bool current_price 0) eqn:Epos.
  - apply Qle_bool_iff in Epos. repeat split.
    intros Hlt. exfalso. exact (Qlt_not_le _ _ Hlt Epos).
  - apply Qle_bool_false in Epos. rewrite Hp.
    destruct Hviol as [[Ht Hv]|[Ht Hv]]; rewrite Ht;
      apply Qlt_bool_true in Hv as Hb; rewrite Hb; simpl.
    + repeat split. intros Hle. exfalso. exact (Qlt_not_le _ _ Epos Hle).
    + repeat split. intros Hle. exfalso. exact (Qlt_not_le _ _ Epos Hle).
Qed.

(** Order 0 of [alice_selling_msft] (SELL 5 MSFT at 300) and a fill at
    299. *)
Lemma C4_witness :
  let out := FillLimitOrderView_post [] env_open 0 299 alice_selling_msft in
  snd out = alice_selling_msft
  /\ ((0 < 299)%Q -> fst out = Rejected (PriceConditionNotMet SELL))
  /\ ((299 <= 0)%Q -> fst out = Rejected (InvalidParameters "Invalid current price")).
Proof.
  apply (C4_violating_price_changes_nothing [] env_open 0 299
           alice_selling_msft
           (mk_order "MSFT" "MSFT" SELL 5 300 "USD" PENDING 1704726000000000 None)).
  - reflexivity.
  - reflexivity.
  - right. split; reflexivity.
Defined.

(** ** C3: filling a SELL order re-checks the shares *)







(** ** What each view can do to an account *)

Section ViewCases.

Variable utcoffset : string -> Z -> Z.
Variable catalog : list Achievement.

(** A market trade is rejected and changes nothing, or it is a BUY, or it
    is a SELL, with the ledger effect spelled out. *)
Lemma ExecuteTradeView_post_cases e rq user :
  let out := ExecuteTradeView_post utcoffset catalog e rq user in
  let symbol := Str.upper (rq_symbol rq) in
  let name := default symbol (rq_name rq) in
  let currency := default "USD" (rq_currency rq) in
  let shares := rq_shares rq in
  let price := rq_price rq in
  let total := (shares * price)%Q in
  (exists err, out = (Rejected err, user))
  \/ (exists body side,
        fst out = Ok body
        /\ b_trade body
           = mk_trade symbol name side shares price total currency (env_now e)
        /\ (0 < shares)%Q /\ (0 < price)%Q
        /\ trades (snd out) = (trades user ++ [b_trade body])%list
        /\ limit_orders (snd out) = limit_orders user
        /\ match side with
           | BUY =>
               (total <= buying_power user)%Q
               /\ buying_power (snd out) = (buying_power user - total)%Q
               /\ buy_holding (holdings user) symbol name currency shares
                    price total = Some (holdings (snd out))
           | SELL =>
               exists holding,
                 holdings user !! symbol = Some holding
                 /\ (shares <= h_shares holding)%Q
                 /\ buying_power (snd out) = (buying_power user + total)%Q
                 /\ holdings (snd out)
                    = sell_holding (holdings user) symbol holding shares
           end).
Proof.
  cbv zeta. unfold ExecuteTradeView_post.
  destruct (parse_side (Str.upper (rq_type rq))) as [side|]; [|left; eauto].
  destruct (String.eqb (Str.upper (rq_symbol rq)) "" || Qle_bool (rq_shares rq) 0
            || Qle_bool (rq_price rq) 0)%bool eqn:Evalid; [left; eauto|].
  apply orb_false_elim in Evalid as [Evalid Eprice].
  apply orb_false_elim in Evalid as [_ Eshares].
  apply Qle_bool_false in Eprice, Eshares.
  destruct (negb (MarketHours.is_open _)); [left; eauto|].
  destruct side.
  - destruct (MarketHours.is_symbol_valid_for_market _ _) as [valid market_error].
    destruct valid; simpl negb; cbv iota; [|left; eauto].
    destruct (Qlt_bool (buying_power user) (rq_shares rq * rq_price rq)) eqn:Efunds;
      [left; eauto|].
    apply Qlt_bool_false in Efunds.
    cbn [holdings set_buying_power].
    destruct (buy_holding (holdings user) _ _ _ _ _ _) as [hs|] eqn:Ebuy;
      [|left; eauto].
    reward_step. right. eexists _, BUY. cbn in *.
    repeat split; try assumption; try reflexivity. congruence.
  - cbv iota. simpl negb. cbv iota.
    destruct (holdings user !! Str.upper (rq_symbol rq)) as [holding|] eqn:Ehold;
      [|left; eauto].
    destruct (Qlt_bool (h_shares holding) (rq_shares rq)) eqn:Eshort;
      [left; eauto|].
    apply Qlt_bool_false in Eshort.
    reward_step. right. eexists _, SELL. cbn in *.
    repeat split; try assumption; try reflexivity.
    exists holding. repeat split; assumption.
Qed.

(** Submitting an order is rejected and changes nothing, or appends a
    pending order; a BUY order debits shares * limit_price. *)
Lemma LimitOrdersView_post_cases now rq user :
  let out := LimitOrdersView_post now rq user in
  (exists err, out = (Rejected err, user))
  \/ (exists order bp,
        fst out = Ok (order, bp)
        /\ o_status order = PENDING
        /\ (0 < o_shares order)%Q /\ (0 < o_limit_price order)%Q
        /\ limit_orders (snd out) = (limit_orders user ++ [order])%list
        /\ holdings (snd out) = holdings user
        /\ trades (snd out) = trades user
        /\ match o_trade_type order with
           | BUY =>
               (o_shares order * o_limit_price order <= buying_power user)%Q
               /\ buying_power (snd out)
                  = (buying_power user - o_shares order * o_limit_price order)%Q
           | SELL => buying_power (snd out) = buying_power user
           end).
Proof.
  cbv zeta. unfold LimitOrdersView_post.
  destruct (parse_side (Str.upper (oq_type rq))) as [side|]; [|left; eauto].
  destruct (String.eqb (Str.upper (oq_symbol rq)) "" || Qle_bool (oq_shares rq) 0
            || Qle_bool (oq_limit_price rq) 0)%bool eqn:Evalid; [left; eauto|].
  apply orb_false_elim in Evalid as [Evalid Eprice].
  apply orb_false_elim in Evalid as [_ Eshares].
  apply Qle_bool_false in Eprice, Eshares.
  destruct side.
  - destruct (Qlt_bool (buying_power user) (oq_shares rq * oq_limit_price rq))
      eqn:Efunds; [left; eauto|].
    apply Qlt_bool_false in Efunds.
    right. eexists _, _. cbn. repeat split; assumption.
  - destruct (holdings user !! Str.upper (oq_symbol rq)) as [holding|];
      [|left; eauto].
    destruct (Qlt_bool (h_shares holding) (oq_shares rq)); [left; eauto|].
    right. eexists _, _. cbn. repeat split; assumption.
Qed.

(** Cancelling is rejected and changes nothing, or turns a pending order
    into a cancelled one, crediting a BUY order's shares * limit_price. *)
Lemma CancelLimitOrderView_delete_cases order_id user :
  let out := CancelLimitOrderView_delete order_id user in
  out = (Rejected OrderNotPendingOrNotFound, user)
  \/ (exists order,
        limit_orders user !! order_id = Some order
        /\ o_status order = PENDING
        /\ fst out = Ok (buying_power (snd out))
        /\ limit_orders (snd out)
           = <[order_id := set_status order CANCELLED]> (limit_orders user)
        /\ holdings (snd out) = holdings user
        /\ trades (snd out) = trades user
        /\ buying_power (snd out)
           = match o_trade_type order with
             | BUY => (buying_power user + o_shares order * o_limit_price order)%Q
             | SELL => buying_power user
             end).
Proof.
  cbv zeta. unfold CancelLimitOrderView_delete.
  destruct (get_pending user order_id) as [order|] eqn:Ep; [|now left].
  apply get_pending_Some in Ep as [Hl Hs].
  right. exists order. destruct (o_trade_type order); cbn; repeat split; assumption.
Qed.

(** A fill is rejected and changes nothing; or it finds the shares of a
    SELL order gone and cancels the order; or it fills the order. *)
Lemma FillLimitOrderView_post_cases e order_id current_price user :
  let out := FillLimitOrderView_post catalog e order_id current_price user in
  (exists err, out = (Rejected err, user))
  \/ (exists order err,
        limit_orders user !! order_id = Some order
        /\ o_status order = PENDING
        /\ o_trade_type order = SELL
        /\ out = (Rejected err,
                  save_order user order_id (set_status order CANCELLED)))
  \/ (exists order body,
        limit_orders user !! order_id = Some order
        /\ o_status order = PENDING
        /\ (0 < current_price)%Q
        /\ fst out = Ok body
        /\ b_trade body
           = mk_trade (o_symbol order) (o_name order) (o_trade_type order)
               (o_shares order) current_price
               (o_shares order * current_price)%Q (o_currency order) (env_now e)
        /\ trades (snd out) = (trades user ++ [b_trade body])%list
        /\ limit_orders (snd out)
           = <[order_id := set_filled order (env_now e)]> (limit_orders user)
        /\ match o_trade_type order with
           | BUY =>
               (current_price <= o_limit_price order)%Q
               /\ buy_holding (holdings user) (o_symbol order) (o_name order)
                    (o_currency order) (o_shares order) current_price
                    (o_shares order * current_price)%Q
                  = Some (holdings (snd out))
               /\ buying_power (snd out)
                  = (if Qlt_bool (o_shares order * current_price)
                          (o_shares order * o_limit_price order)
                     then (buying_power user
                           + (o_shares order * o_limit_price order
                              - o_shares order * current_price))%Q
                     else buying_power user)
           | SELL =>
               exists holding,
                 holdings user !! o_symbol order = Some holding
                 /\ (o_shares order <= h_shares holding)%Q
                 /\ buying_power (snd out)
                    = (buying_power user + o_shares order * current_price)%Q
                 /\ holdings (snd out)
                    = sell_holding (holdings user) (o_symbol order) holding
                        (o_shares order)
           end).
Proof.
  cbv zeta. unfold FillLimitOrderView_post.
  destruct (Qle_bool current_price 0) eqn:Epos; [left; eauto|].
  apply Qle_bool_false in Epos.
  destruct (get_pending user order_id) as [order|] eqn:Ep; [|left; eauto].
  apply get_pending_Some in Ep as [Hl Hs].
  destruct (o_trade_type order) eqn:Et; cbn [bool_decide decide_rel andb].
  - change (bool_decide (BUY = BUY)) with true.
    change (bool_decide (BUY = SELL)) with false. cbn [andb].
    destruct (Qlt_bool (o_limit_price order) current_price) eqn:Elim;
      [left; eauto|].
    apply Qlt_bool_false in Elim.
    destruct (buy_holding (holdings user) _ _ _ _ _ _) as [hs|] eqn:Ebuy;
      [|left; eauto].
    right; right. exists order.
    destruct (Qlt_bool (o_shares order * current_price)
                (o_shares order * o_limit_price order)) eqn:Ebetter;
      reward_step; eexists; rewrite Et; cbn in *;
      repeat split; try assumption; try reflexivity; congruence.
  - change (bool_decide (SELL = BUY)) with false.
    change (bool_decide (SELL = SELL)) with true. cbn [andb].
    destruct (Qlt_bool current_price (o_limit_price order)) eqn:Elim;
      [left; eauto|].
    destruct (holdings user !! o_symbol order) as [holding|] eqn:Ehold.
    + destruct (Qlt_bool (h_shares holding) (o_shares order)) eqn:Eshort.
      * right; left. exists order. eauto.
      * apply Qlt_bool_false in Eshort.
        right; right. exists order. reward_step. eexists. rewrite Et. cbn in *.
        repeat split; try assumption; try reflexivity.
        exists holding. repeat split; assumption.
    + right; left. exists order. eauto.
Qed.

End ViewCases.

(** ** C5: the life of a limit order *)

Lemma order_moves_refl o : order_moves o o.
Proof. repeat split. now left. Qed.

Lemma order_moves_saved (orders : list LimitOrder) id id' o o1 o1' :
  orders !! id = Some o ->
  orders !! id' = Some o1 ->
  order_moves o1 o1' ->
  exists o', <[id' := o1']> orders !! id = Some o' /\ order_moves o o'.
Proof.
  intros Hl Hl1 Hm. destruct (decide (id' = id)) as [->|Hne].
  - exists o1'. split.
    + apply list_lookup_insert_eq. eapply lookup_lt_Some, Hl.
    + congruence.
  - exists o. split; [|apply order_moves_refl].
    rewrite list_lookup_insert_ne by exact Hne. exact Hl.
Qed.

Lemma run_order_moves utcoffset catalog user op order_id order :
  limit_orders user !! order_id = Some order ->
  exists order',
    limit_orders (run utcoffset catalog user op) !! order_id = Some order'
    /\ order_moves order order'.
Proof.
  intros Hl. destruct op as [e rq|now rq|id'|e id' current_price]; simpl.
  - destruct (ExecuteTradeView_post_cases utcoffset catalog e rq user)
      as [[err ->]|(body & side & _ & _ & _ & _ & _ & Ho & _)].
    + exists order. split; [exact Hl | apply order_moves_refl].
    + exists order. rewrite Ho. split; [exact Hl | apply order_moves_refl].
  - destruct (LimitOrdersView_post_cases now rq user)
      as [[err ->]|(o & bp & _ & _ & _ & _ & Ho & _)].
    + exists order. split; [exact Hl | apply order_moves_refl].
    + exists order. rewrite Ho. split; [|apply order_moves_refl].
      now apply lookup_app_l_Some.
  - destruct (CancelLimitOrderView_delete_cases id' user)
      as [->|(o & Hl' & Hs & _ & Ho & _)].
    + exists order. split; [exact Hl | apply order_moves_refl].
    + rewrite Ho. eapply order_moves_saved; eauto.
      repeat split. right. split; [exact Hs | now left].
  - destruct (FillLimitOrderView_post_cases catalog e id' current_price user)
      as [[err ->]|[(o & err & Hl' & Hs & _ & ->)
                   |(o & body & Hl' & Hs & _ & _ & _ & _ & Ho & _)]].
    + exists order. split; [exact Hl | apply order_moves_refl].
    + simpl. eapply order_moves_saved; eauto.
      repeat split. right. split; [exact Hs | now left].
    + rewrite Ho. eapply order_moves_saved; eauto.
      repeat split. right. split; [exact Hs | now right].
Qed.



(** ** C2: weighted-average cost *)




(** ** C1: no negative balance, no empty holding *)





Section Invariant.

Variable utcoffset : string -> Z -> Z.
Variable catalog : list Achievement.



End Invariant.

Lemma not_app_singleton {A} (l : list A) (x : A) : l <> (l ++ [x])%list.
Proof.
  intros H. apply (f_equal length) in H. rewrite length_app in H.
  simpl in H. lia.
Qed.


Section Vanish.

Variable utcoffset : string -> Z -> Z.
Variable catalog : list Achievement.


End Vanish.



(** ** C6: a transfer and the rate service *)




(* ===================================================================== *)
(** * Further properties of the code                                      *)
(* ===================================================================== *)

(** ** The schedule and the validator *)

Lemma get_schedule_cases market :
  MarketHours.get_schedule market
  = if String.eqb market "IN" then MarketHours.IN_SCHEDULE
    else MarketHours.US_SCHEDULE.
Proof.
  unfold MarketHours.get_schedule, MarketHours.MARKET_SCHEDULES.
  destruct (String.eqb_spec market "IN") as [->|Hin]; [reflexivity|].
  destruct (String.eqb_spec market "US") as [->|Hus]; [reflexivity|].
  rewrite lookup_insert_ne by congruence.
  rewrite lookup_insert_ne by congruence.
  reflexivity.
Qed.

Lemma time_of_ltb local h m :
  0 <= h < 24 -> 0 <= m < 60 ->
  MarketHours.time_ltb (MarketHours.time_of local) (MarketHours.mk_time h m 0 0)
  = (local mod MarketHours.DAY <? at_time h m).
Proof.
  intros Hh Hm.
  unfold MarketHours.time_ltb, MarketHours.time_of, at_time, MarketHours.DAY.
  cbn [MarketHours.hour MarketHours.minute MarketHours.second
       MarketHours.microsecond].
  set (us := local mod 86400000000).
  assert (0 <= us < 86400000000) as Hus by (apply Z.mod_pos_bound; lia).
  repeat match goal with
         | |- context [?a <? ?b] => destruct (Z.ltb_spec a b)
         end; try reflexivity; exfalso;
    Z.div_mod_to_equations; lia.
Qed.

(** X1.  The schedule fallback is a half-open window in the market's local
    time: with an explicit [now] the answer is open exactly from Monday to
    Friday and from the opening time (included) to the closing time
    (excluded), 9:15-15:30 for the market IN and 9:30-16:00 for US and for
    any other market code, which the gate reads as US. *)
Theorem X1_schedule_window
    (utcoffset : string -> Z -> Z) (clock : Z) (market : string)
    (now : MarketHours.datetime) :
  let r := MarketHours._is_market_open_schedule utcoffset clock market (Some now) in
  let zone := if String.eqb market "IN" then "Asia/Kolkata" else "America/New_York" in
  let local := MarketHours.astimezone utcoffset zone now in
  MarketHours.source r = "schedule"
  /\ (MarketHours.is_open r = true
      <-> MarketHours.weekday local < 5
          /\ fst (trading_window market) <= local mod MarketHours.DAY
             < snd (trading_window market)).
Proof.
  cbv zeta. unfold MarketHours._is_market_open_schedule, trading_window.
  rewrite get_schedule_cases.
  assert (forall tz, MarketHours.astimezone utcoffset tz (MarketHours.replace_utc now)
                     = MarketHours.astimezone utcoffset tz now) as Hnaive
    by reflexivity.
  assert (forall tz,
            match MarketHours.tzinfo now with
            | Some _ => MarketHours.astimezone utcoffset tz now
            | None => MarketHours.astimezone utcoffset tz (MarketHours.replace_utc now)
            end = MarketHours.astimezone utcoffset tz now) as Hlocal
    by (intros tz; destruct (MarketHours.tzinfo now); [reflexivity | apply Hnaive]).
  destruct (String.eqb market "IN");
    cbn [MarketHours.timezone MarketHours.open MarketHours.close
         MarketHours.name MarketHours.display_hours
         MarketHours.IN_SCHEDULE MarketHours.US_SCHEDULE fst snd];
    rewrite Hlocal;
    match goal with
    | |- context [MarketHours.astimezone utcoffset ?tz now] =>
        set (local := MarketHours.astimezone utcoffset tz now)
    end;
    unfold MarketHours.time_geb;
    rewrite !time_of_ltb by lia;
    destruct (Z.leb_spec 5 (MarketHours.weekday local));
    repeat match goal with
           | |- context [?a <? ?b] => destruct (Z.ltb_spec a b)
           end;
    cbn [orb negb MarketHours.is_open MarketHours.source];
    (split; [reflexivity|]); split; try discriminate; try lia; reflexivity.
Qed.

Lemma append_nonempty (s t : string) : t <> "" -> (s ++ t) <> "".
Proof.
  intros Ht H. destruct s; simpl in H; [contradiction | discriminate].
Qed.

Lemma upper_ascii_idempotent c :
  Str.upper_ascii (Str.upper_ascii c) = Str.upper_ascii c.
Proof.
  unfold Str.upper_ascii.
  destruct ((97 <=? nat_of_ascii c)%nat && (nat_of_ascii c <=? 122)%nat)%bool
    eqn:E; [|now rewrite E].
  apply andb_true_iff in E as [E1 E2].
  apply Nat.leb_le in E1, E2.
  rewrite nat_ascii_embedding by lia.
  destruct (Nat.leb_spec 97 (nat_of_ascii c - 32)); [lia | reflexivity].
Qed.

Lemma upper_idempotent s : Str.upper (Str.upper s) = Str.upper s.
Proof.
  induction s as [|c s IH]; simpl; [reflexivity|].
  now rewrite upper_ascii_idempotent, IH.
Qed.

(** X2.  The symbol validator: a symbol is valid for a market exactly when
    it is crypto ("-USD" inside), or the market is IN and the symbol ends
    in .NS or .BO, or the market is US and it does not, or the market is
    any other code.  The case of the symbol's letters does not matter, and
    the message is empty exactly when the symbol is valid. *)
Theorem X2_symbol_validity (symbol market : string) :
  let r := MarketHours.is_symbol_valid_for_market symbol market in
  (fst r = true
   <-> (crypto_symbol symbol = true
        \/ (market = "IN" /\ indian_symbol symbol = true)
        \/ (market = "US" /\ indian_symbol symbol = false)
        \/ (market <> "IN" /\ market <> "US")))
  /\ (fst r = true <-> snd r = "")
  /\ fst (MarketHours.is_symbol_valid_for_market (Str.upper symbol) market) = fst r.
Proof.
  cbv zeta. unfold MarketHours.is_symbol_valid_for_market, crypto_symbol,
    indian_symbol.
  rewrite upper_idempotent.
  destruct (Str.contains "-USD" (Str.upper symbol)).
  { cbn. repeat split; auto. }
  assert (forall s t : string, (s ++ String " "%char t) = "" -> False) as Hmsg
    by (intros s t H; revert H; apply append_nonempty; discriminate).
  destruct (Str.endswith ".NS" (Str.upper symbol)
            || Str.endswith ".BO" (Str.upper symbol))%bool;
    (destruct (String.eqb_spec market "IN") as [->|Hin];
     [|destruct (String.eqb_spec market "US") as [->|Hus]]);
    cbn; (split; [|split; [|reflexivity]]);
    try (split; [intros _; tauto | reflexivity]);
    try (split; [discriminate | intros H; exfalso; exact (Hmsg _ _ H)]);
    (split; [discriminate|]);
    intros [H|[[H1 H2]|[[H1 H2]|[H1 H2]]]]; congruence.
Qed.

(** ** The rank ladder *)

Ltac ladder_cases :=
  repeat match goal with
         | |- context [?a <=? ?b] => destruct (Z.leb_spec a b)
         | |- context [?a <? ?b] => destruct (Z.ltb_spec a b)
         | H : context [?a <=? ?b] |- _ => destruct (Z.leb_spec a b)
         | H : context [?a <? ?b] |- _ => destruct (Z.ltb_spec a b)
         end.

Lemma rank_level_bounds xp : 1 <= fst (Xp.get_rank_for_xp xp) <= 7.
Proof. unfold Xp.get_rank_for_xp. cbn. ladder_cases; cbn; lia. Qed.

Lemma rank_level_monotone xp xp' :
  xp <= xp' -> fst (Xp.get_rank_for_xp xp) <= fst (Xp.get_rank_for_xp xp').
Proof.
  intros Hle. unfold Xp.get_rank_for_xp. cbn. ladder_cases; cbn; lia.
Qed.

(** X3.  The rank is the highest rung of the ladder that the XP has
    reached: the level lies between 1 and 7, never goes down when the XP
    goes up, and, for XP that is not negative, a rung has been reached
    (its threshold is at most the XP) exactly when its level is at most
    the level returned; the title returned is that rung's. *)
Theorem X3_rank_is_highest_rung_reached (xp : Z) :
  let level := fst (Xp.get_rank_for_xp xp) in
  let title := snd (Xp.get_rank_for_xp xp) in
  1 <= level <= 7
  /\ (forall xp', xp <= xp' -> level <= fst (Xp.get_rank_for_xp xp'))
  /\ (exists required, In (level, title, required) Xp.RANK_LADDER)
  /\ (0 <= xp ->
      forall l t required,
        In (l, t, required) Xp.RANK_LADDER -> (required <= xp <-> l <= level)).
Proof.
  cbv zeta. split; [apply rank_level_bounds|].
  split; [intros xp'; apply rank_level_monotone|].
  split.
  - unfold Xp.get_rank_for_xp. cbn. ladder_cases; cbn; eexists; eauto 10.
  - intros Hxp l t required Hin.
    unfold Xp.RANK_LADDER in Hin. cbn in Hin.
    unfold Xp.get_rank_for_xp. cbn.
    repeat destruct Hin as [Hin|Hin]; try contradiction;
      injection Hin as <- <- <-; ladder_cases; cbn; lia.
Qed.

(** The ladder, Retail Trader for XP 0, Fund Manager from 8000 on. *)
Lemma X3_witness :
  Xp.get_rank_for_xp 7999 = (4, "Floor Trader")
  /\ (4000 <= 7999 <-> 4 <= fst (Xp.get_rank_for_xp 7999))
  /\ (8000 <= 7999 <-> 5 <= fst (Xp.get_rank_for_xp 7999)).
Proof.
  split; [reflexivity|].
  destruct (X3_rank_is_highest_rung_reached 7999) as (_ & _ & _ & H).
  assert (0 <= 7999) as Hpos by lia.
  split.
  - apply (H Hpos 4 "Floor Trader" 4000). cbn. tauto.
  - apply (H Hpos 5 "Fund Manager" 8000). cbn. tauto.
Defined.

Lemma award_xp_rank user amount :
  xp (Xp.award_xp user amount) = xp user + amount
  /\ (level (Xp.award_xp user amount), rank (Xp.award_xp user amount))
     = Xp.get_rank_for_xp (xp user + amount).
Proof.
  unfold Xp.award_xp. destruct (Xp.get_rank_for_xp (xp user + amount)).
  split; reflexivity.
Qed.

Lemma rank_piecewise xp :
  Xp.get_rank_for_xp xp
  = if xp <? 500 then (1, "Retail Trader")
    else if xp <? 1500 then (2, "Day Trader")
    else if xp <? 4000 then (3, "Swing Trader")
    else if xp <? 8000 then (4, "Floor Trader")
    else if xp <? 15000 then (5, "Fund Manager")
    else if xp <? 30000 then (6, "Market Maker")
    else (7, "Wall Street Legend").
Proof.
  unfold Xp.get_rank_for_xp. cbn. ladder_cases; try lia; reflexivity.
Qed.

(** X4.  The next rank, for XP that is not negative: there is none exactly
    at level 7; otherwise it is the rung one level up, its threshold is
    above the XP by exactly the XP said to remain, and an award of that
    remainder brings the account to the announced level and title, while
    any smaller award leaves the level where it is. *)
Theorem X4_next_rank (user : Account) :
  0 <= xp user ->
  let current := fst (Xp.get_rank_for_xp (xp user)) in
  (RankInfo.get_next_rank_info (xp user) = None <-> current = 7)
  /\ (forall next,
        RankInfo.get_next_rank_info (xp user) = Some next ->
        RankInfo.nr_level next = current + 1
        /\ 0 < RankInfo.nr_xpRemaining next
        /\ RankInfo.nr_xpRequired next = xp user + RankInfo.nr_xpRemaining next
        /\ (let promoted := Xp.award_xp user (RankInfo.nr_xpRemaining next) in
            level promoted = RankInfo.nr_level next
            /\ rank promoted = RankInfo.nr_rank next)
        /\ (forall amount,
              0 <= amount < RankInfo.nr_xpRemaining next ->
              level (Xp.award_xp user amount) = current)).
Proof.
  intros Hxp. cbv zeta.
  assert (forall amount,
            level (Xp.award_xp user amount)
            = fst (Xp.get_rank_for_xp (xp user + amount))
            /\ rank (Xp.award_xp user amount)
               = snd (Xp.get_rank_for_xp (xp user + amount))) as Haward.
  { intros amount. destruct (award_xp_rank user amount) as [_ H].
    rewrite <- H. split; reflexivity. }
  unfold RankInfo.get_next_rank_info.
  cbn [RankInfo.first_above Xp.RANK_LADDER].
  set (x := xp user) in *.
  split.
  - rewrite rank_piecewise.
    ladder_cases; cbn; split; intros Hnone; try discriminate; try lia; reflexivity.
  - intros next Hnext.
    assert (forall amount, 0 <= amount ->
              fst (Xp.get_rank_for_xp (x + amount))
              = fst (Xp.get_rank_for_xp x)
              \/ RankInfo.nr_xpRequired next <= x + amount) as Hbelow.
    { intros amount Ham. rewrite !rank_piecewise. revert Hnext.
      ladder_cases; try lia; intros [= <-]; cbn; lia. }
    assert (Xp.get_rank_for_xp (RankInfo.nr_xpRequired next)
            = (RankInfo.nr_level next, RankInfo.nr_rank next)
            /\ RankInfo.nr_level next = fst (Xp.get_rank_for_xp x) + 1
            /\ RankInfo.nr_xpRemaining next = RankInfo.nr_xpRequired next - x
            /\ x < RankInfo.nr_xpRequired next) as (Hreach & Hlevel & Hrem & Habove).
    { rewrite !rank_piecewise. revert Hnext.
      ladder_cases; try lia; intros [= <-]; cbn in *;
        repeat split; try reflexivity; lia. }
    split; [exact Hlevel|]. split; [lia|]. split; [lia|]. split.
    + destruct (Haward (RankInfo.nr_xpRemaining next)) as [-> ->].
      replace (x + RankInfo.nr_xpRemaining next)
        with (RankInfo.nr_xpRequired next) by lia.
      now rewrite Hreach.
    + intros amount Ham. destruct (Haward amount) as [-> _].
      destruct (Hbelow amount) as [->|Hge]; [lia | reflexivity | lia].
Qed.

(** An account with 1200 XP: Day Trader, 300 XP short of Swing Trader. *)
Lemma X4_witness :
  let user := set_rank alice 1200 2 "Day Trader" in
  RankInfo.get_next_rank_info (xp user)
  = Some (RankInfo.mk_next_rank 3 "Swing Trader" 1500 300)
  /\ level (Xp.award_xp user 300) = 3
  /\ level (Xp.award_xp user 299) = 2.
Proof.
  cbv zeta. split; [reflexivity|].
  assert (0 <= xp (set_rank alice 1200 2 "Day Trader")) as Hxp by (cbn; lia).
  destruct (X4_next_rank (set_rank alice 1200 2 "Day Trader") Hxp) as [_ H].
  destruct (H (RankInfo.mk_next_rank 3 "Swing Trader" 1500 300) eq_refl)
    as (_ & _ & _ & [Hup _] & Hstay).
  split; [exact Hup|]. apply (Hstay 299). cbn. lia.
Defined.

(** ** XP and achievements across the ledger operations *)

Lemma same_profile_refl u : same_profile u u.
Proof. repeat split. Qed.

Lemma award_trade_xp_bounds user trade_type sell_price avg_buy_price :
  25 <= fst (Xp.award_trade_xp user trade_type sell_price avg_buy_price) <= 400.
Proof.
  rewrite award_trade_xp_gained.
  unfold xp_before_milestones, milestone_bonus, Xp.XP_TRADE_EXECUTED,
    Xp.XP_FIRST_TRADE_BONUS, Xp.XP_PROFITABLE_SELL, Xp.XP_5_HOLDINGS,
    Xp.XP_10_HOLDINGS.
  destruct (length (trades user) =? 1)%nat;
    destruct trade_type, sell_price as [sp|], avg_buy_price as [ab|];
    try destruct (Qlt_bool ab sp);
    destruct (size (holdings user) =? 5)%nat;
    destruct (size (holdings user) =? 10)%nat; lia.
Qed.

Lemma award_trade_xp_effect user trade_type sell_price avg_buy_price :
  let out := Xp.award_trade_xp user trade_type sell_price avg_buy_price in
  snd out = Xp.award_xp user (fst out).
Proof.
  cbv zeta.
  pose proof (award_trade_xp_bounds user trade_type sell_price avg_buy_price) as Hb.
  revert Hb. unfold Xp.award_trade_xp. cbv zeta.
  match goal with
  | |- context [if 0 <? ?g then _ else _] =>
      destruct (Z.ltb_spec 0 g); cbn [fst snd]; [reflexivity | lia]
  end.
Qed.

Lemma unlock_all_lookup now l (table : gmap string Z) id at_ :
  table !! id = Some at_ -> fold_left (unlock now) l table !! id = Some at_.
Proof.
  revert table. induction l as [|a l IH]; intros table Hl; simpl; [exact Hl|].
  apply IH. unfold unlock. destruct (table !! a_id a) eqn:E; [exact Hl|].
  rewrite lookup_insert_ne; [exact Hl | congruence].
Qed.

Lemma check_achievements_profile catalog now user :
  let out := check_achievements catalog now user in
  username (snd out) = username user
  /\ initial_balance (snd out) = initial_balance user
  /\ settings (snd out) = settings user
  /\ watchlist (snd out) = watchlist user
  /\ xp (snd out) = xp user
  /\ level (snd out) = level user
  /\ rank (snd out) = rank user
  /\ keeps_unlocks user (snd out)
  /\ (length (fst out) <= length catalog)%nat.
Proof.
  cbv zeta. rewrite check_achievements_eq.
  assert (length (newly_earned_of catalog user) <= length catalog)%nat as Hlen.
  { unfold newly_earned_of, candidates_of.
    etransitivity; [apply length_filter|].
    etransitivity; [apply length_filter|]. apply length_filter. }
  destruct (candidates_of catalog user);
    [repeat split; cbn; try lia; now intros id at_ H|].
  destruct (newly_earned_of catalog user) eqn:E;
    [repeat split; cbn; try lia; now intros id at_ H|].
  rewrite <- E in *. cbn [fst snd]. repeat split; try exact Hlen.
  intros id at_ H. cbn. now apply unlock_all_lookup.
Qed.

Lemma award_xp_profile user amount :
  username (Xp.award_xp user amount) = username user
  /\ initial_balance (Xp.award_xp user amount) = initial_balance user
  /\ settings (Xp.award_xp user amount) = settings user
  /\ watchlist (Xp.award_xp user amount) = watchlist user
  /\ achievements (Xp.award_xp user amount) = achievements user.
Proof.
  unfold Xp.award_xp. destruct (Xp.get_rank_for_xp _). repeat split.
Qed.

(** What the gamification tail does to XP, rank and unlocks. *)
Lemma reward_profile catalog now user symbol trade_type price :
  let out := reward catalog now user symbol trade_type price in
  username (snd out) = username user
  /\ initial_balance (snd out) = initial_balance user
  /\ settings (snd out) = settings user
  /\ watchlist (snd out) = watchlist user
  /\ xp user + 25 <= xp (snd out) <= xp user + 400 + 100 * Z.of_nat (length catalog)
  /\ rank_cached (snd out)
  /\ keeps_unlocks user (snd out).
Proof.
  cbv zeta. unfold reward.
  pose proof (check_achievements_profile catalog now user) as H1.
  destruct (check_achievements catalog now user) as [new_achievements u1].
  cbn [fst snd] in H1.
  destruct H1 as (Hn1 & Hi1 & Hs1 & Hw1 & Hx1 & _ & _ & Hk1 & Hlen).
  match goal with
  | |- context [Xp.award_trade_xp u1 ?t ?s ?a] =>
      pose proof (award_trade_xp_effect u1 t s a) as H2;
      pose proof (award_trade_xp_bounds u1 t s a) as Hb;
      destruct (Xp.award_trade_xp u1 t s a) as [g2 u2]
  end.
  cbn [fst snd] in H2, Hb. subst u2.
  destruct (award_xp_rank u1 g2) as [Hx2 Hr2].
  destruct (award_xp_profile u1 g2) as (Hn2 & Hi2 & Hs2 & Hw2 & Ha2).
  set (u2 := Xp.award_xp u1 g2) in *.
  unfold Xp.award_achievement_xp.
  destruct new_achievements as [|a rest]; cbn [snd].
  - repeat split; try congruence; try lia;
      try (unfold rank_cached; congruence).
    intros id at_ H. rewrite Ha2. now apply Hk1.
  - destruct (award_xp_rank u2
                (Z.of_nat (length (a :: rest)) * Xp.XP_ACHIEVEMENT_UNLOCKED))
      as [Hx3 Hr3].
    set (g3 := Z.of_nat (length (a :: rest)) * Xp.XP_ACHIEVEMENT_UNLOCKED) in *.
    assert (0 <= g3 <= 100 * Z.of_nat (length catalog)) as Hg3
      by (unfold g3, Xp.XP_ACHIEVEMENT_UNLOCKED; lia).
    destruct (award_xp_profile u2 g3) as (Hn3 & Hi3 & Hs3 & Hw3 & Ha3).
    repeat split; try congruence; try lia;
      try (unfold rank_cached; congruence).
    intros id at_ H. rewrite Ha3, Ha2. now apply Hk1.
Qed.

Ltac hand_to_reward :=
  match goal with
  | |- context [reward ?c ?n ?u ?s ?t ?p] =>
      exists u, s, t, p; split;
      [repeat split | destruct (reward c n u s t p); reflexivity]
  end.

Section Profiles.

Variable utcoffset : string -> Z -> Z.
Variable catalog : list Achievement.

(** A market trade leaves the account as it was, or hands an account with
    the same profile to the gamification tail. *)
Lemma ExecuteTradeView_post_profile e rq user :
  let out := ExecuteTradeView_post utcoffset catalog e rq user in
  (exists err, out = (Rejected err, user))
  \/ (exists u0 symbol side price,
        same_profile u0 user
        /\ snd out = snd (reward catalog (env_now e) u0 symbol side price)).
Proof.
  cbv zeta. unfold ExecuteTradeView_post.
  destruct (parse_side (Str.upper (rq_type rq))) as [side|]; [|left; eauto].
  destruct (_ || _ || _)%bool; [left; eauto|].
  destruct (negb (MarketHours.is_open _)); [left; eauto|].
  destruct side.
  - destruct (MarketHours.is_symbol_valid_for_market _ _) as [valid market_error].
    destruct valid; simpl negb; cbv iota; [|left; eauto].
    destruct (Qlt_bool (buying_power user) _); [left; eauto|].
    cbn [holdings set_buying_power].
    destruct (buy_holding (holdings user) _ _ _ _ _ _) as [hs|]; [|left; eauto].
    right. hand_to_reward.
  - cbv iota. simpl negb. cbv iota.
    destruct (holdings user !! Str.upper (rq_symbol rq)) as [holding|];
      [|left; eauto].
    destruct (Qlt_bool (h_shares holding) (rq_shares rq)); [left; eauto|].
    right. hand_to_reward.
Qed.

Lemma FillLimitOrderView_post_profile e order_id current_price user :
  let out := FillLimitOrderView_post catalog e order_id current_price user in
  (exists err, out = (Rejected err, user))
  \/ (exists err order,
        out = (Rejected err, save_order user order_id (set_status order CANCELLED)))
  \/ (exists u0 symbol side price,
        same_profile u0 user
        /\ snd out = snd (reward catalog (env_now e) u0 symbol side price)).
Proof.
  cbv zeta. unfold FillLimitOrderView_post.
  destruct (Qle_bool current_price 0); [left; eauto|].
  destruct (get_pending user order_id) as [order|]; [|left; eauto].
  destruct (_ && _)%bool; [left; eauto|].
  destruct (_ && _)%bool; [left; eauto|].
  destruct (o_trade_type order).
  - destruct (buy_holding (holdings user) _ _ _ _ _ _) as [hs|]; [|left; eauto].
    right; right. destruct (Qlt_bool _ _); hand_to_reward.
  - destruct (holdings user !! o_symbol order) as [holding|];
      [|right; left; eauto].
    destruct (Qlt_bool (h_shares holding) (o_shares order));
      [right; left; eauto|].
    right; right. hand_to_reward.
Qed.

Lemma LimitOrdersView_post_profile now rq user :
  same_profile (snd (LimitOrdersView_post now rq user)) user.
Proof.
  unfold LimitOrdersView_post.
  destruct (parse_side _) as [side|]; [|apply same_profile_refl].
  destruct (_ || _ || _)%bool; [apply same_profile_refl|].
  destruct side.
  - destruct (Qlt_bool _ _); repeat split.
  - destruct (holdings user !! _) as [holding|]; [|apply same_profile_refl].
    destruct (Qlt_bool _ _); repeat split.
Qed.

Lemma CancelLimitOrderView_delete_profile order_id user :
  same_profile (snd (CancelLimitOrderView_delete order_id user)) user.
Proof.
  unfold CancelLimitOrderView_delete.
  destruct (get_pending user order_id) as [order|]; [|apply same_profile_refl].
  destruct (o_trade_type order); repeat split.
Qed.

(** What one operation does to the profile: nothing when it records no
    trade; when it records one, XP goes up by 25 at least and the rank
    shown is the rank of the new XP. *)
Lemma run_profile user op :
  let after := run utcoffset catalog user op in
  username after = username user
  /\ initial_balance after = initial_balance user
  /\ settings after = settings user
  /\ watchlist after = watchlist user
  /\ keeps_unlocks user after
  /\ ((trades after = trades user
       /\ xp after = xp user /\ level after = level user
       /\ rank after = rank user /\ achievements after = achievements user)
      \/ ((exists t, trades after = (trades user ++ [t])%list)
          /\ xp user + 25 <= xp after
             <= xp user + 400 + 100 * Z.of_nat (length catalog)
          /\ rank_cached after)).
Proof.
  cbv zeta.
  assert (forall after,
            same_profile after user -> trades after = trades user ->
            username after = username user
            /\ initial_balance after = initial_balance user
            /\ settings after = settings user
            /\ watchlist after = watchlist user
            /\ keeps_unlocks user after
            /\ ((trades after = trades user
                 /\ xp after = xp user /\ level after = level user
                 /\ rank after = rank user
                 /\ achievements after = achievements user)
                \/ ((exists t, trades after = (trades user ++ [t])%list)
                    /\ xp user + 25 <= xp after
                       <= xp user + 400 + 100 * Z.of_nat (length catalog)
                    /\ rank_cached after))) as Hquiet.
  { intros after (Hn & Hi & Hs & Hw & Hx & Hl & Hr & Ha) Ht.
    repeat split; try assumption.
    - intros id at_ H. now rewrite Ha.
    - left. repeat split; assumption. }
  assert (forall after u0 now symbol side price t,
            same_profile u0 user ->
            after = snd (reward catalog now u0 symbol side price) ->
            trades after = (trades user ++ [t])%list ->
            username after = username user
            /\ initial_balance after = initial_balance user
            /\ settings after = settings user
            /\ watchlist after = watchlist user
            /\ keeps_unlocks user after
            /\ ((trades after = trades user
                 /\ xp after = xp user /\ level after = level user
                 /\ rank after = rank user
                 /\ achievements after = achievements user)
                \/ ((exists t, trades after = (trades user ++ [t])%list)
                    /\ xp user + 25 <= xp after
                       <= xp user + 400 + 100 * Z.of_nat (length catalog)
                    /\ rank_cached after))) as Hloud.
  { intros after u0 now symbol side price t
      (Hn & Hi & Hs & Hw & Hx & Hl & Hr & Ha) -> Ht.
    destruct (reward_profile catalog now u0 symbol side price)
      as (Hn' & Hi' & Hs' & Hw' & Hx' & Hr' & Hk').
    repeat split; try congruence.
    - intros id at_ H. apply Hk'. now rewrite Ha.
    - right. split; [eauto|]. split; [lia | exact Hr']. }
  destruct op as [e rq|now rq|order_id|e order_id current_price]; simpl.
  - destruct (ExecuteTradeView_post_cases utcoffset catalog e rq user)
      as [[err Hrej]|(body & side & Hok & _ & _ & _ & Hlog & _)].
    + rewrite Hrej. apply Hquiet; [apply same_profile_refl | reflexivity].
    + destruct (ExecuteTradeView_post_profile e rq user)
        as [[err Hrej]|(u0 & symbol & sd & price & Hsame & Hout)].
      * rewrite Hrej in Hok. discriminate.
      * eapply Hloud; eauto.
  - apply Hquiet; [apply LimitOrdersView_post_profile|].
    destruct (LimitOrdersView_post_cases now rq user)
      as [[err ->]|(o & bp & _ & _ & _ & _ & _ & _ & Hlog & _)];
      [reflexivity | exact Hlog].
  - apply Hquiet; [apply CancelLimitOrderView_delete_profile|].
    destruct (CancelLimitOrderView_delete_cases order_id user)
      as [->|(o & _ & _ & _ & _ & _ & Hlog & _)]; [reflexivity | exact Hlog].
  - destruct (FillLimitOrderView_post_cases catalog e order_id current_price user)
      as [[err ->]|[(o & err & _ & _ & _ & ->)
                   |(o & body & _ & _ & _ & Hok & _ & Hlog & _)]].
    + apply Hquiet; [apply same_profile_refl | reflexivity].
    + apply Hquiet; [repeat split | reflexivity].
    + destruct (FillLimitOrderView_post_profile e order_id current_price user)
        as [[err Hrej]|[(err & o' & Hrej)
                       |(u0 & symbol & sd & price & Hsame & Hout)]].
      * rewrite Hrej in Hok. discriminate.
      * rewrite Hrej in Hok. discriminate.
      * eapply Hloud; eauto.
Qed.

End Profiles.

(** X5.  XP across the ledger operations.  A market trade, an order
    submission, a cancellation or a fill never lowers the XP; the XP moves
    exactly when the operation records a trade, and then it goes up by 25
    at least and by 400 plus 100 per achievement of the catalogue at most,
    and the level and rank stored are those of the new XP; an operation
    that records no trade leaves level and rank alone. *)
Theorem X5_xp_across_operations
    (utcoffset : string -> Z -> Z) (catalog : list Achievement)
    (user : Account) (op : operation) :
  let after := run utcoffset catalog user op in
  xp user <= xp after
  /\ (xp after = xp user <-> trades after = trades user)
  /\ (trades after <> trades user ->
      xp user + 25 <= xp after <= xp user + 400 + 100 * Z.of_nat (length catalog)
      /\ rank_cached after)
  /\ (trades after = trades user ->
      level after = level user /\ rank after = rank user).
Proof.
  cbv zeta.
  destruct (run_profile utcoffset catalog user op)
    as (_ & _ & _ & _ & _ & [(Ht & Hx & Hl & Hr & _)|([t Ht] & Hx & Hr)]).
  - split; [lia|]. split; [tauto|]. split; [congruence | tauto].
  - assert (trades (run utcoffset catalog user op) <> trades user) as Hne.
    { rewrite Ht. intros H. symmetry in H. now apply not_app_singleton in H. }
    split; [lia|]. split; [split; [lia | congruence]|].
    split; [tauto | congruence].
Qed.

(** ** The achievement check, exactly *)

Lemma unlock_all_new now l (table : gmap string Z) a :
  In a l -> table !! a_id a = None ->
  fold_left (unlock now) l table !! a_id a = Some now.
Proof.
  revert table. induction l as [|b l IH]; intros table Hin Hnone; [contradiction|].
  simpl. destruct Hin as [->|Hin].
  - apply unlock_all_lookup. unfold unlock. rewrite Hnone. apply lookup_insert_eq.
  - destruct (decide (a_id b = a_id a)) as [E|Hne].
    + apply unlock_all_lookup. unfold unlock. rewrite E, Hnone.
      apply lookup_insert_eq.
    + apply IH; [exact Hin|]. unfold unlock.
      destruct (table !! a_id b); [exact Hnone|].
      rewrite lookup_insert_ne by exact Hne. exact Hnone.
Qed.

Lemma unlock_all_only now l (table : gmap string Z) id :
  fold_left (unlock now) l table !! id <> None ->
  table !! id <> None \/ exists a, In a l /\ a_id a = id.
Proof.
  revert table. induction l as [|b l IH]; intros table H; simpl in H; [now left|].
  destruct (IH _ H) as [Hb|(a & Hin & Ha)].
  - unfold unlock in Hb. destruct (table !! a_id b) eqn:E; [now left|].
    destruct (decide (a_id b = id)) as [<-|Hne].
    + right. exists b. split; [now left | reflexivity].
    + left. now rewrite lookup_insert_ne in Hb.
  - right. exists a. split; [now right | exact Ha].
Qed.

Lemma newly_earned_spec catalog user a :
  In a (newly_earned_of catalog user)
  <-> (In a catalog
       /\ a_requirement_type a <> "special"
       /\ achievements user !! a_id a = None
       /\ (inject_Z (a_requirement_value a)
           <= default 0 (known_count user (a_requirement_type a)))%Q).
Proof.
  unfold newly_earned_of.
  rewrite <- list_elem_of_In, list_elem_of_filter, elem_of_candidates.
  rewrite not_elem_of_dom, list_elem_of_In.
  split.
  - intros (He & Hsp & Hid & Hcat). repeat split; try assumption.
    unfold earned in He.
    rewrite counts_of_lookup in He
      by (apply needed_of_elem, elem_of_candidates;
          rewrite not_elem_of_dom, list_elem_of_In; tauto).
    now apply Qle_bool_iff.
  - intros (Hcat & Hsp & Hid & Hle). repeat split; try assumption.
    unfold earned.
    rewrite counts_of_lookup
      by (apply needed_of_elem, elem_of_candidates;
          rewrite not_elem_of_dom, list_elem_of_In; tauto).
    now apply Qle_bool_iff.
Qed.

(** X6.  What an achievement check unlocks.  An achievement is returned
    exactly when it is in the catalogue, is not of the type 'special', was
    not unlocked yet, and its threshold is at most the counter of its
    requirement type (trades, holdings, watchlist entries, realized
    profit; 0 for any other type).  Each one returned is recorded as
    unlocked at the time of the check, the earlier unlocks are kept with
    their dates, and no other achievement becomes unlocked. *)
Theorem X6_check_achievements_exact
    (catalog : list Achievement) (now : Z) (user : Account) :
  let out := check_achievements catalog now user in
  (forall a,
      In a (fst out)
      <-> (In a catalog
           /\ a_requirement_type a <> "special"
           /\ achievements user !! a_id a = None
           /\ (inject_Z (a_requirement_value a)
               <= default 0 (known_count user (a_requirement_type a)))%Q))
  /\ (forall a, In a (fst out) -> achievements (snd out) !! a_id a = Some now)
  /\ (forall id at_,
        achievements user !! id = Some at_ ->
        achievements (snd out) !! id = Some at_)
  /\ (forall id,
        achievements (snd out) !! id <> None ->
        achievements user !! id <> None
        \/ exists a, In a (fst out) /\ a_id a = id).
Proof.
  cbv zeta. rewrite check_achievements_eq.
  assert (candidates_of catalog user = [] -> newly_earned_of catalog user = [])
    as Hnil by (unfold newly_earned_of; now intros ->).
  assert (match candidates_of catalog user with
          | [] => ([], user)
          | _ :: _ =>
              match newly_earned_of catalog user with
              | [] => ([], user)
              | _ :: _ =>
                  (newly_earned_of catalog user,
                   set_achievements user
                     (fold_left (unlock now) (newly_earned_of catalog user)
                        (achievements user)))
              end
          end
          = (newly_earned_of catalog user,
             set_achievements user
               (fold_left (unlock now) (newly_earned_of catalog user)
                  (achievements user)))) as ->.
  { destruct (candidates_of catalog user);
      [rewrite Hnil by reflexivity; now destruct user|].
    destruct (newly_earned_of catalog user); [now destruct user | reflexivity]. }
  cbn [fst snd achievements set_achievements].
  split; [apply newly_earned_spec|]. split; [|split].
  - intros a Ha. apply unlock_all_new; [exact Ha|].
    now apply newly_earned_spec in Ha.
  - intros id at_. apply unlock_all_lookup.
  - intros id. apply unlock_all_only.
Qed.

(** X7.  A special award.  Awarding an achievement by id returns nothing
    and changes nothing when the id is not in the catalogue or is already
    unlocked; otherwise it returns the catalogue's achievement of that id
    and records it as unlocked now, whatever its requirement type and
    threshold, leaving every other unlock alone.  A second award of the
    same id returns nothing and changes nothing, and a later achievement
    check never returns an achievement of an awarded id. *)
Theorem X7_special_award
    (catalog : list Achievement) (now now' : Z) (user : Account) (id : string) :
  let first := Special.award_special_achievement catalog now user id in
  let second := Special.award_special_achievement catalog now' (snd first) id in
  (fst first = None
   <-> ((forall a, In a catalog -> a_id a <> id) \/ achievements user !! id <> None))
  /\ (fst first = None -> snd first = user)
  /\ (forall a,
        fst first = Some a ->
        In a catalog /\ a_id a = id
        /\ achievements (snd first) !! id = Some now
        /\ forall other, other <> id ->
             achievements (snd first) !! other = achievements user !! other)
  /\ second = (None, snd first)
  /\ (forall b,
        fst first <> None ->
        In b (fst (check_achievements catalog now' (snd first))) ->
        a_id b <> id).
Proof.
  cbv zeta. unfold Special.award_special_achievement.
  destruct (find (fun a => String.eqb (a_id a) id) catalog) as [a|] eqn:Efind.
  - apply find_some in Efind as Hfound. destruct Hfound as [Hin Hid].
    apply String.eqb_eq in Hid. rewrite Hid.
    destruct (achievements user !! id) as [at_|] eqn:Eun; cbn [fst snd].
    + rewrite Eun.
      split; [split; [intros _; right; congruence | reflexivity]|].
      split; [reflexivity|]. split; [discriminate|]. split; [reflexivity|].
      intros b Hne. contradiction.
    + cbn [achievements set_achievements].
      rewrite lookup_insert_eq.
      split; [split; [discriminate|]|].
      { intros [Hno|Hun]; [exfalso; exact (Hno a Hin Hid) | contradiction]. }
      split; [discriminate|]. split; [|split; [reflexivity|]].
      * intros a' [= <-]. repeat split; try assumption.
        intros other Hne. apply lookup_insert_ne. congruence.
      * intros b _ Hb Heq.
        rewrite check_achievements_eq in Hb.
        assert (In b (newly_earned_of catalog
                        (set_achievements user (<[id:=now]> (achievements user)))))
          as Hb'.
        { destruct (candidates_of catalog _); [contradiction|].
          destruct (newly_earned_of catalog _); [contradiction | exact Hb]. }
        apply newly_earned_spec in Hb' as (_ & _ & Hnone & _).
        cbn [achievements set_achievements] in Hnone.
        rewrite Heq, lookup_insert_eq in Hnone. discriminate.
  - cbn [fst snd].
    split; [split; [intros _; left | reflexivity]|].
    { intros a Hin Hid.
      apply (find_none _ _ Efind) in Hin. apply String.eqb_neq in Hin.
      contradiction. }
    split; [reflexivity|]. split; [discriminate|]. split; [reflexivity|].
    intros b Hne. contradiction.
Qed.

(** ** Unlocks and identity across sequences of operations *)

Lemma run_all_profile utcoffset catalog ops user :
  let after := run_all utcoffset catalog user ops in
  username after = username user
  /\ initial_balance after = initial_balance user
  /\ settings after = settings user
  /\ watchlist after = watchlist user
  /\ keeps_unlocks user after
  /\ xp user <= xp after.
Proof.
  cbv zeta. revert user. induction ops as [|op ops IH]; intros user; simpl.
  - repeat split; [now intros id at_ H | lia].
  - destruct (IH (run utcoffset catalog user op)) as (Hn & Hi & Hs & Hw & Hk & Hx).
    destruct (run_profile utcoffset catalog user op)
      as (Hn' & Hi' & Hs' & Hw' & Hk' & Hxp).
    repeat split; try congruence.
    + intros id at_ H. now apply Hk, Hk'.
    + destruct Hxp as [(_ & E & _)|(_ & E & _)]; lia.
Qed.

(** X8.  Across any sequence of market trades, submissions, cancellations
    and fills: an achievement once unlocked stays unlocked, with its date;
    the XP never goes down; and username, initial balance, settings and
    watchlist are never touched. *)
Theorem X8_unlocks_are_kept
    (utcoffset : string -> Z -> Z) (catalog : list Achievement)
    (user : Account) (ops : list operation) (id : string) (at_ : Z) :
  achievements user !! id = Some at_ ->
  let after := run_all utcoffset catalog user ops in
  achievements after !! id = Some at_
  /\ xp user <= xp after
  /\ username after = username user
  /\ initial_balance after = initial_balance user
  /\ settings after = settings user
  /\ watchlist after = watchlist user.
Proof.
  intros Hun. cbv zeta.
  destruct (run_all_profile utcoffset catalog ops user)
    as (Hn & Hi & Hs & Hw & Hk & Hx).
  repeat split; try assumption. now apply Hk.
Qed.

(** Alice's first trade unlocks 'first_trade'; two more trades later it is
    still unlocked at the time of that first trade. *)
Lemma X8_witness :
  let first :=
    run MarketHours.fixed_offsets seed_catalog alice
      (MarketTrade (mk_env 1704726000000000 (env_market_status env_open))
         (mk_trade_request "AAPL" None "BUY" 10 150 None)) in
  let later :=
    run_all MarketHours.fixed_offsets seed_catalog first
      [ MarketTrade (mk_env 1704729600000000 (env_market_status env_open))
          (mk_trade_request "AAPL" None "SELL" 4 180 None);
        SubmitOrder 1704729600000000
          (mk_order_request "AAPL" None "SELL" 6 200 None) ] in
  achievements first !! "first_trade" = Some 1704726000000000
  /\ achievements later !! "first_trade" = Some 1704726000000000
  /\ xp first <= xp later.
Proof.
  cbv zeta.
  assert (achievements
            (run MarketHours.fixed_offsets seed_catalog alice
               (MarketTrade (mk_env 1704726000000000 (env_market_status env_open))
                  (mk_trade_request "AAPL" None "BUY" 10 150 None)))
          !! "first_trade" = Some 1704726000000000) as Hfirst
    by (vm_compute; reflexivity).
  split; [exact Hfirst|].
  destruct (X8_unlocks_are_kept MarketHours.fixed_offsets seed_catalog _
              [ MarketTrade (mk_env 1704729600000000 (env_market_status env_open))
                  (mk_trade_request "AAPL" None "SELL" 4 180 None);
                SubmitOrder 1704729600000000
                  (mk_order_request "AAPL" None "SELL" 6 200 None) ]
              "first_trade" 1704726000000000 Hfirst) as (H1 & H2 & _).
  split; [exact H1 | exact H2].
Defined.

(** ** Realized profit *)




(** ** Currency conversion *)





(** ** Transfers *)

(** A transfer is rejected and changes nothing, or it is carried out. *)
Lemma TransferFundsView_post_cases now rates1 rates2 me to_username amount w :
  let out := TransferFundsView_post now rates1 rates2 me to_username amount w in
  (exists err, out = (Rejected err, w))
  \/ (exists user recipient recipient_amount transfer,
        users w !! me = Some user
        /\ users w !! to_username = Some recipient
        /\ username user <> to_username
        /\ is_friend w (username user) (username recipient) = true
        /\ (0 < amount)%Q /\ (amount <= buying_power user)%Q
        /\ Currency.convert rates1 amount (user_currency user)
             (user_currency recipient) = Some recipient_amount
        /\ fst out = Ok transfer
        /\ tr_display_amount transfer = amount
        /\ tr_recipient_display_amount transfer = recipient_amount
        /\ users (snd out)
           = <[to_username := set_buying_power recipient
                                (buying_power recipient + recipient_amount)%Q]>
               (<[me := set_buying_power user (buying_power user - amount)%Q]>
                  (users w))
        /\ friendships (snd out) = friendships w
        /\ transfers (snd out) = (transfers w ++ [transfer])%list).
Proof.
  cbv zeta. unfold TransferFundsView_post.
  destruct (users w !! me) as [user|]; [|left; eauto].
  destruct (Qle_bool amount 0) eqn:Epos; [left; eauto|].
  apply Qle_bool_false in Epos.
  destruct (String.eqb to_username ""); [left; eauto|].
  destruct (String.eqb_spec (username user) to_username); [left; eauto|].
  destruct (users w !! to_username) as [recipient|]; [|left; eauto].
  destruct (is_friend w _ _) eqn:Efriend; simpl negb; cbv iota; [|left; eauto].
  destruct (Qlt_bool (buying_power user) amount) eqn:Efunds; [left; eauto|].
  apply Qlt_bool_false in Efunds.
  destruct (Currency.convert rates1 _ _ _) as [recipient_amount|] eqn:Econv;
    [|left; eauto].
  right. exists user, recipient, recipient_amount. eexists.
  cbn [fst snd users friendships transfers tr_display_amount
       tr_recipient_display_amount].
  repeat split; try assumption; reflexivity.
Qed.


(** ** Orders, from submission to their end *)





(** ** Market trades: book value, the gate, rejections *)




Lemma crypto_symbol_nonempty symbol :
  crypto_symbol symbol = true -> Str.upper symbol <> "".
Proof.
  unfold crypto_symbol. intros Hc Hempty. rewrite Hempty in Hc. discriminate.
Qed.

(** X16.  Crypto trades at any time.  For a symbol whose upper-cased form
    contains "-USD", whatever the clock, the provider's answer and the
    market the account is set to: a rejection is never "market closed" and
    never "not available in this market"; and a BUY of a positive number
    of shares at a positive price within the cash of an account whose
    holdings are positive is accepted. *)
Theorem X16_crypto_trades_any_time
    (utcoffset : string -> Z -> Z) (catalog : list Achievement)
    (e : env) (rq : trade_request) (user : Account) :
  crypto_symbol (rq_symbol rq) = true ->
  let out := ExecuteTradeView_post utcoffset catalog e rq user in
  (forall err,
      fst out = Rejected err ->
      (forall reason, err <> MarketClosed reason)
      /\ (forall msg, err <> InvalidMarketForSymbol msg))
  /\ (parse_side (Str.upper (rq_type rq)) = Some BUY ->
      (0 < rq_shares rq)%Q -> (0 < rq_price rq)%Q ->
      (rq_shares rq * rq_price rq <= buying_power user)%Q ->
      map_Forall positive_holding (holdings user) ->
      exists body, fst out = Ok body /\ t_trade_type (b_trade body) = BUY).
Proof.
  intros Hc. cbv zeta.
  assert (Str.contains "-USD" (Str.upper (Str.upper (rq_symbol rq))) = true) as Hcc
    by (rewrite upper_idempotent; exact Hc).
  unfold ExecuteTradeView_post.
  unfold MarketHours.is_market_open, MarketHours.is_symbol_valid_for_market.
  rewrite Hcc. cbn [MarketHours.is_open negb].
  split.
  - intros err.
    destruct (parse_side (Str.upper (rq_type rq))) as [side|];
      [|intros [= <-]; split; discriminate].
    destruct (String.eqb (Str.upper (rq_symbol rq)) "" || Qle_bool (rq_shares rq) 0
              || Qle_bool (rq_price rq) 0)%bool;
      [intros [= <-]; split; discriminate|].
    destruct side.
    + cbn [negb].
      destruct (Qlt_bool (buying_power user) _);
        [intros [= <-]; split; discriminate|].
      cbn [holdings set_buying_power].
      destruct (buy_holding _ _ _ _ _ _ _);
        [|intros [= <-]; split; discriminate].
      destruct (reward _ _ _ _ _ _). discriminate.
    + cbn [negb].
      destruct (holdings user !! Str.upper (rq_symbol rq)) as [holding|];
        [|intros [= <-]; split; discriminate].
      destruct (Qlt_bool (h_shares holding) (rq_shares rq));
        [intros [= <-]; split; discriminate|].
      destruct (reward _ _ _ _ _ _). discriminate.
  - intros -> Hsh Hpr Hfunds Hpos.
    apply crypto_symbol_nonempty in Hc.
    apply String.eqb_neq in Hc as ->.
    pose proof Hsh as Hsh'. pose proof Hpr as Hpr'.
    apply Qle_bool_false in Hsh' as ->. apply Qle_bool_false in Hpr' as ->.
    cbn [orb negb].
    apply Qlt_bool_false in Hfunds as ->.
    cbn [holdings set_buying_power].
    destruct (buy_holding (holdings user) _ _ _ _ _ _) as [hs|] eqn:Ebuy.
    + destruct (reward _ _ _ _ _ _). cbn. eauto.
    + exfalso. unfold buy_holding in Ebuy.
      destruct (holdings user !! Str.upper (rq_symbol rq)) as [h|] eqn:Eh;
        [|discriminate].
      cbv zeta in Ebuy.
      destruct (Qeq_bool (h_shares h + rq_shares rq) 0) eqn:Ez; [|discriminate].
      apply Qeq_bool_iff in Ez.
      pose proof (map_Forall_lookup_1 _ _ _ _ Hpos Eh) as Hh0.
      unfold positive_holding in Hh0. lra.
Qed.

(** On a Saturday, the provider saying closed, an account set to India buys
    btc-usd. *)
Lemma X16_witness :
  crypto_symbol "btc-usd" = true
  /\ exists body,
       fst (ExecuteTradeView_post MarketHours.fixed_offsets seed_catalog env_closed
              (mk_trade_request "btc-usd" None "buy" 2 40000 None) alice_in_india)
       = Ok body
       /\ t_trade_type (b_trade body) = BUY.
Proof.
  split; [reflexivity|].
  assert (map_Forall positive_holding (holdings alice_in_india)) as Hpos
    by apply map_Forall_empty.
  assert (0 < 2)%Q as Hsh by reflexivity.
  assert (0 < 40000)%Q as Hpr by reflexivity.
  assert (2 * 40000 <= buying_power alice_in_india)%Q as Hfunds
    by (vm_compute; discriminate).
  exact (proj2 (X16_crypto_trades_any_time MarketHours.fixed_offsets seed_catalog
                  env_closed (mk_trade_request "btc-usd" None "buy" 2 40000 None)
                  alice_in_india eq_refl)
           eq_refl Hsh Hpr Hfunds Hpos).
Defined.

(** ** What a sequence of operations keeps *)

Lemma order_moves_trans o1 o2 o3 :
  order_moves o1 o2 -> order_moves o2 o3 -> order_moves o1 o3.
Proof.
  intros (Hs1 & Ht1 & Hy1 & Hh1 & Hp1) (Hs2 & Ht2 & Hy2 & Hh2 & Hp2).
  repeat split; try congruence.
  destruct Hs1 as [Hs1|[Hs1 Hs1']], Hs2 as [Hs2|[Hs2 Hs2']].
  - left. congruence.
  - right. split; [congruence | exact Hs2'].
  - right. split; [exact Hs1|]. rewrite Hs2. exact Hs1'.
  - destruct Hs1'; congruence.
Qed.

(** One operation leaves a finished order exactly as it is, appends to the
    trade log and never shortens the list of orders. *)
Lemma run_keeps_history utcoffset catalog user op :
  trades user `prefix_of` trades (run utcoffset catalog user op)
  /\ (length (limit_orders user)
      <= length (limit_orders (run utcoffset catalog user op)))%nat
  /\ forall order_id order,
       limit_orders user !! order_id = Some order ->
       o_status order <> PENDING ->
       limit_orders (run utcoffset catalog user op) !! order_id = Some order.
Proof.
  destruct op as [e rq|now rq|id'|e id' current_price]; simpl.
  - destruct (ExecuteTradeView_post_cases utcoffset catalog e rq user)
      as [[err ->]|(body & side & _ & _ & _ & _ & Hlog & Ho & _)]; simpl.
    + repeat split; [reflexivity | lia | tauto].
    + rewrite Hlog, Ho. repeat split; [now apply prefix_app_r | lia | tauto].
  - destruct (LimitOrdersView_post_cases now rq user)
      as [[err ->]|(o & bp & _ & _ & _ & _ & Ho & _ & Hlog & _)]; simpl.
    + repeat split; [reflexivity | lia | tauto].
    + rewrite Hlog, Ho. repeat split; [reflexivity | rewrite length_app; lia |].
      intros order_id order Hl _. now apply lookup_app_l_Some.
  - destruct (CancelLimitOrderView_delete_cases id' user)
      as [->|(o & Hl' & Hs & _ & Ho & _ & Hlog & _)]; simpl.
    + repeat split; [reflexivity | lia | tauto].
    + rewrite Hlog, Ho. repeat split; [reflexivity | rewrite length_insert; lia |].
      intros order_id order Hl Hdone.
      rewrite list_lookup_insert_ne; [exact Hl|]. congruence.
  - destruct (FillLimitOrderView_post_cases catalog e id' current_price user)
      as [[err ->]|[(o & err & Hl' & Hs & _ & ->)
                   |(o & body & Hl' & Hs & _ & _ & _ & Hlog & Ho & _)]]; simpl.
    + repeat split; [reflexivity | lia | tauto].
    + repeat split; [reflexivity | rewrite length_insert; lia |].
      intros order_id order Hl Hdone.
      rewrite list_lookup_insert_ne; [exact Hl|]. congruence.
    + rewrite Hlog, Ho.
      repeat split; [now apply prefix_app_r | rewrite length_insert; lia |].
      intros order_id order Hl Hdone.
      rewrite list_lookup_insert_ne; [exact Hl|]. congruence.
Qed.

(** X17.  What no sequence of operations undoes.  After any sequence of
    market trades, submissions, cancellations and fills: the trade log
    starts with the trades the account had (trades are appended, never
    changed or removed); the account has at least as many orders; every
    order is still at its number with the same side, symbol, shares and
    limit price, its status unchanged or moved from PENDING to CANCELLED
    or FILLED; and an order that was not PENDING is exactly what it was. *)
Theorem X17_history_is_kept
    (utcoffset : string -> Z -> Z) (catalog : list Achievement)
    (user : Account) (ops : list operation) :
  let final := run_all utcoffset catalog user ops in
  trades user `prefix_of` trades final
  /\ (length (limit_orders user) <= length (limit_orders final))%nat
  /\ forall order_id order,
       limit_orders user !! order_id = Some order ->
       (exists order',
           limit_orders final !! order_id = Some order'
           /\ order_moves order order')
       /\ (o_status order <> PENDING ->
           limit_orders final !! order_id = Some order).
Proof.
  cbv zeta. unfold run_all. revert user.
  induction ops as [|op ops IH]; intros user; simpl.
  - repeat split; [reflexivity | lia | | tauto].
    exists order. split; [assumption | apply order_moves_refl].
  - destruct (run_keeps_history utcoffset catalog user op) as (Hlog & Hlen & Hdone).
    destruct (IH (run utcoffset catalog user op)) as (Hlog' & Hlen' & Horders).
    split; [etrans; eassumption|]. split; [lia|].
    intros order_id order Hl. split.
    + destruct (run_order_moves utcoffset catalog user op order_id order Hl)
        as (o1 & Hl1 & Hm1).
      destruct (Horders order_id o1 Hl1) as [(o2 & Hl2 & Hm2) _].
      exists o2. split; [exact Hl2 | eapply order_moves_trans; eassumption].
    + intros Hterminal.
      apply (Horders order_id order); [|exact Hterminal].
      now apply Hdone.
Qed.

(** X18.  A rejected request changes nothing.  A market trade, an order
    submission or a cancellation that is rejected leaves the account
    exactly as it was.  A rejected fill does too, with one exception: the
    fill of a pending SELL order that finds the shares gone marks the
    order CANCELLED, and changes nothing else. *)
Theorem X18_rejections_change_nothing
    (utcoffset : string -> Z -> Z) (catalog : list Achievement)
    (user : Account) (err : error) :
  (forall e rq,
      fst (ExecuteTradeView_post utcoffset catalog e rq user) = Rejected err ->
      snd (ExecuteTradeView_post utcoffset catalog e rq user) = user)
  /\ (forall now rq,
        fst (LimitOrdersView_post now rq user) = Rejected err ->
        snd (LimitOrdersView_post now rq user) = user)
  /\ (forall order_id,
        fst (CancelLimitOrderView_delete order_id user) = Rejected err ->
        snd (CancelLimitOrderView_delete order_id user) = user)
  /\ (forall e order_id current_price,
        let out := FillLimitOrderView_post catalog e order_id current_price user in
        fst out = Rejected err ->
        snd out = user
        \/ exists order,
             limit_orders user !! order_id = Some order
             /\ o_status order = PENDING
             /\ o_trade_type order = SELL
             /\ (forall holding,
                   holdings user !! o_symbol order = Some holding ->
                   (h_shares holding < o_shares order)%Q)
             /\ snd out = save_order user order_id (set_status order CANCELLED)).
Proof.
  split; [|split; [|split]].
  - intros e rq Hrej.
    destruct (ExecuteTradeView_post_cases utcoffset catalog e rq user)
      as [[err' ->]|(body & side & Hok & _)]; [reflexivity | congruence].
  - intros now rq Hrej.
    destruct (LimitOrdersView_post_cases now rq user)
      as [[err' ->]|(o & bp & Hok & _)]; [reflexivity | congruence].
  - intros order_id Hrej.
    destruct (CancelLimitOrderView_delete_cases order_id user)
      as [->|(o & _ & _ & Hok & _)]; [reflexivity | congruence].
  - intros e order_id current_price. cbv zeta.
    unfold FillLimitOrderView_post.
    destruct (Qle_bool current_price 0); [now left|].
    destruct (get_pending user order_id) as [order|] eqn:Ep; [|now left].
    apply get_pending_Some in Ep as [Hl Hs].
    destruct (o_trade_type order) eqn:Et.
    + change (bool_decide (BUY = BUY)) with true.
      change (bool_decide (BUY = SELL)) with false. cbn [andb].
      destruct (Qlt_bool (o_limit_price order) current_price); [now left|].
      destruct (buy_holding _ _ _ _ _ _ _); [|now left].
      destruct (Qlt_bool _ _); destruct (reward _ _ _ _ _ _); discriminate.
    + change (bool_decide (SELL = BUY)) with false.
      change (bool_decide (SELL = SELL)) with true. cbn [andb].
      destruct (Qlt_bool current_price (o_limit_price order)); [now left|].
      destruct (holdings user !! o_symbol order) as [holding|] eqn:Eh.
      * destruct (Qlt_bool (h_shares holding) (o_shares order)) eqn:Eshort.
        -- intros _. right. exists order.
           split; [exact Hl|]. split; [exact Hs|]. split; [exact Et|].
           split; [|reflexivity].
           intros h Hh. assert (h = holding) as -> by congruence.
           now apply Qlt_bool_true.
        -- destruct (reward _ _ _ _ _ _). discriminate.
      * intros _. right. exists order.
        split; [exact Hl|]. split; [exact Hs|]. split; [exact Et|].
        split; [congruence | reflexivity].
Qed.

(** ** The market and the currency of an account *)

Lemma valid_symbol_cases symbol market :
  fst (MarketHours.is_symbol_valid_for_market symbol market) = true ->
  crypto_symbol symbol = true
  \/ (market = "IN" /\ indian_symbol symbol = true)
  \/ (market = "US" /\ indian_symbol symbol = false)
  \/ (market <> "IN" /\ market <> "US").
Proof.
  unfold MarketHours.is_symbol_valid_for_market, crypto_symbol, indian_symbol.
  destruct (Str.contains "-USD" (Str.upper symbol)); [now left|].
  destruct (String.eqb_spec market "IN") as [->|Hin]; cbn [andb].
  - destruct (Str.endswith ".NS" (Str.upper symbol)
              || Str.endswith ".BO" (Str.upper symbol))%bool; cbn; [|discriminate].
    intros _. right. left. now split.
  - destruct (String.eqb_spec market "US") as [->|Hus]; cbn [andb].
    + destruct (Str.endswith ".NS" (Str.upper symbol)
                || Str.endswith ".BO" (Str.upper symbol))%bool; cbn; [discriminate|].
      intros _. right. right. left. now split.
    + intros _. right. right. right. now split.
Qed.

(** An accepted BUY went through the symbol validator. *)
Lemma accepted_buy_is_valid utcoffset catalog e rq user body :
  fst (ExecuteTradeView_post utcoffset catalog e rq user) = Ok body ->
  t_trade_type (b_trade body) = BUY ->
  fst (MarketHours.is_symbol_valid_for_market (Str.upper (rq_symbol rq))
         (user_market user)) = true.
Proof.
  unfold ExecuteTradeView_post.
  destruct (parse_side (Str.upper (rq_type rq))) as [side|]; [|discriminate].
  destruct (String.eqb (Str.upper (rq_symbol rq)) "" || Qle_bool (rq_shares rq) 0
            || Qle_bool (rq_price rq) 0)%bool; [discriminate|].
  destruct (negb (MarketHours.is_open _)); [discriminate|].
  destruct side.
  - destruct (MarketHours.is_symbol_valid_for_market _ _) as [valid market_error].
    destruct valid; [reflexivity | discriminate].
  - cbn [negb].
    destruct (holdings user !! Str.upper (rq_symbol rq)) as [holding|];
      [|discriminate].
    destruct (Qlt_bool (h_shares holding) (rq_shares rq)); [discriminate|].
    destruct (reward _ _ _ _ _ _). intros [= <-]. discriminate.
Qed.

Lemma indian_symbol_upper symbol :
  indian_symbol (Str.upper symbol) = indian_symbol symbol.
Proof. unfold indian_symbol. now rewrite upper_idempotent. Qed.

Lemma crypto_symbol_upper symbol :
  crypto_symbol (Str.upper symbol) = crypto_symbol symbol.
Proof. unfold crypto_symbol. now rewrite upper_idempotent. Qed.

(** X19.  Setting the market.  The request is accepted exactly for "US"
    and "IN" in any mix of upper and lower case ("US" when the key is
    absent); a rejected request changes nothing.  An accepted one stores
    the upper-cased code, creating the settings row when there was none,
    and leaves the currency and the whole ledger as they were.  From then
    on every accepted market BUY is for a crypto symbol or a symbol of
    that market: one ending in .NS or .BO for "IN", one that does not for
    "US". *)
Theorem X19_market_update_and_buys
    (utcoffset : string -> Z -> Z) (catalog : list Achievement)
    (market : option string) (user : Account) :
  let out := Preferences.UpdateMarketView_post market user in
  let m := Str.upper (default "US" market) in
  (m <> "US" /\ m <> "IN" -> exists err, out = (Rejected err, user))
  /\ (m = "US" \/ m = "IN" ->
      fst out = Ok m
      /\ user_market (snd out) = m
      /\ user_currency (snd out) = user_currency user
      /\ same_ledger (snd out) user
      /\ forall e rq body,
           fst (ExecuteTradeView_post utcoffset catalog e rq (snd out)) = Ok body ->
           t_trade_type (b_trade body) = BUY ->
           crypto_symbol (rq_symbol rq) = true
           \/ (m = "IN" /\ indian_symbol (rq_symbol rq) = true)
           \/ (m = "US" /\ indian_symbol (rq_symbol rq) = false)).
Proof.
  cbv zeta. unfold Preferences.UpdateMarketView_post, Preferences.MARKETS.
  set (m := Str.upper (default "US" market)).
  split.
  - intros [Hus Hin].
    rewrite bool_decide_eq_false_2; [cbn; eauto|].
    rewrite !elem_of_cons, elem_of_nil. tauto.
  - intros Hm.
    rewrite bool_decide_eq_true_2
      by (rewrite !elem_of_cons; destruct Hm; tauto).
    cbn [negb fst snd s_market].
    assert (user_market
              (Preferences.set_settings user
                 (mk_settings m (s_currency (Preferences.settings_row user)))) = m)
      as Hmarket by reflexivity.
    split; [reflexivity|]. split; [exact Hmarket|].
    split; [|split].
    + unfold user_currency, Preferences.settings_row. cbn.
      destruct (settings user); reflexivity.
    + repeat split.
    + intros e rq body Hok Hbuy.
      pose proof (accepted_buy_is_valid _ _ _ _ _ _ Hok Hbuy) as Hvalid.
      rewrite Hmarket in Hvalid.
      apply valid_symbol_cases in Hvalid.
      rewrite crypto_symbol_upper, indian_symbol_upper in Hvalid.
      tauto.
Qed.



(** ** Resetting an account *)

Lemma days_between_lt now last n :
  Reset.days_between now last < n <-> now - last < n * MarketHours.DAY.
Proof.
  unfold Reset.days_between, MarketHours.DAY.
  split; intros H; Z.div_mod_to_equations; lia.
Qed.

(** A reset asked for less than 30 days after the last one is refused. *)
Lemma reset_refused now1 now2 last user :
  now1 - last < 30 * MarketHours.DAY ->
  exists days_remaining,
    Reset.ResetAccountView_post now1 now2 (Some last) user
    = (Reset.TooManyRequests days_remaining, (user, Some last))
    /\ (last <= now1 -> 1 <= days_remaining <= 30).
Proof.
  intros Hsoon.
  unfold Reset.ResetAccountView_post, Reset.RESET_COOLDOWN_DAYS.
  pose proof (proj2 (days_between_lt now1 last 30) Hsoon) as Hd.
  apply Z.ltb_lt in Hd as Hd'. rewrite Hd'.
  eexists. split; [reflexivity|].
  intros Hfwd. unfold Reset.days_between, MarketHours.DAY in *.
  assert (0 <= (now1 - last) / 86400000000) by (apply Z.div_pos; lia).
  lia.
Qed.

(** A reset is refused and changes nothing, or carried out. *)
Lemma ResetAccountView_post_cases now1 now2 last_reset_at user :
  let out := Reset.ResetAccountView_post now1 now2 last_reset_at user in
  (exists last days_remaining,
      last_reset_at = Some last
      /\ now1 - last < 30 * MarketHours.DAY
      /\ out = (Reset.TooManyRequests days_remaining, (user, last_reset_at)))
  \/ ((forall last, last_reset_at = Some last ->
         30 * MarketHours.DAY <= now1 - last)
      /\ out
         = (Reset.ResetDone (initial_balance user),
            (new_account (username user) (initial_balance user) (settings user),
             Some now2))).
Proof.
  cbv zeta. unfold Reset.ResetAccountView_post, Reset.RESET_COOLDOWN_DAYS.
  destruct last_reset_at as [last|].
  - destruct (Z.ltb_spec (Reset.days_between now1 last) 30) as [Hsoon|Hlate].
    + apply days_between_lt in Hsoon. left. eauto.
    + right. split; [|reflexivity]. intros l [= <-].
      destruct (Z.lt_ge_cases (now1 - last) (30 * MarketHours.DAY)) as [H|H];
        [apply days_between_lt in H; lia | exact H].
  - right. split; [intros l [=] | reflexivity].
Qed.

(** X21.  The reset and its cooldown.  A reset is carried out exactly when
    the account was never reset or at least 30 whole days have passed
    since the last one; otherwise it answers the days that remain and
    changes nothing.  A reset that is carried out leaves the account a new
    account would have with the same name, initial balance and settings
    (cash back at the initial balance, no holdings, trades, orders,
    watchlist or achievements, XP 0 at level 1), and stamps the time; any
    reset asked for less than 30 days after the stamp is refused, with
    between 1 and 30 days remaining when the clock has not gone back. *)
Theorem X21_reset_and_cooldown
    (now1 now2 : Z) (last_reset_at : option Z) (user : Account) :
  let out := Reset.ResetAccountView_post now1 now2 last_reset_at user in
  ((exists buyingPower, fst out = Reset.ResetDone buyingPower)
   <-> (forall last, last_reset_at = Some last ->
          30 * MarketHours.DAY <= now1 - last))
  /\ (forall days_remaining,
        fst out = Reset.TooManyRequests days_remaining ->
        snd out = (user, last_reset_at))
  /\ (forall buyingPower,
        fst out = Reset.ResetDone buyingPower ->
        buyingPower = initial_balance user
        /\ snd out
           = (new_account (username user) (initial_balance user) (settings user),
              Some now2)
        /\ forall now1' now2',
             now1' - now2 < 30 * MarketHours.DAY ->
             exists days_remaining,
               Reset.ResetAccountView_post now1' now2' (snd (snd out)) (fst (snd out))
               = (Reset.TooManyRequests days_remaining, snd out)
               /\ (now2 <= now1' -> 1 <= days_remaining <= 30)).
Proof.
  cbv zeta.
  destruct (ResetAccountView_post_cases now1 now2 last_reset_at user)
    as [(last & d & -> & Hsoon & ->)|[Hlate ->]]; cbn [fst snd].
  - split; [|split].
    + split; [intros [bp [=]]|].
      intros H. specialize (H last eq_refl). lia.
    + reflexivity.
    + intros bp [=].
  - split; [|split].
    + split; [intros _; exact Hlate | eauto].
    + intros d [=].
    + intros bp [= <-]. split; [reflexivity|]. split; [reflexivity|].
      intros now1' now2' Hsoon. now apply reset_refused.
Qed.

(** ** The watchlist *)

Lemma filter_other_notin (l : list string) (s : string) :
  s ∉ l -> filter (fun x => x ≠ s) l = l.
Proof.
  induction l as [|x l IH]; intros Hs; [reflexivity|].
  apply not_elem_of_cons in Hs as [Hne Hs].
  rewrite filter_cons_True by congruence. now rewrite IH.
Qed.

Lemma filter_same_none (l : list string) (s : string) :
  length (filter (fun x => x = s) l) = 0%nat <-> s ∉ l.
Proof.
  split.
  - intros Hlen. apply length_zero_iff_nil in Hlen.
    eapply filter_nil_not_elem_of; [exact Hlen | reflexivity].
  - induction l as [|x l IH]; intros Hs; [reflexivity|].
    apply not_elem_of_cons in Hs as [Hne Hs].
    rewrite filter_cons_False by congruence. now apply IH.
Qed.

Lemma check_achievements_watchlist catalog now user :
  watchlist (snd (check_achievements catalog now user)) = watchlist user.
Proof. apply check_achievements_profile. Qed.

(** X22.  The watchlist.  Adding a symbol is accepted exactly when its
    upper-cased form is not empty and not yet on the list; it appends the
    symbol, touches nothing of the ledger, keeps every unlocked
    achievement and keeps the list free of duplicates.  After an accepted
    add, a second add of the symbol is refused, removing it succeeds and
    gives back the watchlist from before the add, the achievements the add
    unlocked stay, and a second removal is refused.  A removal keeps the
    list free of duplicates and leaves no occurrence of the symbol. *)
Theorem X22_watchlist_add_remove
    (catalog : list Achievement) (now : Z) (symbol : string) (user : Account) :
  let added := Watch.WatchlistView_post catalog now symbol user in
  let s := Str.upper symbol in
  same_ledger (snd added) user
  /\ keeps_unlocks user (snd added)
  /\ (NoDup (watchlist user) -> NoDup (watchlist (snd added)))
  /\ ((exists body, fst added = inr body) <-> (s <> "" /\ s ∉ watchlist user))
  /\ (forall body,
        fst added = inr body ->
        watchlist (snd added) = (watchlist user ++ [s])%list
        /\ (forall now',
              Watch.WatchlistView_post catalog now' symbol (snd added)
              = (inl Watch.AlreadyInWatchlist, snd added))
        /\ let removed := Watch.WatchlistView_delete symbol (snd added) in
           fst removed = inr tt
           /\ watchlist (snd removed) = watchlist user
           /\ achievements (snd removed) = achievements (snd added)
           /\ Watch.WatchlistView_delete symbol (snd removed)
              = (inl Watch.NotInWatchlist, snd removed))
  /\ (let removed := Watch.WatchlistView_delete symbol user in
      (s ∉ watchlist (snd removed))
      /\ (NoDup (watchlist user) -> NoDup (watchlist (snd removed)))).
Proof.
  cbv zeta.
  set (s := Str.upper symbol).
  set (added := Watch.WatchlistView_post catalog now symbol user).
  assert (added
          = if String.eqb s "" then (inl Watch.SymbolRequired, user)
            else if bool_decide (s ∈ watchlist user)
                 then (inl Watch.AlreadyInWatchlist, user)
                 else
                   let user1 := Watch.set_watchlist user (watchlist user ++ [s]) in
                   (inr (s, fst (check_achievements catalog now user1)),
                    snd (check_achievements catalog now user1))) as Hadded.
  { unfold added, Watch.WatchlistView_post. fold s.
    destruct (String.eqb s ""); [reflexivity|].
    destruct (bool_decide (s ∈ watchlist user)); [reflexivity|].
    cbv zeta. now destruct (check_achievements catalog now _). }
  clearbody added. subst added. cbv zeta.
  set (user1 := Watch.set_watchlist user (watchlist user ++ [s])).
  split; [|split; [|split; [|split; [|split]]]].
  - destruct (String.eqb s ""); [apply same_ledger_refl|].
    destruct (bool_decide (s ∈ watchlist user)); [apply same_ledger_refl|].
    cbn [snd].
    eapply same_ledger_trans; [apply check_achievements_ledger|].
    repeat split.
  - destruct (String.eqb s ""); [now intros id at_ H|].
    destruct (bool_decide (s ∈ watchlist user)); [now intros id at_ H|].
    cbn [snd]. intros id at_ H.
    now apply (check_achievements_profile catalog now user1).
  - intros Hnd.
    destruct (String.eqb s ""); [exact Hnd|].
    destruct (bool_decide_reflect (s ∈ watchlist user)) as [Hin|Hout];
      [exact Hnd|].
    cbn [snd]. rewrite check_achievements_watchlist. cbn.
    apply NoDup_app. split; [exact Hnd|]. split; [|apply NoDup_singleton].
    intros x Hx Hx'. apply list_elem_of_singleton in Hx' as ->. contradiction.
  - destruct (String.eqb_spec s "") as [He|Hne].
    + split; [intros [body [=]] | tauto].
    + destruct (bool_decide_reflect (s ∈ watchlist user)) as [Hin|Hout].
      * split; [intros [body [=]] | tauto].
      * split; [tauto | eauto].
  - intros body.
    destruct (String.eqb_spec s "") as [He|Hne]; [discriminate|].
    destruct (bool_decide_reflect (s ∈ watchlist user)) as [Hin|Hout];
      [discriminate|].
    intros _. cbn [snd].
    set (user' := snd (check_achievements catalog now user1)).
    assert (watchlist user' = (watchlist user ++ [s])%list) as Hw
      by (unfold user'; now rewrite check_achievements_watchlist).
    assert (s ∈ watchlist user') as Hin
      by (rewrite Hw, elem_of_app, list_elem_of_singleton; now right).
    split; [exact Hw|]. split.
    + intros now'. unfold Watch.WatchlistView_post. fold s.
      apply String.eqb_neq in Hne. rewrite Hne.
      now rewrite bool_decide_eq_true_2.
    + unfold Watch.WatchlistView_delete. fold s.
      destruct (Nat.eqb_spec (length (filter (fun x => x = s) (watchlist user'))) 0)
        as [Hzero|_].
      { apply filter_same_none in Hzero. contradiction. }
      cbn [fst snd Watch.set_watchlist watchlist achievements].
      assert (filter (fun x => x ≠ s) (watchlist user') = watchlist user) as Hback.
      { rewrite Hw, filter_app, filter_other_notin by exact Hout.
        rewrite filter_cons_False by (intros H; now apply H).
        now rewrite filter_nil, app_nil_r. }
      rewrite Hback.
      split; [reflexivity|]. split; [reflexivity|]. split; [reflexivity|].
      rewrite (proj2 (filter_same_none (watchlist user) s) Hout). reflexivity.
  - unfold Watch.WatchlistView_delete. fold s.
    destruct (Nat.eqb_spec (length (filter (fun x => x = s) (watchlist user))) 0)
      as [Hzero|_]; cbn [snd Watch.set_watchlist watchlist].
    + apply filter_same_none in Hzero. now split.
    + split.
      * intros Hin. apply list_elem_of_filter in Hin as [Hne _]. now apply Hne.
      * apply NoDup_filter.
Qed.

(** ** The list of orders *)

Lemma LimitOrdersView_get_spec status user order_id order :
  (order_id, order) ∈ Watch.LimitOrdersView_get status user
  <-> limit_orders user !! order_id = Some order
      /\ Watch.status_name (o_status order) = default "PENDING" status.
Proof.
  unfold Watch.LimitOrdersView_get.
  rewrite list_elem_of_filter, elem_of_lookup_imap. cbn. split.
  - intros (Hs & i & o & [= -> ->] & Hl). now split.
  - intros [Hl Hs]. split; [exact Hs | eauto].
Qed.

Lemma status_name_inj s1 s2 :
  Watch.status_name s1 = Watch.status_name s2 -> s1 = s2.
Proof. destruct s1, s2; simpl; congruence. Qed.

(** One operation produces no EXPIRED order. *)
Lemma run_never_expires utcoffset catalog user op :
  Forall (fun o => o_status o <> EXPIRED) (limit_orders user) ->
  Forall (fun o => o_status o <> EXPIRED)
         (limit_orders (run utcoffset catalog user op)).
Proof.
  intros Hall. apply Forall_lookup. intros i o' Hl'.
  destruct (limit_orders user !! i) as [o|] eqn:Hl.
  - destruct (run_order_moves utcoffset catalog user op i o Hl)
      as (o1 & Hl1 & (Hs & _)).
    assert (o1 = o') as -> by congruence.
    pose proof (proj1 (Forall_lookup _ _) Hall i o Hl) as Ho. cbn in Ho.
    destruct Hs as [Hs|[_ [Hs|Hs]]]; congruence.
  - (* a new order: the one a submission appends *)
    apply lookup_ge_None in Hl.
    destruct op as [e rq|now rq|id'|e id' current_price]; simpl in Hl'.
    + destruct (ExecuteTradeView_post_cases utcoffset catalog e rq user)
        as [[err Hrej]|(body & side & _ & _ & _ & _ & _ & Ho & _)].
      * rewrite Hrej in Hl'. apply lookup_lt_Some in Hl'. simpl in Hl'. lia.
      * rewrite Ho in Hl'. apply lookup_lt_Some in Hl'. lia.
    + destruct (LimitOrdersView_post_cases now rq user)
        as [[err Hrej]|(o & bp & _ & Hs & _ & _ & Ho & _)].
      * rewrite Hrej in Hl'. apply lookup_lt_Some in Hl'. simpl in Hl'. lia.
      * rewrite Ho in Hl'.
        rewrite lookup_app_r in Hl' by exact Hl.
        apply list_lookup_singleton_Some in Hl' as [_ <-]. congruence.
    + destruct (CancelLimitOrderView_delete_cases id' user)
        as [Hrej|(o & _ & _ & _ & Ho & _)].
      * rewrite Hrej in Hl'. apply lookup_lt_Some in Hl'. simpl in Hl'. lia.
      * rewrite Ho in Hl'. apply lookup_lt_Some in Hl'.
        rewrite length_insert in Hl'. lia.
    + destruct (FillLimitOrderView_post_cases catalog e id' current_price user)
        as [[err Hrej]|[(o & err & _ & _ & _ & Hrej)
                       |(o & body & _ & _ & _ & _ & _ & _ & Ho & _)]].
      * rewrite Hrej in Hl'. apply lookup_lt_Some in Hl'. simpl in Hl'. lia.
      * rewrite Hrej in Hl'. apply lookup_lt_Some in Hl'. simpl in Hl'.
        rewrite length_insert in Hl'. lia.
      * rewrite Ho in Hl'. apply lookup_lt_Some in Hl'.
        rewrite length_insert in Hl'. lia.
Qed.

Lemma run_all_never_expires utcoffset catalog user ops :
  Forall (fun o => o_status o <> EXPIRED) (limit_orders user) ->
  Forall (fun o => o_status o <> EXPIRED)
         (limit_orders (run_all utcoffset catalog user ops)).
Proof.
  unfold run_all. revert user.
  induction ops as [|op ops IH]; intros user Hall; simpl; [exact Hall|].
  apply IH. now apply run_never_expires.
Qed.

Lemma no_expired_listing user :
  Watch.LimitOrdersView_get (Some "EXPIRED") user = []
  <-> Forall (fun o => o_status o <> EXPIRED) (limit_orders user).
Proof.
  split.
  - intros Hnil. apply Forall_lookup. intros i o Hl Hs.
    assert ((i, o) ∈ Watch.LimitOrdersView_get (Some "EXPIRED") user) as Hin
      by (apply LimitOrdersView_get_spec; split; [exact Hl | now rewrite Hs]).
    rewrite Hnil in Hin. now apply elem_of_nil in Hin.
  - intros Hall. apply elem_of_nil_inv. intros [i o] Hin.
    apply LimitOrdersView_get_spec in Hin as [Hl Hs].
    apply (status_name_inj _ EXPIRED) in Hs.
    exact (proj1 (Forall_lookup _ _) Hall i o Hl Hs).
Qed.

(** X23.  The list of orders.  Without a status the list shows exactly the
    orders a cancellation or a fill would still find, each under its
    number; with a status it shows the orders of that status, and nothing
    for a string that is no status.  Cancelling a listed order moves it
    from the list of pending orders to the list of cancelled ones.  And no
    operation makes an order EXPIRED: if that list is empty it is empty
    after any sequence of market trades, submissions, cancellations and
    fills. *)
Theorem X23_order_listing
    (utcoffset : string -> Z -> Z) (catalog : list Achievement) (user : Account) :
  (forall order_id order,
      (order_id, order) ∈ Watch.LimitOrdersView_get None user
      <-> get_pending user order_id = Some order)
  /\ (forall status order_id order,
        (order_id, order)
          ∈ Watch.LimitOrdersView_get (Some (Watch.status_name status)) user
        <-> limit_orders user !! order_id = Some order /\ o_status order = status)
  /\ (forall text,
        (forall status, Watch.status_name status <> text) ->
        Watch.LimitOrdersView_get (Some text) user = [])
  /\ (forall order_id order,
        (order_id, order) ∈ Watch.LimitOrdersView_get None user ->
        let after := snd (CancelLimitOrderView_delete order_id user) in
        (order_id, set_status order CANCELLED)
          ∈ Watch.LimitOrdersView_get (Some "CANCELLED") after
        /\ forall order', (order_id, order') ∉ Watch.LimitOrdersView_get None after)
  /\ (forall ops,
        Watch.LimitOrdersView_get (Some "EXPIRED") user = [] ->
        Watch.LimitOrdersView_get (Some "EXPIRED")
          (run_all utcoffset catalog user ops) = []).
Proof.
  split; [|split; [|split; [|split]]].
  - intros order_id order.
    rewrite LimitOrdersView_get_spec, get_pending_Some. cbn.
    split; intros [Hl Hs]; (split; [exact Hl|]).
    + now apply (status_name_inj _ PENDING).
    + now rewrite Hs.
  - intros status order_id order. rewrite LimitOrdersView_get_spec. cbn.
    split; intros [Hl Hs]; (split; [exact Hl|]).
    + now apply status_name_inj.
    + now rewrite Hs.
  - intros text Hnone. apply elem_of_nil_inv. intros [i o] Hin.
    apply LimitOrdersView_get_spec in Hin as [_ Hs]. cbn in Hs.
    now apply (Hnone (o_status o)).
  - intros order_id order Hin. cbv zeta.
    apply LimitOrdersView_get_spec in Hin as [Hl Hs]. cbn in Hs.
    apply (status_name_inj _ PENDING) in Hs.
    assert (get_pending user order_id = Some order) as Hp
      by now apply get_pending_Some.
    assert (limit_orders (snd (CancelLimitOrderView_delete order_id user))
              !! order_id = Some (set_status order CANCELLED)) as Hafter.
    { unfold CancelLimitOrderView_delete. rewrite Hp.
      destruct (o_trade_type order); cbn;
        apply list_lookup_insert_eq; eapply lookup_lt_Some, Hl. }
    split.
    + apply LimitOrdersView_get_spec. split; [exact Hafter | reflexivity].
    + intros order' Hin'.
      apply LimitOrdersView_get_spec in Hin' as [Hl' Hs']. cbn in Hs'.
      apply (status_name_inj _ PENDING) in Hs'.
      rewrite Hafter in Hl'. injection Hl' as <-. discriminate.
  - intros ops Hnone. apply no_expired_listing.
    apply run_all_never_expires. now apply no_expired_listing.
Qed.

(** ** Where the rates come from *)

Lemma truthy_spec rates :
  RateSource.truthy rates = true
  <-> exists m, rates = Some m /\ (0 < size m)%nat.
Proof.
  unfold RateSource.truthy. destruct rates as [m|].
  - destruct (Nat.eqb_spec (size m) 0) as [Hz|Hnz]; cbn; split.
    + discriminate.
    + intros (m' & [= <-] & H). lia.
    + intros _. exists m. split; [reflexivity | lia].
    + reflexivity.
  - split; [discriminate | intros (m & [=] & _)].
Qed.

Lemma usable_Some rates m :
  usable rates = Some m <-> rates = Some m /\ (0 < size m)%nat.
Proof.
  unfold usable. destruct (RateSource.truthy rates) eqn:E.
  - apply truthy_spec in E as (m' & -> & Hsize). split.
    + intros [= <-]. now split.
    + now intros [H _].
  - split; [discriminate|]. intros [-> Hsize].
    assert (RateSource.truthy (Some m) = true) by (apply truthy_spec; eauto).
    congruence.
Qed.

Lemma _fetch_rates_eq s :
  RateSource._fetch_rates s
  = match open_exchange_table s with
    | Some rates => (rates, "open_exchange_api")
    | None =>
        match exchangerate_api_table s with
        | Some rates => (rates, "exchangerate_api")
        | None =>
            match admin_table s with
            | Some rates => (rates, "admin")
            | None => (RateSource.HARDCODED_FALLBACK_RATES, "hardcoded")
            end
        end
    end.
Proof. reflexivity. Qed.

Lemma hardcoded_nonempty : (0 < size RateSource.HARDCODED_FALLBACK_RATES)%nat.
Proof.
  assert (size RateSource.HARDCODED_FALLBACK_RATES ≠ 0%nat); [|lia].
  apply (map_size_ne_0_lookup_2 _ "USD"). vm_compute. eauto.
Qed.

Lemma open_exchange_table_Some s m :
  open_exchange_table s = Some m
  <-> RateSource.OPEN_EXCHANGE_API_KEY s <> ""
      /\ RateSource.open_exchange_answer s = Some m
      /\ (0 < size m)%nat.
Proof.
  unfold open_exchange_table, RateSource._fetch_from_open_exchange.
  destruct (String.eqb_spec (RateSource.OPEN_EXCHANGE_API_KEY s) "") as [Hk|Hk];
    cbn [negb].
  - split; [discriminate | tauto].
  - rewrite usable_Some. tauto.
Qed.

Lemma exchangerate_api_table_Some s m :
  exchangerate_api_table s = Some m
  <-> RateSource.EXCHANGERATE_API_KEY s <> ""
      /\ (0 < size m)%nat
      /\ exists answer,
           RateSource.exchangerate_api_answer s = Some answer
           /\ m = filter (fun kv : string * Q =>
                            kv.1 ∈ RateSource.SUPPORTED_CURRENCIES) answer.
Proof.
  unfold exchangerate_api_table, RateSource._fetch_from_exchangerate_api.
  destruct (String.eqb_spec (RateSource.EXCHANGERATE_API_KEY s) "") as [Hk|Hk];
    cbn [negb].
  - split; [discriminate | tauto].
  - rewrite usable_Some.
    destruct (RateSource.exchangerate_api_answer s) as [answer|].
    + fold (usable (Some (filter (fun kv : string * Q =>
                                    kv.1 ∈ RateSource.SUPPORTED_CURRENCIES)
                                 answer))).
      split.
      * intros [Hu Hsize]. apply usable_Some in Hu as [[= <-] _].
        split; [exact Hk|]. split; [exact Hsize | eauto].
      * intros (_ & Hsize & answer' & [= <-] & ->).
        split; [|exact Hsize]. now apply usable_Some.
    + split; [intros [[=] _] | intros (_ & _ & answer & [=] & _)].
Qed.

Lemma admin_table_Some s m :
  admin_table s = Some m
  <-> exists table,
        RateSource.site_exchange_rates s = Some table
        /\ (0 < size table)%nat
        /\ m = <["USD" := 1%Q]> table.
Proof.
  unfold admin_table, RateSource._get_admin_rates. rewrite usable_Some.
  destruct (RateSource.site_exchange_rates s) as [table|].
  - destruct (Nat.ltb_spec 0 (size table)) as [Hpos|Hzero]; split.
    + intros [[= <-] _]. eauto.
    + intros (t & [= <-] & _ & ->). split; [reflexivity|].
      assert (size (<["USD" := 1%Q]> table) ≠ 0%nat); [|lia].
      apply (map_size_ne_0_lookup_2 _ "USD"). rewrite lookup_insert_eq. eauto.
    + intros [[=] _].
    + intros (t & [= <-] & Hpos & _). lia.
  - split; [intros [[=] _] | intros (t & [=] & _)].
Qed.

Lemma _fetch_rates_nonempty s : (0 < size (fst (RateSource._fetch_rates s)))%nat.
Proof.
  rewrite _fetch_rates_eq.
  destruct (open_exchange_table s) as [m|] eqn:E1;
    [apply open_exchange_table_Some in E1; tauto|].
  destruct (exchangerate_api_table s) as [m|] eqn:E2;
    [apply exchangerate_api_table_Some in E2; tauto|].
  destruct (admin_table s) as [m|] eqn:E3; [|apply hardcoded_nonempty].
  apply usable_Some in E3. tauto.
Qed.

(** X24.  The cascade of rate sources.  A fetch never returns an empty
    table.  The first provider is asked only when its API key is set, and
    a non-empty answer of it is the result as it is.  A result of the
    second provider is its answer cut down to the ten supported
    currencies.  A result from the admin's table is that table with the
    rate of USD forced to 1.  The hard-coded table is the result exactly
    when the three other sources give nothing; and without API keys the
    answers of the providers do not matter. *)
Theorem X24_fetch_rates_cascade (s : RateSource.sources) :
  let out := RateSource._fetch_rates s in
  (0 < size (fst out))%nat
  /\ (forall m,
        RateSource.OPEN_EXCHANGE_API_KEY s <> "" ->
        RateSource.open_exchange_answer s = Some m ->
        (0 < size m)%nat ->
        out = (m, "open_exchange_api"))
  /\ (snd out = "open_exchange_api" ->
      RateSource.OPEN_EXCHANGE_API_KEY s <> ""
      /\ RateSource.open_exchange_answer s = Some (fst out))
  /\ (snd out = "exchangerate_api" ->
      RateSource.EXCHANGERATE_API_KEY s <> ""
      /\ exists answer,
           RateSource.exchangerate_api_answer s = Some answer
           /\ forall k r,
                fst out !! k = Some r
                <-> answer !! k = Some r /\ k ∈ RateSource.SUPPORTED_CURRENCIES)
  /\ (snd out = "admin" ->
      fst out !! "USD" = Some 1%Q
      /\ exists table,
           RateSource.site_exchange_rates s = Some table
           /\ forall k, k <> "USD" -> fst out !! k = table !! k)
  /\ (snd out = "hardcoded"
      <-> open_exchange_table s = None
          /\ exchangerate_api_table s = None
          /\ admin_table s = None)
  /\ (snd out = "hardcoded" -> fst out = RateSource.HARDCODED_FALLBACK_RATES)
  /\ (RateSource.OPEN_EXCHANGE_API_KEY s = "" ->
      RateSource.EXCHANGERATE_API_KEY s = "" ->
      forall answer1 answer2,
        RateSource._fetch_rates
          (RateSource.mk_sources "" answer1 "" answer2
             (RateSource.site_exchange_rates s))
        = out).
Proof.
  cbv zeta. split; [apply _fetch_rates_nonempty|].
  split.
  { intros m Hk Hm Hsize. rewrite _fetch_rates_eq.
    now rewrite (proj2 (open_exchange_table_Some s m)). }
  split; [|split; [|split; [|split; [|split]]]].
  6: { intros Hk1 Hk2 answer1 answer2.
       rewrite !_fetch_rates_eq.
       unfold open_exchange_table, exchangerate_api_table, admin_table,
         RateSource._get_admin_rates.
       rewrite Hk1, Hk2. reflexivity. }
  all: rewrite _fetch_rates_eq.
  - destruct (open_exchange_table s) as [m1|] eqn:E1.
    + apply open_exchange_table_Some in E1 as (Hk1 & Hm1 & _).
      intros _. now split.
    + destruct (exchangerate_api_table s); [discriminate|].
      destruct (admin_table s); discriminate.
  - destruct (open_exchange_table s); [discriminate|].
    destruct (exchangerate_api_table s) as [m2|] eqn:E2.
    + apply exchangerate_api_table_Some in E2
        as (Hk2 & _ & answer & Hanswer & Hm2).
      intros _. split; [exact Hk2|]. exists answer. split; [exact Hanswer|].
      intros k r. cbn [fst]. rewrite Hm2. apply map_lookup_filter_Some.
    + destruct (admin_table s); discriminate.
  - destruct (open_exchange_table s); [discriminate|].
    destruct (exchangerate_api_table s); [discriminate|].
    destruct (admin_table s) as [m3|] eqn:E3; [|discriminate].
    apply admin_table_Some in E3 as (table & Htable & _ & Hm3).
    intros _. cbn [fst]. rewrite Hm3. split; [apply lookup_insert_eq|].
    exists table. split; [exact Htable|].
    intros k Hk. apply lookup_insert_ne. congruence.
  - destruct (open_exchange_table s);
      [split; [discriminate | intros (? & ? & ?); discriminate]|].
    destruct (exchangerate_api_table s);
      [split; [discriminate | intros (? & ? & ?); discriminate]|].
    destruct (admin_table s);
      [split; [discriminate | intros (? & ? & ?); discriminate]|].
    split; [now intros _ | reflexivity].
  - destruct (open_exchange_table s); [discriminate|].
    destruct (exchangerate_api_table s); [discriminate|].
    destruct (admin_table s); [discriminate | reflexivity].
Qed.

Lemma get_rates_cases c s :
  (exists cached,
      RateSource.exchange_rates c = Some cached
      /\ (0 < size cached)%nat
      /\ RateSource.get_rates c s = (cached, c))
  \/ (RateSource.truthy (RateSource.exchange_rates c) = false
      /\ RateSource.get_rates c s
         = (fst (RateSource._fetch_rates s),
            RateSource.mk_cache (Some (fst (RateSource._fetch_rates s)))
              (Some (snd (RateSource._fetch_rates s))))).
Proof.
  unfold RateSource.get_rates.
  destruct (RateSource.truthy (RateSource.exchange_rates c)) eqn:E.
  - apply truthy_spec in E as (m & Hm & Hsize). rewrite Hm. left. eauto.
  - right. split; [reflexivity|]. now destruct (RateSource._fetch_rates s).
Qed.

(** X25.  The rates are cached.  A call never returns an empty table and
    leaves that table in the cache; every later call returns the same
    table and leaves the cache alone, whatever the providers and the admin
    would answer by then, until the entry expires or the cache is cleared.
    With nothing usable in the cache the table is the fetched one, stored
    with the name of its source; after [clear_cache] the next call
    fetches again. *)
Theorem X25_rates_are_cached (c : RateSource.cache) (s : RateSource.sources) :
  let out := RateSource.get_rates c s in
  (0 < size (fst out))%nat
  /\ RateSource.exchange_rates (snd out) = Some (fst out)
  /\ (forall s', RateSource.get_rates (snd out) s' = out)
  /\ (RateSource.truthy (RateSource.exchange_rates c) = false ->
      fst out = fst (RateSource._fetch_rates s)
      /\ RateSource.exchange_rates_source (snd out)
         = Some (snd (RateSource._fetch_rates s)))
  /\ (forall s',
        fst (RateSource.get_rates (RateSource.clear_cache (snd out)) s')
        = fst (RateSource._fetch_rates s')).
Proof.
  cbv zeta.
  assert (forall s',
             fst (RateSource.get_rates (RateSource.clear_cache
                                          (snd (RateSource.get_rates c s))) s')
             = fst (RateSource._fetch_rates s')) as Hclear.
  { intros s'. unfold RateSource.clear_cache.
    destruct (get_rates_cases (RateSource.mk_cache None None) s')
      as [(m & [=] & _)|[_ ->]]. reflexivity. }
  destruct (get_rates_cases c s) as [(m & Hm & Hsize & Hout)|[Hcold Hout]].
  - rewrite Hout in *. cbn [fst snd].
    split; [exact Hsize|]. split; [exact Hm|]. split; [|split].
    + intros s'.
      destruct (get_rates_cases c s') as [(m' & Hm' & _ & ->)|[Hcold _]].
      * congruence.
      * assert (RateSource.truthy (RateSource.exchange_rates c) = true)
          by (apply truthy_spec; eauto).
        congruence.
    + intros Hcold.
      assert (RateSource.truthy (RateSource.exchange_rates c) = true)
        by (apply truthy_spec; eauto).
      congruence.
    + exact Hclear.
  - pose proof (_fetch_rates_nonempty s) as Hsize.
    split; [now rewrite Hout|]. split; [now rewrite Hout|].
    split; [|split].
    + intros s'. rewrite Hout. cbn [snd].
      destruct (get_rates_cases
                  (RateSource.mk_cache (Some (fst (RateSource._fetch_rates s)))
                     (Some (snd (RateSource._fetch_rates s)))) s')
        as [(m' & [= <-] & _ & ->)|[Hcold' _]]; [reflexivity|].
      assert (RateSource.truthy (Some (fst (RateSource._fetch_rates s))) = true)
        by (apply truthy_spec; eauto).
      cbn [RateSource.exchange_rates] in Hcold'. congruence.
    + intros _. now rewrite Hout.
    + exact Hclear.
Qed.




(** ** The rank an account shows *)

Lemma run_rank_cached utcoffset catalog user op :
  rank_cached user -> rank_cached (run utcoffset catalog user op).
Proof.
  intros Hc.
  destruct (run_profile utcoffset catalog user op)
    as (_ & _ & _ & _ & _ & [(_ & Hx & Hl & Hr & _)|(_ & _ & Hr)]);
    [|exact Hr].
  unfold rank_cached in *. congruence.
Qed.

Lemma run_all_rank_cached utcoffset catalog user ops :
  rank_cached user -> rank_cached (run_all utcoffset catalog user ops).
Proof.
  unfold run_all. revert user.
  induction ops as [|op ops IH]; intros user Hc; simpl; [exact Hc|].
  apply IH. now apply run_rank_cached.
Qed.

(** X27.  The rank summary after any sequence of operations.  For an
    account whose level and rank are those of its XP, which is not
    negative, and after any sequence of market trades, submissions,
    cancellations and fills: the summary shows the level and the rank of
    the XP it shows; the level is at least the one the account started
    with and at most 7; and the next rank is absent exactly at level 7,
    and otherwise one level above the level shown, at a threshold that
    exceeds the XP shown by the positive remainder announced. *)
Theorem X27_rank_summary
    (utcoffset : string -> Z -> Z) (catalog : list Achievement)
    (user : Account) (ops : list operation) :
  rank_cached user ->
  0 <= xp user ->
  let info := RankInfo.get_rank_info (run_all utcoffset catalog user ops) in
  (RankInfo.ri_level info, RankInfo.ri_rank info)
  = Xp.get_rank_for_xp (RankInfo.ri_xp info)
  /\ xp user <= RankInfo.ri_xp info
  /\ level user <= RankInfo.ri_level info <= 7
  /\ match RankInfo.ri_nextRank info with
     | None => RankInfo.ri_level info = 7
     | Some next =>
         RankInfo.ri_level info < 7
         /\ RankInfo.nr_level next = RankInfo.ri_level info + 1
         /\ 0 < RankInfo.nr_xpRemaining next
         /\ RankInfo.nr_xpRequired next
            = RankInfo.ri_xp info + RankInfo.nr_xpRemaining next
     end.
Proof.
  intros Hc Hxp. cbv zeta.
  set (after := run_all utcoffset catalog user ops).
  pose proof (run_all_rank_cached utcoffset catalog user ops Hc) as Hc'.
  destruct (run_all_profile utcoffset catalog ops user) as (_ & _ & _ & _ & _ & Hup).
  fold after in Hc', Hup.
  unfold RankInfo.get_rank_info.
  cbn [RankInfo.ri_level RankInfo.ri_rank RankInfo.ri_xp RankInfo.ri_nextRank].
  unfold rank_cached in Hc, Hc'.
  assert (level after = fst (Xp.get_rank_for_xp (xp after))) as Hl'
    by now rewrite <- Hc'.
  assert (level user = fst (Xp.get_rank_for_xp (xp user))) as Hl
    by now rewrite <- Hc.
  split; [exact Hc'|]. split; [exact Hup|]. split.
  - rewrite Hl, Hl'. split; [now apply rank_level_monotone|].
    apply rank_level_bounds.
  - rewrite Hl'. unfold RankInfo.get_next_rank_info.
    cbn [RankInfo.first_above Xp.RANK_LADDER].
    rewrite rank_piecewise.
    set (x := xp after) in *.
    ladder_cases; cbn; try lia.
Qed.

(** Alice after her first trade. *)
Lemma X27_witness :
  let info :=
    RankInfo.get_rank_info
      (run_all MarketHours.fixed_offsets seed_catalog alice
         [MarketTrade env_open (mk_trade_request "AAPL" None "BUY" 10 150 None)]) in
  (RankInfo.ri_level info, RankInfo.ri_rank info)
  = Xp.get_rank_for_xp (RankInfo.ri_xp info)
  /\ xp alice <= RankInfo.ri_xp info.
Proof.
  cbv zeta.
  assert (rank_cached alice) as Hc by reflexivity.
  assert (0 <= xp alice) as Hxp by (cbn; lia).
  destruct (X27_rank_summary MarketHours.fixed_offsets seed_catalog alice
              [MarketTrade env_open (mk_trade_request "AAPL" None "BUY" 10 150 None)]
              Hc Hxp) as (H1 & H2 & _).
  split; [exact H1 | exact H2].
Defined.

(** ** The gate of a market trade *)

(** The schedule read at the clock. *)
Lemma schedule_at_clock utcoffset clock market :
  let zone := if String.eqb market "IN" then "Asia/Kolkata" else "America/New_York" in
  let local := clock + utcoffset zone clock in
  let r := MarketHours._is_market_open_schedule utcoffset clock market None in
  (MarketHours.is_open r = true
   <-> MarketHours.weekday local < 5
       /\ fst (trading_window market) <= local mod MarketHours.DAY
          < snd (trading_window market))
  /\ (MarketHours.is_open r = false -> MarketHours.reason r <> "").
Proof.
  cbv zeta. unfold MarketHours._is_market_open_schedule, trading_window.
  rewrite get_schedule_cases.
  unfold MarketHours.astimezone. cbn [MarketHours.timestamp].
  destruct (String.eqb market "IN");
    cbn [MarketHours.timezone MarketHours.open MarketHours.close
         MarketHours.name MarketHours.display_hours
         MarketHours.IN_SCHEDULE MarketHours.US_SCHEDULE fst snd];
    match goal with
    | |- context [MarketHours.weekday ?l] => set (local := l)
    end;
    unfold MarketHours.time_geb;
    rewrite !time_of_ltb by lia;
    destruct (Z.leb_spec 5 (MarketHours.weekday local));
    repeat match goal with
           | |- context [?a <? ?b] => destruct (Z.ltb_spec a b)
           end;
    cbn [orb negb MarketHours.is_open MarketHours.reason];
    (split; [split; try discriminate; try lia; reflexivity|]);
    try discriminate; intros _; discriminate.
Qed.

(** What the view learns from the gate. *)
Lemma ExecuteTradeView_post_gate utcoffset catalog e rq user :
  let out := ExecuteTradeView_post utcoffset catalog e rq user in
  let gate :=
    MarketHours.is_market_open utcoffset (env_market_status e) (env_now e)
      (user_market user) (Str.upper (rq_symbol rq)) None in
  (forall body, fst out = Ok body -> MarketHours.is_open gate = true)
  /\ (forall reason,
        fst out = Rejected (MarketClosed reason) ->
        MarketHours.is_open gate = false /\ reason = MarketHours.reason gate).
Proof.
  cbv zeta. unfold ExecuteTradeView_post.
  destruct (parse_side (Str.upper (rq_type rq))) as [side|];
    [|split; [discriminate | intros reason [=]]].
  destruct (String.eqb (Str.upper (rq_symbol rq)) "" || Qle_bool (rq_shares rq) 0
            || Qle_bool (rq_price rq) 0)%bool;
    [split; [discriminate | intros reason [=]]|].
  destruct (MarketHours.is_open _) eqn:Eopen; cbn [negb].
  2: { split; [discriminate|]. intros reason [= <-]. now split. }
  split; [reflexivity|]. intros reason.
  destruct side.
  - destruct (MarketHours.is_symbol_valid_for_market _ _) as [valid market_error].
    destruct valid; cbn [negb]; [|discriminate].
    destruct (Qlt_bool (buying_power user) _); [discriminate|].
    cbn [holdings set_buying_power].
    destruct (buy_holding _ _ _ _ _ _ _); [|discriminate].
    destruct (reward _ _ _ _ _ _). discriminate.
  - cbn [negb].
    destruct (holdings user !! Str.upper (rq_symbol rq)) as [holding|];
      [|discriminate].
    destruct (Qlt_bool (h_shares holding) (rq_shares rq)); [discriminate|].
    destruct (reward _ _ _ _ _ _). discriminate.
Qed.

(** X28.  Market trades and the gate.  A market trade is accepted only
    while its market is open: the symbol is crypto, or the provider
    answers that the market is open, or the provider gives no answer and
    the clock, read in the market's time zone, shows Monday to Friday
    within the trading window.  A rejection as "market closed" is never
    for a crypto symbol, carries a reason that is not empty, and happens
    exactly the other way round: the provider answers that the market is
    closed, or it gives no answer and the clock is outside the window. *)
Theorem X28_trades_only_while_open
    (utcoffset : string -> Z -> Z) (catalog : list Achievement)
    (e : env) (rq : trade_request) (user : Account) :
  let out := ExecuteTradeView_post utcoffset catalog e rq user in
  let market := user_market user in
  let zone := if String.eqb market "IN" then "Asia/Kolkata" else "America/New_York" in
  let local := env_now e + utcoffset zone (env_now e) in
  let in_window :=
    MarketHours.weekday local < 5
    /\ fst (trading_window market) <= local mod MarketHours.DAY
       < snd (trading_window market) in
  let no_answer :=
    env_market_status e = MarketHours.OracleRaises
    \/ env_market_status e = MarketHours.OracleReturns None in
  (forall body,
      fst out = Ok body ->
      crypto_symbol (rq_symbol rq) = true
      \/ (exists status,
             env_market_status e = MarketHours.OracleReturns (Some status)
             /\ MarketHours.isOpen status = true)
      \/ (no_answer /\ in_window))
  /\ (forall reason,
        fst out = Rejected (MarketClosed reason) ->
        crypto_symbol (rq_symbol rq) = false
        /\ reason <> ""
        /\ ((exists status,
                env_market_status e = MarketHours.OracleReturns (Some status)
                /\ MarketHours.isOpen status = false)
            \/ (no_answer /\ ~ in_window))).
Proof.
  cbv zeta.
  destruct (ExecuteTradeView_post_gate utcoffset catalog e rq user) as [Hok Hclosed].
  destruct (schedule_at_clock utcoffset (env_now e) (user_market user))
    as [Hwindow Hreason].
  assert (forall s t : string, (s ++ String " "%char t) <> "") as Hmsg
    by (intros s t; apply append_nonempty; discriminate).
  unfold MarketHours.is_market_open in Hok, Hclosed.
  rewrite upper_idempotent in Hok, Hclosed. fold (crypto_symbol (rq_symbol rq)) in *.
  destruct (crypto_symbol (rq_symbol rq)).
  { split; [now left|]. intros reason H. apply Hclosed in H as [H _].
    discriminate. }
  destruct (env_market_status e) as [|[status|]].
  - split.
    + intros body H. right. right. split; [now left|]. apply Hwindow. eauto.
    + intros reason H. apply Hclosed in H as [Hc ->].
      split; [reflexivity|]. split; [now apply Hreason|].
      right. split; [now left|]. rewrite <- Hwindow. congruence.
  - destruct (MarketHours.isOpen status) eqn:Eopen.
    + split.
      * intros body _. right. left. eauto.
      * intros reason H. apply Hclosed in H as [Hc _]. discriminate.
    + split.
      * intros body H. apply Hok in H. discriminate.
      * intros reason H. apply Hclosed in H as [_ ->].
        split; [reflexivity|]. split; [|left; eauto].
        cbn [MarketHours.reason].
        destruct (MarketHours.truthy (MarketHours.holiday status)); apply Hmsg.
  - split.
    + intros body H. right. right. split; [now right|]. apply Hwindow. eauto.
    + intros reason H. apply Hclosed in H as [Hc ->].
      split; [reflexivity|]. split; [now apply Hreason|].
      right. split; [now right|]. rewrite <- Hwindow. congruence.
Qed.

(** ** Friend requests *)

Lemma is_friend_spec w a b :
  is_friend w a b = true
  <-> exists f, f ∈ friendships w /\ Friends.between a b f /\ f_status f = "accepted".
Proof.
  unfold is_friend. rewrite existsb_exists. split.
  - intros (f & Hin & Hf). apply andb_true_iff in Hf as [Hb Hs].
    apply bool_decide_eq_true in Hb. apply String.eqb_eq in Hs.
    exists f. split; [now apply list_elem_of_In|]. now split.
  - intros (f & Hin & Hb & Hs). exists f. split; [now apply list_elem_of_In|].
    apply andb_true_iff. split; [now apply bool_decide_eq_true|].
    now apply String.eqb_eq.
Qed.

Lemma between_sym a b f : Friends.between a b f <-> Friends.between b a f.
Proof. unfold Friends.between. tauto. Qed.

Lemma is_friend_sym w a b : is_friend w a b = is_friend w b a.
Proof.
  apply eq_true_iff_eq. rewrite !is_friend_spec.
  split; intros (f & Hin & Hb & Hs); exists f; (split; [exact Hin|]);
    (split; [now apply between_sym | exact Hs]).
Qed.

Lemma world_eta w : mk_world (users w) (friendships w) (transfers w) = w.
Proof. now destruct w. Qed.

Section Handshake.

Variable w : World.
Variables a b : string.
Variable pos : nat.

Hypothesis Ha : account_of w a.
Hypothesis Hb : account_of w b.
Hypothesis Hab : a <> b.
Hypothesis Hstrangers : strangers w a b.

Let id := Nat.min pos (length (friendships w)).

Lemma row_lookup row : friendships (with_row w id row) !! id = Some row.
Proof.
  unfold with_row. cbn [friendships Friends.set_friendships].
  apply list_lookup_middle. rewrite length_take. unfold id. lia.
Qed.

Lemma row_insert row row' :
  <[id := row']> (friendships (with_row w id row)) = friendships (with_row w id row').
Proof.
  unfold with_row. cbn [friendships Friends.set_friendships].
  assert (length (take id (friendships w)) = id) as Hlen
    by (rewrite length_take; unfold id; lia).
  rewrite insert_app_r_alt by lia. now rewrite Hlen, Nat.sub_diag.
Qed.

Lemma row_delete row : delete id (friendships (with_row w id row)) = friendships w.
Proof.
  unfold with_row. cbn [friendships Friends.set_friendships].
  assert (length (take id (friendships w)) = id) as Hlen
    by (rewrite length_take; unfold id; lia).
  rewrite <- Hlen at 1. rewrite delete_middle. apply take_drop.
Qed.

Lemma row_elem_of row f :
  f ∈ friendships (with_row w id row) <-> f = row \/ f ∈ friendships w.
Proof.
  unfold with_row. cbn [friendships Friends.set_friendships].
  rewrite elem_of_app, elem_of_cons.
  rewrite <- (take_drop id (friendships w)) at 3. rewrite elem_of_app. tauto.
Qed.

(** The row between the two users is the one [.first()] finds. *)
Lemma row_found (P : Friendship -> Prop) `{!forall f, Decision (P f)} row :
  (forall f, P f <-> Friends.between a b f) ->
  Friends.between a b row ->
  list_find P (friendships (with_row w id row)) = Some (id, row).
Proof.
  intros HP Hrow. apply list_find_Some.
  split; [apply row_lookup|]. split; [now apply HP|].
  intros j y Hj Hlt Hy. apply HP in Hy.
  unfold with_row in Hj. cbn [friendships Friends.set_friendships] in Hj.
  rewrite lookup_app_l in Hj by (rewrite length_take; unfold id in *; lia).
  apply lookup_take_Some in Hj as [Hj _].
  unfold strangers in Hstrangers.
  exact (proj1 (Forall_lookup _ _) Hstrangers j y Hj Hy).
Qed.

Lemma row_users row : users (with_row w id row) = users w.
Proof. reflexivity. Qed.

End Handshake.

Ltac back_to_start :=
  match goal with
  | |- _ = (?r, ?w) =>
      transitivity (r, mk_world (users w) (friendships w) (transfers w));
      [reflexivity | now rewrite world_eta]
  end.

Lemma strangers_no_pair w a b :
  strangers w a b ->
  existsb (fun f => bool_decide (f_from_user f = a ∧ f_to_user f = b))
          (friendships w) = false.
Proof.
  intros Hs. apply not_true_is_false. intros H.
  apply existsb_exists in H as (f & Hin & Hf).
  apply bool_decide_eq_true in Hf.
  apply list_elem_of_In in Hin.
  apply (proj1 (Forall_forall _ _) Hs f Hin). now left.
Qed.

Lemma strangers_not_friends w a b : strangers w a b -> is_friend w a b = false.
Proof.
  intros Hs. apply not_true_is_false. intros H.
  apply is_friend_spec in H as (f & Hin & Hb & _).
  exact (proj1 (Forall_forall _ _) Hs f Hin Hb).
Qed.

(** Without an accepted friendship every transfer is rejected. *)
Lemma transfer_needs_friend now rates1 rates2 a b amount w :
  account_of w a -> account_of w b -> is_friend w a b = false ->
  exists err,
    TransferFundsView_post now rates1 rates2 a b amount w = (Rejected err, w).
Proof.
  intros (ua & Hua & Hna) (ub & Hub & Hnb) Hf.
  destruct (TransferFundsView_post_cases now rates1 rates2 a b amount w)
    as [Hrej|(user & recipient & ra & transfer & Hme & Hto & _ & Hfriend & _)];
    [exact Hrej|].
  rewrite Hua in Hme. rewrite Hub in Hto.
  injection Hme as <-. injection Hto as <-. congruence.
Qed.

(** X29.  Friend requests, from strangers to friends and back.  For two
    different users with no friendship row between them: a request of the
    first creates one pending row, at the place its key falls; while it is
    pending the two are not friends and every transfer between them is
    rejected; a second request of the sender is refused, and the sender
    cannot accept the request.  The request is accepted by the recipient,
    or by a request of the recipient in the other direction, which does
    not create a second row; both leave the same table.  From then on the
    two are friends in both directions, a transfer between them is never
    rejected for want of friendship, and new requests are refused.
    Rejecting the request, or removing the friendship by either of the
    two, deletes the row and leaves the tables as they were at the
    start. *)
Theorem X29_friend_request_handshake (w : World) (a b : string) (pos : nat) :
  account_of w a ->
  account_of w b ->
  a <> b ->
  strangers w a b ->
  let id := Nat.min pos (length (friendships w)) in
  let w1 := with_row w id (mk_friendship a b "pending") in
  let w2 := with_row w id (mk_friendship a b "accepted") in
  Friends.SendFriendRequestView_post pos a b w = (inr ("pending", id), w1)
  /\ is_friend w1 a b = false
  /\ (forall now rates1 rates2 amount,
        (exists err,
            TransferFundsView_post now rates1 rates2 a b amount w1 = (Rejected err, w1))
        /\ (exists err,
              TransferFundsView_post now rates1 rates2 b a amount w1
              = (Rejected err, w1)))
  /\ (forall pos',
        Friends.SendFriendRequestView_post pos' a b w1
        = (inl Friends.RequestAlreadySent, w1))
  /\ Friends.RespondFriendRequestView_post a id (Some "accept") w1
     = (inl Friends.RequestNotFound, w1)
  /\ Friends.RespondFriendRequestView_post b id (Some "accept") w1
     = (inr "accepted", w2)
  /\ (forall pos',
        Friends.SendFriendRequestView_post pos' b a w1 = (inr ("accepted", id), w2))
  /\ Friends.RespondFriendRequestView_post b id (Some "reject") w1
     = (inr "rejected", w)
  /\ is_friend w2 a b = true
  /\ is_friend w2 b a = true
  /\ (forall now rates1 rates2 amount,
        fst (TransferFundsView_post now rates1 rates2 a b amount w2)
        <> Rejected NotFriends)
  /\ (forall pos',
        Friends.SendFriendRequestView_post pos' a b w2
        = (inl Friends.AlreadyFriends, w2)
        /\ Friends.SendFriendRequestView_post pos' b a w2
           = (inl Friends.AlreadyFriends, w2))
  /\ Friends.RemoveFriendView_delete a id w2 = (inr tt, w)
  /\ Friends.RemoveFriendView_delete b id w2 = (inr tt, w).
Proof.
  intros Ha Hb Hab Hstrangers. cbv zeta.
  set (id := Nat.min pos (length (friendships w))).
  set (w1 := with_row w id (mk_friendship a b "pending")).
  set (w2 := with_row w id (mk_friendship a b "accepted")).
  pose proof Ha as (ua & Hua & Hna). pose proof Hb as (ub & Hub & Hnb).
  assert (String.eqb a b = false) as Eab by now apply String.eqb_neq.
  assert (String.eqb b a = false) as Eba by (apply String.eqb_neq; congruence).
  assert (forall row, account_of (with_row w id row) a) as Ha' by (intros; exact Ha).
  assert (forall row, account_of (with_row w id row) b) as Hb' by (intros; exact Hb).
  assert (forall s, Friends.between a b (mk_friendship a b s)) as Hrow
    by (intros s; left; now split).
  assert (forall s,
             list_find (Friends.between a b)
               (friendships (with_row w id (mk_friendship a b s)))
             = Some (id, mk_friendship a b s)) as Hfind_ab
    by (intros s; apply (row_found w a b pos Hstrangers); [reflexivity | apply Hrow]).
  assert (forall s,
             list_find (Friends.between b a)
               (friendships (with_row w id (mk_friendship a b s)))
             = Some (id, mk_friendship a b s)) as Hfind_ba
    by (intros s; apply (row_found w a b pos Hstrangers);
        [intros f; apply between_sym | apply Hrow]).
  assert (is_friend w1 a b = false) as Hnot.
  { apply not_true_is_false. intros H.
    apply is_friend_spec in H as (f & Hin & Hbt & Hs).
    apply (row_elem_of w pos) in Hin as [->|Hin]; [discriminate|].
    exact (proj1 (Forall_forall _ _) Hstrangers f Hin Hbt). }
  assert (is_friend w2 a b = true) as Hyes.
  { apply is_friend_spec. exists (mk_friendship a b "accepted").
    split; [apply (row_elem_of w pos); now left|]. split; [apply Hrow | reflexivity]. }
  assert (Friends.set_friendships w (friendships w) = w) as Hsame
    by apply world_eta.
  assert (forall row, friendships (with_row w id row) !! id = Some row) as Hlookup
    by (intros row; apply row_lookup).
  assert (forall row row',
             <[id := row']> (friendships (with_row w id row))
             = friendships (with_row w id row')) as Hinsert
    by (intros row row'; apply row_insert).
  assert (forall row, delete id (friendships (with_row w id row)) = friendships w)
    as Hdelete by (intros row; apply row_delete).
  split.
  { unfold Friends.SendFriendRequestView_post.
    rewrite Hua, Hna, Eab, Hub, Hnb.
    rewrite (proj2 (list_find_None _ _) Hstrangers).
    unfold Friends.create. now rewrite strangers_no_pair. }
  split; [exact Hnot|].
  split.
  { intros now rates1 rates2 amount. split.
    - now apply transfer_needs_friend.
    - apply transfer_needs_friend; [apply Hb' | apply Ha'|].
      now rewrite is_friend_sym. }
  split.
  { intros pos'. unfold Friends.SendFriendRequestView_post.
    change (users w1) with (users w).
    rewrite Hua, Hna, Eab, Hub, Hnb.
    unfold w1. rewrite Hfind_ab. cbn [f_status f_from_user].
    now rewrite String.eqb_refl. }
  split.
  { unfold Friends.RespondFriendRequestView_post.
    change (users w1) with (users w). rewrite Hua, Hna.
    unfold w1. rewrite Hlookup. cbn [f_to_user f_status].
    now rewrite Eba. }
  split.
  { unfold Friends.RespondFriendRequestView_post.
    change (users w1) with (users w). rewrite Hub, Hnb.
    unfold w1. rewrite Hlookup. cbn [f_to_user f_status].
    rewrite String.eqb_refl, Hinsert. reflexivity. }
  split.
  { intros pos'. unfold Friends.SendFriendRequestView_post.
    change (users w1) with (users w).
    rewrite Hub, Hnb, Eba, Hua, Hna.
    unfold w1. rewrite Hfind_ba. cbn [f_status f_from_user].
    rewrite Eab, !String.eqb_refl, Hinsert. reflexivity. }
  split.
  { unfold Friends.RespondFriendRequestView_post.
    change (users w1) with (users w). rewrite Hub, Hnb.
    unfold w1. rewrite Hlookup. cbn [f_to_user f_status].
    rewrite String.eqb_refl, Hdelete.
    back_to_start. }
  split; [exact Hyes|].
  split; [now rewrite is_friend_sym|].
  split.
  { intros now rates1 rates2 amount.
    unfold TransferFundsView_post.
    change (users w2) with (users w). rewrite Hua.
    destruct (Qle_bool amount 0); [discriminate|].
    destruct (String.eqb b ""); [discriminate|].
    rewrite Hna, Eab, Hub, Hnb, Hyes. cbn [negb].
    destruct (Qlt_bool (buying_power ua) amount); [discriminate|].
    destruct (Currency.convert rates1 amount _ _); discriminate. }
  split.
  { intros pos'. unfold Friends.SendFriendRequestView_post.
    change (users w2) with (users w).
    rewrite Hua, Hna, Eab, Hub, Hnb, Eba.
    unfold w2. rewrite Hfind_ab, Hfind_ba. now split. }
  split.
  - unfold Friends.RemoveFriendView_delete.
    change (users w2) with (users w). rewrite Hua, Hna.
    unfold w2. rewrite Hlookup. cbn [f_from_user f_to_user].
    rewrite String.eqb_refl, Hdelete. cbn [orb].
    back_to_start.
  - unfold Friends.RemoveFriendView_delete.
    change (users w2) with (users w). rewrite Hub, Hnb.
    unfold w2. rewrite Hlookup. cbn [f_from_user f_to_user].
    rewrite String.eqb_refl, orb_true_r, Hdelete.
    back_to_start.
Qed.

(** Bob and Carol of [bank]: Bob asks, Carol asks back, and they are
    friends. *)
Lemma X29_witness :
  let w1 := snd (Friends.SendFriendRequestView_post 0 "bob" "carol" bank) in
  let w2 := snd (Friends.SendFriendRequestView_post 5 "carol" "bob" w1) in
  is_friend bank "bob" "carol" = false
  /\ is_friend w1 "bob" "carol" = false
  /\ is_friend w2 "bob" "carol" = true
  /\ length (friendships w2) = 3%nat.
Proof.
  cbv zeta.
  assert (account_of bank "bob") as Ha by (eexists; split; reflexivity).
  assert (account_of bank "carol") as Hb by (eexists; split; reflexivity).
  assert ("bob" <> "carol") as Hab by discriminate.
  assert (strangers bank "bob" "carol") as Hs.
  { repeat constructor; intros [[H1 H2]|[H1 H2]]; discriminate. }
  destruct (X29_friend_request_handshake bank "bob" "carol" 0 Ha Hb Hab Hs)
    as (Hsend & Hnot & _ & _ & _ & _ & Hback & _ & Hyes & _).
  rewrite Hsend. cbn [snd]. rewrite (Hback 5%nat). cbn [snd].
  split; [reflexivity|]. split; [exact Hnot|]. split; [exact Hyes|].
  reflexivity.
Defined.

(** ** What a pending order reserves *)



